(** * device-sdk-go: internal/application/command.go

    A shallow embedding of the command marshaling and dispatch engine
    (CommandHandler, the four CommandProcessor methods, parseParams,
    createCommandValueFromDeviceResource, float32FromBytes and
    float64FromBytes) together with the properties of the engine that
    the specification states.

    Conventions of the embedding:
    - Go strings are [string]; byte slices are [list Z] with every
      element in [0, 256); unsigned and signed machine integers are [Z]
      with the conversions written out;
    - a float32 (float64) is its IEEE-754 bit pattern, a [Z] below 2^32
      (2^64);
    - a Go map used by value (the body parameters, a mapping table) is a
      [gmap]; the attribute maps of the device resources, which the code
      shares by reference, live in a heap of maps;
    - a pointer that may be nil is an [option];
    - the methods run in a small monad that threads the heap and a log of
      the calls made to the collaborators, and that ends in a value, an
      error or a run-time panic. *)

From Stdlib Require Import ZArith String Ascii List Bool Lia.
From stdpp Require Import base option gmap strings list fin_maps.
Import ListNotations.

Local Open Scope string_scope.
Local Open Scope Z_scope.

(** ** The parts of the Go standard library that the engine calls *)

Definition byteOf (c : ascii) : Z := Z.of_N (N_of_ascii c).

Definition lower (c : ascii) : ascii :=
  if (65 <=? byteOf c) && (byteOf c <=? 90)
  then ascii_of_N (N_of_ascii c + 32) else c.

Module strconv.

(** The two causes a [*strconv.NumError] can carry. *)
Inductive NumErr := ErrSyntax | ErrRange.

Definition isDigit (c : ascii) : bool :=
  (48 <=? byteOf c) && (byteOf c <=? 57).

(** ParseBool accepts 1, t, T, TRUE, true, True, 0, f, F, FALSE, false,
    False. *)
Definition ParseBool (s : string) : bool + NumErr :=
  let among := existsb (String.eqb s) in
  if among ["1"; "t"; "T"; "TRUE"; "true"; "True"] then inl true
  else if among ["0"; "f"; "F"; "FALSE"; "false"; "False"] then inl false
  else inr ErrSyntax.

(** The digit loop of ParseUint in base 10: a character that is not a
    digit is a syntax error; the first digit that takes the value above
    [maxVal] is a range error, reported at once. (Go tests for the
    overflow of uint64 first; as [maxVal] is below 2^64 the two tests of
    the source amount to this one.) *)
Fixpoint uintLoop (maxVal n : Z) (s : string) : Z + NumErr :=
  match s with
  | EmptyString => inl n
  | String c r =>
      if isDigit c then
        let n1 := n * 10 + (byteOf c - 48) in
        if maxVal <? n1 then inr ErrRange else uintLoop maxVal n1 r
      else inr ErrSyntax
  end.

(** ParseUint(s, 10, bitSize): no sign, no underscore, no prefix. *)
Definition ParseUint (s : string) (bitSize : Z) : Z + NumErr :=
  match s with
  | EmptyString => inr ErrSyntax
  | _ => uintLoop (2 ^ bitSize - 1) 0 s
  end.

(** ParseInt(s, 10, bitSize): an optional sign, then ParseUint at the
    same bit size; a range error of ParseUint leaves the largest
    unsigned value, which the cutoff test that follows rejects. *)
Definition ParseInt (s : string) (bitSize : Z) : Z + NumErr :=
  match s with
  | EmptyString => inr ErrSyntax
  | String c r =>
      let neg := (byteOf c =? 45) in
      let s1 := if (byteOf c =? 43) || neg then r else s in
      match ParseUint s1 bitSize with
      | inr ErrSyntax => inr ErrSyntax
      | res =>
          let un := match res with inl u => u | inr _ => 2 ^ bitSize - 1 end in
          let cutoff := 2 ^ (bitSize - 1) in
          if negb neg && (cutoff <=? un) then inr ErrRange
          else if neg && (cutoff <? un) then inr ErrRange
          else inl (if neg then - un else un)
      end
  end.

(** Bit patterns of the special values. math.NaN() is
    0x7FF8000000000001; narrowed to float32 it is 0x7FC00000. *)
Definition NaN (bitSize : Z) : Z :=
  if bitSize =? 32 then 0x7FC00000 else 0x7FF8000000000001.
Definition Inf (neg : bool) (bitSize : Z) : Z :=
  if bitSize =? 32
  then (if neg then 0xFF800000 else 0x7F800000)
  else (if neg then 0xFFF0000000000000 else 0x7FF0000000000000).

Fixpoint commonPrefixLenIgnoreCase (s pre : string) : Z :=
  match s, pre with
  | String c r, String p q =>
      if Ascii.eqb (lower c) p then 1 + commonPrefixLenIgnoreCase r q else 0
  | _, _ => 0
  end.

(** special: the possibly signed inf, infinity and the unsigned nan,
    in any letter case, at the front of [s]; the result is the value
    and the number of bytes it takes. *)
Definition special (s : string) (bitSize : Z) : option (Z * Z) :=
  match s with
  | EmptyString => None
  | String c r =>
      let b := byteOf c in
      let inf (neg : bool) (nsign : Z) (t : string) :=
        let n := commonPrefixLenIgnoreCase t "infinity" in
        let n := if (3 <? n) && (n <? 8) then 3 else n in
        if (n =? 3) || (n =? 8) then Some (Inf neg bitSize, nsign + n)
        else None in
      if (b =? 43) || (b =? 45) then inf (b =? 45) 1 r
      else if (b =? 105) || (b =? 73) then inf false 0 s
      else if (b =? 110) || (b =? 78) then
        if commonPrefixLenIgnoreCase s "nan" =? 3
        then Some (NaN bitSize, 3) else None
      else None
  end.

Fixpoint hasDigit (s : string) : bool :=
  match s with
  | EmptyString => false
  | String c r => isDigit c || hasDigit r
  end.

Section ParseFloat.
(** The conversion of a decimal or hexadecimal numeral to the nearest
    float of the given size (readFloat and the rounding that follows
    it) is left open: [atofNumeric bitSize s] is its result on a text
    that is not a special value and holds at least one digit. *)
Variable atofNumeric : Z -> string -> Z + NumErr.

(** ParseFloat(s, bitSize), as the bit pattern of the float of that
    size. (For bitSize 32 Go returns that float32 widened to float64
    and the engine narrows it back with float32(val); the two
    conversions cancel.) A special value must take the whole text; a
    text without any digit holds no mantissa and is a syntax error. *)
Definition ParseFloat (s : string) (bitSize : Z) : Z + NumErr :=
  match special s bitSize with
  | Some (f, n) =>
      if n =? Z.of_nat (String.length s) then inl f else inr ErrSyntax
  | None =>
      if hasDigit s then atofNumeric bitSize s else inr ErrSyntax
  end.
End ParseFloat.

End strconv.

Module strings.

Definition inCutset (cutset : string) (c : ascii) : bool :=
  existsb (Ascii.eqb c) (list_ascii_of_string cutset).

Fixpoint TrimLeft (s cutset : string) : string :=
  match s with
  | EmptyString => EmptyString
  | String c r => if inCutset cutset c then TrimLeft r cutset else s
  end.

Fixpoint TrimRight (s cutset : string) : string :=
  match s with
  | EmptyString => EmptyString
  | String c r =>
      match TrimRight r cutset with
      | EmptyString =>
          if inCutset cutset c then EmptyString else String c EmptyString
      | r' => String c r'
      end
  end.

(** Trim(s, cutset): [s] without its leading and trailing bytes that
    are in [cutset] (the cutsets used here are ASCII). *)
Definition Trim (s cutset : string) : string :=
  TrimRight (TrimLeft s cutset) cutset.

(** Split(s, sep) for a one-byte separator; never the empty list. *)
Fixpoint Split (s : string) (sep : ascii) : list string :=
  match s with
  | EmptyString => [EmptyString]
  | String c r =>
      if Ascii.eqb c sep then EmptyString :: Split r sep
      else match Split r sep with
           | h :: t => String c h :: t
           | [] => [String c EmptyString]
           end
  end.

End strings.

Module base64.

(** The decode map of StdEncoding. *)
Definition decodeMap (c : ascii) : option Z :=
  let n := byteOf c in
  if (65 <=? n) && (n <=? 90) then Some (n - 65)
  else if (97 <=? n) && (n <=? 122) then Some (n - 71)
  else if (48 <=? n) && (n <=? 57) then Some (n + 4)
  else if n =? 43 then Some 62
  else if n =? 47 then Some 63
  else None.

Definition isNewline (c : ascii) : bool :=
  (byteOf c =? 10) || (byteOf c =? 13).

Definition isPad (c : ascii) : bool := byteOf c =? 61.

Fixpoint skipNewlines (s : string) : string :=
  match s with
  | EmptyString => EmptyString
  | String c r => if isNewline c then skipNewlines r else s
  end.

(** The bytes of one quantum of [length dbuf] sextets (2, 3 or 4). *)
Definition quantum (dbuf : list Z) : list Z :=
  let val := Z.lor (Z.lor (Z.shiftl (nth 0 dbuf 0) 18)
                          (Z.shiftl (nth 1 dbuf 0) 12))
                   (Z.lor (Z.shiftl (nth 2 dbuf 0) 6) (nth 3 dbuf 0)) in
  firstn (length dbuf - 1)
    [Z.land (Z.shiftr val 16) 255; Z.land (Z.shiftr val 8) 255;
     Z.land val 255].

(** Decode, one byte of the text at a time: [dbuf] holds the sextets of
    the quantum being read. Line feeds and carriage returns are skipped
    anywhere; padding is required, may only close the last quantum, and
    only line ends may follow it; the bits left over in a padded quantum
    are not looked at (the encoding is not strict). *)
Fixpoint decode (dbuf : list Z) (s : string) : option (list Z) :=
  match s with
  | EmptyString => match dbuf with [] => Some [] | _ => None end
  | String c r =>
      match decodeMap c with
      | Some v =>
          let dbuf' := (dbuf ++ [v])%list in
          if (length dbuf' =? 4)%nat
          then rest ← decode [] r; Some (quantum dbuf' ++ rest)%list
          else decode dbuf' r
      | None =>
          if isNewline c then decode dbuf r
          else if isPad c then
            match length dbuf with
            | 2%nat =>
                match skipNewlines r with
                | String c2 r2 =>
                    if isPad c2 then
                      match skipNewlines r2 with
                      | EmptyString => Some (quantum dbuf)
                      | _ => None
                      end
                    else None
                | EmptyString => None
                end
            | 3%nat =>
                match skipNewlines r with
                | EmptyString => Some (quantum dbuf)
                | _ => None
                end
            | _ => None
            end
          else None
      end
  end.

(** StdEncoding.DecodeString; [None] stands for a CorruptInputError. *)
Definition DecodeString (s : string) : option (list Z) := decode [] s.

End base64.

Module binary.

(** io.ReadFull on a reader that is too short. *)
Inductive ReadErr := EOF | ErrUnexpectedEOF.

Definition Uint32 (b : list Z) : Z :=
  Z.lor (Z.lor (nth 3 b 0) (Z.shiftl (nth 2 b 0) 8))
        (Z.lor (Z.shiftl (nth 1 b 0) 16) (Z.shiftl (nth 0 b 0) 24)).

Definition Uint64 (b : list Z) : Z :=
  Z.lor (Z.shiftl (Uint32 (firstn 4 b)) 32) (Uint32 (skipn 4 b)).

(** The big-endian bytes of a 32-bit and of a 64-bit pattern. *)
Definition PutUint32 (v : Z) : list Z :=
  [Z.land (Z.shiftr v 24) 255; Z.land (Z.shiftr v 16) 255;
   Z.land (Z.shiftr v 8) 255; Z.land v 255].

Definition PutUint64 (v : Z) : list Z :=
  (PutUint32 (Z.shiftr v 32) ++ PutUint32 (Z.land v 0xFFFFFFFF))%list.

(** Read(bytes.NewReader(b), BigEndian, &res) for a 32-bit and for a
    64-bit float: the first [size] bytes are taken, what follows them is
    left unread. *)
Definition Read (size : nat) (b : list Z) : Z + ReadErr :=
  match b with
  | [] => inr EOF
  | _ =>
      if (length b <? size)%nat then inr ErrUnexpectedEOF
      else inl (if (size =? 4)%nat then Uint32 (firstn 4 b)
                else Uint64 (firstn 8 b))
  end.

End binary.

Module math.

(** IsNaN on the bit pattern of a float32 and of a float64: all ones in
    the exponent and a fraction that is not zero. *)
Definition IsNaN32 (f : Z) : bool :=
  (Z.land (Z.shiftr f 23) 0xFF =? 0xFF) && negb (Z.land f 0x7FFFFF =? 0).

Definition IsNaN64 (f : Z) : bool :=
  (Z.land (Z.shiftr f 52) 0x7FF =? 0x7FF)
  && negb (Z.land f 0xFFFFFFFFFFFFF =? 0).

(** IsInf(f, sign) on the bit pattern: the positive infinity for a
    sign that is not negative, the negative one for a sign that is not
    positive. *)
Definition IsInf32 (f : Z) (sign : Z) : bool :=
  ((0 <=? sign) && (f =? 0x7F800000)) || ((sign <=? 0) && (f =? 0xFF800000)).

Definition IsInf64 (f : Z) (sign : Z) : bool :=
  ((0 <=? sign) && (f =? 0x7FF0000000000000))
  || ((sign <=? 0) && (f =? 0xFFF0000000000000)).

End math.

(** Decimal text of an integer, for the messages formatted with %d. *)
Fixpoint utoa (fuel : nat) (n : Z) (acc : string) : string :=
  match fuel with
  | O => acc
  | S fuel' =>
      let acc' := String (ascii_of_N (Z.to_N (48 + n mod 10))) acc in
      if n <? 10 then acc' else utoa fuel' (n / 10) acc'
  end.

Definition itoa (n : Z) : string :=
  if n <? 0 then "-" ++ utoa (S (Z.to_nat (Z.log2 (- n)))) (- n) ""
  else utoa (S (Z.to_nat (Z.log2 n))) n "".

(** ** Constants of the contract and of the SDK packages *)

(** The constants of go-mod-core-contracts (v2 and v2/models). *)
Module v2.
Definition Name := "name".
Definition Command := "command".
Definition ReadWrite_R := "R".
Definition ReadWrite_W := "W".
Definition ReadWrite_RW := "RW".
Definition ValueTypeBool := "Bool".
Definition ValueTypeString := "String".
Definition ValueTypeUint8 := "Uint8".
Definition ValueTypeUint16 := "Uint16".
Definition ValueTypeUint32 := "Uint32".
Definition ValueTypeUint64 := "Uint64".
Definition ValueTypeInt8 := "Int8".
Definition ValueTypeInt16 := "Int16".
Definition ValueTypeInt32 := "Int32".
Definition ValueTypeInt64 := "Int64".
Definition ValueTypeFloat32 := "Float32".
Definition ValueTypeFloat64 := "Float64".
Definition ValueTypeBinary := "Binary".
Definition ValueTypeBoolArray := "BoolArray".
Definition ValueTypeUint8Array := "Uint8Array".
Definition ValueTypeUint16Array := "Uint16Array".
Definition ValueTypeUint32Array := "Uint32Array".
Definition ValueTypeUint64Array := "Uint64Array".
Definition ValueTypeInt8Array := "Int8Array".
Definition ValueTypeInt16Array := "Int16Array".
Definition ValueTypeInt32Array := "Int32Array".
Definition ValueTypeInt64Array := "Int64Array".
Definition ValueTypeFloat32Array := "Float32Array".
Definition ValueTypeFloat64Array := "Float64Array".
End v2.

Module models.
(** AdminState and OperatingState are string types. *)
Definition Locked := "LOCKED".
Definition Unlocked := "UNLOCKED".
Definition Up := "UP".
Definition Down := "DOWN".
End models.

Module common.
(** Modelled from the spec: the reserved key of internal/common under
    which the raw query of the caller joins the attributes of a request;
    the package is not part of the sources at hand. *)
Definition URLRawQuery := "urlRawQuery".
End common.

(** ** Errors *)

Inductive ErrKind :=
| KindServiceLocked
| KindEntityDoesNotExist
| KindNotAllowed
| KindContractInvalid
| KindServerError.

(** The error values that reach the engine: those of the standard
    library, those of the collaborators, and the EdgeX error, which has a
    kind, a message and the error it wraps. *)
#[warnings="-register-all"]
Inductive error :=
| NumError (fn num : string) (e : strconv.NumErr)
| CorruptInputError
| ReadError (e : binary.ReadErr)
| UnmarshalError
| Errorf (msg : string)
| ForeignError (msg : string)
| CommonEdgeX (kind : ErrKind) (message : string) (wrapped : option error).

Definition NewCommonEdgeX := CommonEdgeX.

Definition kindOf (e : error) : option ErrKind :=
  match e with
  | CommonEdgeX k _ _ => Some k
  | _ => None
  end.

(** ** The data model *)

(** A Go map held by reference: [None] is the nil map, [Some l] the map
    stored at [l] in the heap. *)
Definition mapRef := option nat.

Module ResourceProperties.
(** The fields the engine reads; the others (units, bounds, mask,
    shift, scale, ...) are read by the transformer only. *)
Record t := mk {
  ValueType : string;
  ReadWrite : string;
  DefaultValue : string
}.
Definition zero : t := mk "" "" "".
End ResourceProperties.

Module DeviceResource.
Record t := mk {
  Name : string;
  Properties : ResourceProperties.t;
  Attributes : mapRef
}.
Definition zero : t := mk "" ResourceProperties.zero None.
End DeviceResource.

Module ResourceOperation.
Record t := mk {
  DeviceResource : string;
  DefaultValue : string;
  Mappings : gmap string string
}.
End ResourceOperation.

Module DeviceCommand.
Record t := mk {
  Name : string;
  ReadWrite : string;
  ResourceOperations : list ResourceOperation.t
}.
End DeviceCommand.

Module Device.
Record t := mk {
  Name : string;
  AdminState : string;
  OperatingState : string;
  Protocols : gmap string (gmap string string);
  ProfileName : string
}.
End Device.

(** The value of a CommandValue, in the representation of its kind. *)
Inductive Val :=
| VBool (b : bool)
| VString (s : string)
| VUint (bits : Z) (n : Z)
| VInt (bits : Z) (n : Z)
| VFloat32 (f : Z)
| VFloat64 (f : Z)
| VBoolArray (l : list bool)
| VUintArray (bits : Z) (l : list Z)
| VIntArray (bits : Z) (l : list Z)
| VFloat32Array (l : list Z)
| VFloat64Array (l : list Z).

Module CommandValue.
Record t := mk {
  DeviceResourceName : string;
  Type_ : string;
  Value : Val
}.
End CommandValue.

Module CommandRequest.
Record t := mk {
  DeviceResourceName : string;
  Attributes : mapRef;
  Type_ : string
}.
End CommandRequest.

Module DeviceInfo.
(** The fields of the Device section of the configuration that the
    engine reads. *)
Record t := mk {
  MaxCmdOps : Z;
  DataTransform : bool;
  UpdateLastConnected : bool
}.
End DeviceInfo.

(** Modelled from the spec: the constructor NewCommandValue of
    pkg/models, which is not part of the sources at hand. By the data
    model a command value pairs a resource name, a value kind and a value
    whose representation matches that kind exactly; a value of another
    representation is refused. *)
Definition validate (valueType : string) (value : Val) : bool :=
  match value with
  | VBool _ => String.eqb valueType v2.ValueTypeBool
  | VString _ => String.eqb valueType v2.ValueTypeString
  | VUint bits _ => String.eqb valueType ("Uint" ++ itoa bits)
  | VInt bits _ => String.eqb valueType ("Int" ++ itoa bits)
  | VFloat32 _ => String.eqb valueType v2.ValueTypeFloat32
  | VFloat64 _ => String.eqb valueType v2.ValueTypeFloat64
  | VBoolArray _ => String.eqb valueType v2.ValueTypeBoolArray
  | VUintArray bits _ => String.eqb valueType ("Uint" ++ itoa bits ++ "Array")
  | VIntArray bits _ => String.eqb valueType ("Int" ++ itoa bits ++ "Array")
  | VFloat32Array _ => String.eqb valueType v2.ValueTypeFloat32Array
  | VFloat64Array _ => String.eqb valueType v2.ValueTypeFloat64Array
  end.

Definition NewCommandValue (deviceResourceName valueType : string)
    (value : Val) : option CommandValue.t * option error :=
  if validate valueType value
  then (Some (CommandValue.mk deviceResourceName valueType value), None)
  else (None, Some (Errorf ("mismatched value type " ++ valueType))).

(** ** The monad of the engine *)

(** What the engine asks of its collaborators, in the order it asks. The
    debug lines of the logger are left out. *)
Inductive Event :=
| EvParseParams (body : string)
| EvCreateCommandValue (dr : string) (v : string)
| EvWarnf (ro : string) (value : string) (mappings : gmap string string)
| EvTransformWriteParameter (cv : CommandValue.t)
| EvHandleReadCommands (deviceName : string) (reqs : list CommandRequest.t)
| EvHandleWriteCommands (deviceName : string) (reqs : list CommandRequest.t)
    (cvs : list (option CommandValue.t))
| EvCommandValuesToEventDTO (deviceName sourceName : string)
| EvUpdateLastConnected (deviceName : string)
| EvSendEvent (correlationID : string).

Record World := mkWorld {
  heap : gmap nat (gmap string string);
  log : list Event
}.

Inductive Res (A : Type) :=
| Done (a : A)
| Raise (e : error)
| Panic.
Arguments Done {A} a.
Arguments Raise {A} e.
Arguments Panic {A}.

Definition M (A : Type) : Type := World -> Res A * World.

Definition ret {A} (a : A) : M A := fun w => (Done a, w).
Definition raise {A} (e : error) : M A := fun w => (Raise e, w).
Definition panic {A} : M A := fun w => (Panic, w).

Definition bind {A B} (m : M A) (k : A -> M B) : M B :=
  fun w =>
    match m w with
    | (Done a, w') => k a w'
    | (Raise e, w') => (Raise e, w')
    | (Panic, w') => (Panic, w')
    end.

Declare Scope engine_scope.
Delimit Scope engine_scope with engine.
Notation "x <- m ;; k" := (bind m (fun x => k))
  (at level 100, m at next level, right associativity) : engine_scope.
Notation "m ;;; k" := (bind m (fun _ => k))
  (at level 100, right associativity) : engine_scope.

Definition tell (e : Event) : M unit :=
  fun w => (Done tt, mkWorld (heap w) (log w ++ [e])%list).

Definition getHeap : M (gmap nat (gmap string string)) :=
  fun w => (Done (heap w), w).

(** len(m) for a map held by reference. *)
Definition mapLen (h : gmap nat (gmap string string)) (m : mapRef) : nat :=
  match m with
  | None => 0%nat
  | Some l => match h !! l with Some mp => size mp | None => 0%nat end
  end.

(** make(map[string]string): a map at an address not in use. *)
Definition makeMap : M mapRef :=
  fun w =>
    let l := fresh (dom (heap w)) in
    (Done (Some l), mkWorld (<[l := ∅]> (heap w)) (log w)).

(** m[k] = v; storing into the nil map panics. *)
Definition mapStore (m : mapRef) (k v : string) : M unit :=
  fun w =>
    match m with
    | None => (Panic, w)
    | Some l =>
        let mp := default ∅ (heap w !! l) in
        (Done tt, mkWorld (<[l := <[k := v]> mp]> (heap w)) (log w))
    end.

(** The number of calls of the write and of the read capability of the
    driver in a log. *)
Definition isWriteCall (e : Event) : bool :=
  match e with EvHandleWriteCommands _ _ _ => true | _ => false end.
Definition isReadCall (e : Event) : bool :=
  match e with EvHandleReadCommands _ _ => true | _ => false end.
Definition isDriverCall (e : Event) : bool := isWriteCall e || isReadCall e.
Definition writeCalls (l : list Event) : nat :=
  length (List.filter isWriteCall l).
Definition driverCalls (l : list Event) : nat :=
  length (List.filter isDriverCall l).

(** ** The value codec *)

Definition castUint (bits n : Z) : Z := n mod 2 ^ bits.
Definition castInt (bits n : Z) : Z :=
  (n + 2 ^ (bits - 1)) mod 2 ^ bits - 2 ^ (bits - 1).

(** float32FromBytes and float64FromBytes. *)
Definition float32FromBytes (numericValue : list Z) : Z + binary.ReadErr :=
  binary.Read 4 numericValue.

Definition float64FromBytes (numericValue : list Z) : Z + binary.ReadErr :=
  binary.Read 8 numericValue.

(** The loop of the unsigned array kinds over the pieces of the text
    (lines 450-457, 469-476, 488-495 and 507-514). *)
Fixpoint parseUintElements (bits : Z) (strArr : list string)
  : list Z + error :=
  match strArr with
  | [] => inl []
  | u :: rest =>
      let t := strings.Trim u " " in
      match strconv.ParseUint t bits with
      | inr e => inr (NumError "ParseUint" t e)
      | inl n =>
          match parseUintElements bits rest with
          | inl arr => inl (castUint bits n :: arr)
          | inr e => inr e
          end
      end
  end.

(** A case of the switch that declares an err of its own with [:=]
    (all but the String case and the default; lines 426, 441, 577, 611,
    ...) assigns the error of every later step to that local variable;
    the err of the function (line 419), which is what line 646 returns,
    keeps its zero value. [caseLocal] is the pair the function returns
    when control leaves such a case at the end of the switch. *)
Definition caseLocal (p : option CommandValue.t * option error)
  : option CommandValue.t * option error := (fst p, None).

(** ** The collaborators

    What the engine takes from its surroundings: the parts of the
    standard library left open above, the caches of devices and of
    profiles, the device service and its configuration, the protocol
    driver and the transformer. *)
Class Collaborators := {
  (** The numeric part of strconv.ParseFloat. *)
  atofNumeric : Z -> string -> Z + strconv.NumErr;
  (** json.Unmarshal into a map[string]string, a []bool, a slice of the
      signed integers of a size and a slice of the floats of a size;
      [None] is its error. A JSON null leaves the nil map or slice. *)
  jsonParams : string -> option (gmap string string);
  jsonBools : string -> option (list bool);
  jsonInts : Z -> string -> option (list Z);
  jsonFloats : Z -> string -> option (list Z);
  (** The order in which a range loop visits the entries of a map: Go
      leaves it open, so any arrangement of the entries. *)
  rangeOrder : gmap string string -> list (string * string);
  rangeOrder_perm : forall m, rangeOrder m ≡ₚ map_to_list m;
  (** cache.Devices().ForName, cache.Profiles().DeviceCommand and
      cache.Profiles().DeviceResource. *)
  DeviceForName : string -> option Device.t;
  ProfileDeviceCommand : string -> string -> option DeviceCommand.t;
  ProfileDeviceResource : string -> string -> option DeviceResource.t;
  (** The administrative state of the device service and the Device
      section of its configuration. *)
  serviceAdminState : string;
  configuration : DeviceInfo.t;
  (** The protocol driver; it may read the attribute maps of the
      requests. *)
  HandleReadCommands :
    string -> gmap string (gmap string string) -> list CommandRequest.t ->
    gmap nat (gmap string string) ->
    list (option CommandValue.t) * option error;
  HandleWriteCommands :
    string -> gmap string (gmap string string) -> list CommandRequest.t ->
    list (option CommandValue.t) -> gmap nat (gmap string string) ->
    option error;
  (** The transformer: the write transformation updates the value it is
      given or fails; the conversion of results makes the event. *)
  TransformWriteParameter :
    CommandValue.t -> ResourceProperties.t -> CommandValue.t + error;
  EventDTO : Type;
  CommandValuesToEventDTO :
    list (option CommandValue.t) -> string -> string ->
    option EventDTO * option error
}.

Section Engine.

Context {collaborators : Collaborators}.

(** *** createCommandValueFromDeviceResource *)

(** The cases of the two float kinds (lines 576-600 and 609-633), with
    the err of the case as the second component. *)

Definition float32Case (dr : DeviceResource.t) (v : string)
  : option CommandValue.t * option error :=
  match strconv.ParseFloat atofNumeric v 32 with
  | inl val =>
      NewCommandValue (DeviceResource.Name dr) v2.ValueTypeFloat32
        (VFloat32 val)
  | inr e =>
      let err := NumError "ParseFloat" v e in
      match e with
      | strconv.ErrRange =>
          (None, Some (NewCommonEdgeX KindServerError "NumError" (Some err)))
      | strconv.ErrSyntax =>
          match base64.DecodeString v with
          | None => (None, Some CorruptInputError)
          | Some decodedToBytes =>
              match float32FromBytes decodedToBytes with
              | inr e' => (None, Some (ReadError e'))
              | inl val =>
                  if math.IsNaN32 val then
                    (None, Some (Errorf ("fail to parse " ++ v
                       ++ " to float32, unexpected result NaN")))
                  else
                    NewCommandValue (DeviceResource.Name dr)
                      v2.ValueTypeFloat32 (VFloat32 val)
              end
          end
      end
  end.

Definition float64Case (dr : DeviceResource.t) (v : string)
  : option CommandValue.t * option error :=
  match strconv.ParseFloat atofNumeric v 64 with
  | inl val =>
      NewCommandValue (DeviceResource.Name dr) v2.ValueTypeFloat64
        (VFloat64 val)
  | inr e =>
      let err := NumError "ParseFloat" v e in
      match e with
      | strconv.ErrRange =>
          (None, Some (NewCommonEdgeX KindServerError "NumError" (Some err)))
      | strconv.ErrSyntax =>
          match base64.DecodeString v with
          | None => (None, Some CorruptInputError)
          | Some decodedToBytes =>
              match float64FromBytes decodedToBytes with
              | inr e' => (None, Some (ReadError e'))
              | inl val =>
                  if math.IsNaN64 val then
                    (None, Some (Errorf ("fail to parse " ++ v
                       ++ " to float64, unexpected result NaN")))
                  else
                    NewCommandValue (DeviceResource.Name dr)
                      v2.ValueTypeFloat64 (VFloat64 val)
              end
          end
      end
  end.

Definition createCommandValueFromDeviceResource
    (dr : DeviceResource.t) (v : string)
  : option CommandValue.t * option error :=
  let name := DeviceResource.Name dr in
  let vt := ResourceProperties.ValueType (DeviceResource.Properties dr) in
  let kindIs := String.eqb vt in
  let failed (cause : error) : option CommandValue.t * option error :=
    (None, Some (NewCommonEdgeX KindServerError
       ("failed to convert set parameter " ++ v ++ " to ValueType " ++ vt)
       (Some cause))) in
  let uintCase (bits : Z) (kind : string) :=
    match strconv.ParseUint v bits with
    | inr e => failed (NumError "ParseUint" v e)
    | inl n =>
        caseLocal (NewCommandValue name kind (VUint bits (castUint bits n)))
    end in
  let uintArrayCase (bits : Z) (kind : string) :=
    match parseUintElements bits
            (strings.Split (strings.Trim v "[]") ","%char) with
    | inr e => failed e
    | inl arr => caseLocal (NewCommandValue name kind (VUintArray bits arr))
    end in
  let intCase (bits : Z) (kind : string) :=
    match strconv.ParseInt v bits with
    | inr e => failed (NumError "ParseInt" v e)
    | inl n =>
        caseLocal (NewCommandValue name kind (VInt bits (castInt bits n)))
    end in
  let intArrayCase (bits : Z) (kind : string) :=
    match jsonInts bits v with
    | None => failed UnmarshalError
    | Some arr => caseLocal (NewCommandValue name kind (VIntArray bits arr))
    end in
  if kindIs v2.ValueTypeString then
    NewCommandValue name v2.ValueTypeString (VString v)
  else if kindIs v2.ValueTypeBool then
    match strconv.ParseBool v with
    | inr e => failed (NumError "ParseBool" v e)
    | inl value =>
        caseLocal (NewCommandValue name v2.ValueTypeBool (VBool value))
    end
  else if kindIs v2.ValueTypeBoolArray then
    match jsonBools v with
    | None => failed UnmarshalError
    | Some arr =>
        caseLocal (NewCommandValue name v2.ValueTypeBoolArray (VBoolArray arr))
    end
  else if kindIs v2.ValueTypeUint8 then uintCase 8 v2.ValueTypeUint8
  else if kindIs v2.ValueTypeUint8Array then
    uintArrayCase 8 v2.ValueTypeUint8Array
  else if kindIs v2.ValueTypeUint16 then uintCase 16 v2.ValueTypeUint16
  else if kindIs v2.ValueTypeUint16Array then
    uintArrayCase 16 v2.ValueTypeUint16Array
  else if kindIs v2.ValueTypeUint32 then uintCase 32 v2.ValueTypeUint32
  else if kindIs v2.ValueTypeUint32Array then
    uintArrayCase 32 v2.ValueTypeUint32Array
  else if kindIs v2.ValueTypeUint64 then uintCase 64 v2.ValueTypeUint64
  else if kindIs v2.ValueTypeUint64Array then
    uintArrayCase 64 v2.ValueTypeUint64Array
  else if kindIs v2.ValueTypeInt8 then intCase 8 v2.ValueTypeInt8
  else if kindIs v2.ValueTypeInt8Array then intArrayCase 8 v2.ValueTypeInt8Array
  else if kindIs v2.ValueTypeInt16 then intCase 16 v2.ValueTypeInt16
  else if kindIs v2.ValueTypeInt16Array then
    intArrayCase 16 v2.ValueTypeInt16Array
  else if kindIs v2.ValueTypeInt32 then intCase 32 v2.ValueTypeInt32
  else if kindIs v2.ValueTypeInt32Array then
    intArrayCase 32 v2.ValueTypeInt32Array
  else if kindIs v2.ValueTypeInt64 then intCase 64 v2.ValueTypeInt64
  else if kindIs v2.ValueTypeInt64Array then
    intArrayCase 64 v2.ValueTypeInt64Array
  else if kindIs v2.ValueTypeFloat32 then caseLocal (float32Case dr v)
  else if kindIs v2.ValueTypeFloat32Array then
    match jsonFloats 32 v with
    | None => failed UnmarshalError
    | Some arr =>
        caseLocal (NewCommandValue name v2.ValueTypeFloat32Array
                     (VFloat32Array arr))
    end
  else if kindIs v2.ValueTypeFloat64 then caseLocal (float64Case dr v)
  else if kindIs v2.ValueTypeFloat64Array then
    match jsonFloats 64 v with
    | None => failed UnmarshalError
    | Some arr =>
        caseLocal (NewCommandValue name v2.ValueTypeFloat64Array
                     (VFloat64Array arr))
    end
  else
    (None, Some (NewCommonEdgeX KindServerError "unrecognized value type" None)).

(** *** parseParams *)

Definition parseParams (params : string)
  : gmap string string * option error :=
  match jsonParams params with
  | None => (∅, Some UnmarshalError)
  | Some paramMap =>
      if (size paramMap =? 0)%nat
      then (paramMap, Some (Errorf "no parameters specified"))
      else (paramMap, None)
  end.

(** *** The command processor *)

Record CommandProcessor := mkCommandProcessor {
  device : Device.t;
  sourceName : string;
  correlationID : string;
  body : string;
  attributes : string
}.

Definition NewCommandProcessor (device : Device.t)
    (sourceName correlationID body attributes : string)
  : CommandProcessor :=
  mkCommandProcessor device sourceName correlationID body attributes.

Local Open Scope engine_scope.

(** The attribute map of a request, as each of the four methods
    prepares it (lines 131-137, 191-197, 259-265 and 375-381): the map of
    the declaration itself and, when the caller sent a raw query, that
    query stored under the reserved key, in a map made for the request
    only when the declared one has no entry. *)
Definition prepareAttributes (declared : mapRef) (attributes : string)
  : M mapRef :=
  if String.eqb attributes "" then ret declared
  else
    h <- getHeap ;;
    m <- (if (mapLen h declared <=? 0)%nat then makeMap else ret declared) ;;
    mapStore m common.URLRawQuery attributes ;;;
    ret m.

Definition driverRead (c : CommandProcessor) (reqs : list CommandRequest.t)
  : M (list (option CommandValue.t) * option error) :=
  tell (EvHandleReadCommands (Device.Name (device c)) reqs) ;;;
  h <- getHeap ;;
  ret (HandleReadCommands (Device.Name (device c))
         (Device.Protocols (device c)) reqs h).

Definition driverWrite (c : CommandProcessor) (reqs : list CommandRequest.t)
    (cvs : list (option CommandValue.t)) : M (option error) :=
  tell (EvHandleWriteCommands (Device.Name (device c)) reqs cvs) ;;;
  h <- getHeap ;;
  ret (HandleWriteCommands (Device.Name (device c))
         (Device.Protocols (device c)) reqs cvs h).

Definition toEvent (c : CommandProcessor)
    (results : list (option CommandValue.t)) (source message : string)
  : M (option EventDTO) :=
  tell (EvCommandValuesToEventDTO (Device.Name (device c)) source) ;;;
  match CommandValuesToEventDTO results (Device.Name (device c)) source with
  | (_, Some e) => raise (NewCommonEdgeX KindServerError message (Some e))
  | (res, None) => ret res
  end.

Definition ReadDeviceResource (c : CommandProcessor) : M (option EventDTO) :=
  match ProfileDeviceResource (Device.ProfileName (device c)) (sourceName c)
  with
  | None =>
      raise (NewCommonEdgeX KindEntityDoesNotExist
               ("deviceResource " ++ sourceName c ++ " not found") None)
  | Some dr =>
      let props := DeviceResource.Properties dr in
      if String.eqb (ResourceProperties.ReadWrite props) v2.ReadWrite_W then
        raise (NewCommonEdgeX KindNotAllowed
                 ("deviceResource " ++ DeviceResource.Name dr
                  ++ " is marked as write-only") None)
      else
        attrs <- prepareAttributes (DeviceResource.Attributes dr)
                   (attributes c) ;;
        let req := CommandRequest.mk (DeviceResource.Name dr) attrs
                     (ResourceProperties.ValueType props) in
        r <- driverRead c [req] ;;
        match r with
        | (_, Some err) =>
            raise (NewCommonEdgeX KindServerError
                     ("error reading DeviceResourece "
                      ++ DeviceResource.Name dr ++ " for "
                      ++ Device.Name (device c)) (Some err))
        | (results, None) =>
            toEvent c results (DeviceResource.Name dr)
              "failed to convert CommandValue to Event"
        end
  end.

(** The loop of ReadDeviceCommand that fills the requests (lines
    180-199). *)
Fixpoint readRequests (c : CommandProcessor) (dc : DeviceCommand.t)
    (ops : list ResourceOperation.t) : M (list CommandRequest.t) :=
  match ops with
  | [] => ret []
  | op :: rest =>
      let drName := ResourceOperation.DeviceResource op in
      match ProfileDeviceResource (Device.ProfileName (device c)) drName with
      | None =>
          raise (NewCommonEdgeX KindServerError
                   ("deviceResource " ++ drName ++ " in GET commnd "
                    ++ DeviceCommand.Name dc ++ " for "
                    ++ Device.Name (device c) ++ " not defined") None)
      | Some dr =>
          attrs <- prepareAttributes (DeviceResource.Attributes dr)
                     (attributes c) ;;
          let req := CommandRequest.mk (DeviceResource.Name dr) attrs
                       (ResourceProperties.ValueType
                          (DeviceResource.Properties dr)) in
          reqs <- readRequests c dc rest ;;
          ret (req :: reqs)
      end
  end.

Definition ReadDeviceCommand (c : CommandProcessor) : M (option EventDTO) :=
  match ProfileDeviceCommand (Device.ProfileName (device c)) (sourceName c)
  with
  | None =>
      raise (NewCommonEdgeX KindEntityDoesNotExist
               ("deviceCommand " ++ sourceName c ++ " not found") None)
  | Some dc =>
      if String.eqb (DeviceCommand.ReadWrite dc) v2.ReadWrite_W then
        raise (NewCommonEdgeX KindNotAllowed
                 ("deviceCommand " ++ DeviceCommand.Name dc
                  ++ " is marked as write-only") None)
      else if DeviceInfo.MaxCmdOps configuration
              <? Z.of_nat (length (DeviceCommand.ResourceOperations dc)) then
        raise (NewCommonEdgeX KindServerError
                 ("GET command " ++ DeviceCommand.Name dc
                  ++ " exceed device " ++ Device.Name (device c)
                  ++ " MaxCmdOps ("
                  ++ itoa (DeviceInfo.MaxCmdOps configuration) ++ ")") None)
      else
        reqs <- readRequests c dc (DeviceCommand.ResourceOperations dc) ;;
        r <- driverRead c reqs ;;
        match r with
        | (_, Some err) =>
            raise (NewCommonEdgeX KindServerError
                     ("error reading DeviceCommand "
                      ++ DeviceCommand.Name dc ++ " for "
                      ++ Device.Name (device c)) (Some err))
        | (results, None) =>
            toEvent c results (DeviceCommand.Name dc)
              "failed to transform CommandValue to Event"
        end
  end.

(** The write transformation of one value, when the configuration asks
    for it (lines 269-275 and 385-390). *)
Definition transformWrite (cv : CommandValue.t) (dr : DeviceResource.t)
  : M CommandValue.t :=
  if DeviceInfo.DataTransform configuration then
    tell (EvTransformWriteParameter cv) ;;;
    match TransformWriteParameter cv (DeviceResource.Properties dr) with
    | inr err =>
        raise (NewCommonEdgeX KindContractInvalid
                 "failed to transform set parameter" (Some err))
    | inl cv' => ret cv'
    end
  else ret cv.

(** The body of the request, parsed (lines 234-237 and 310-313), and
    the command value of a resource for a text (lines 251-254 and
    361-366). *)
Definition parseBody (c : CommandProcessor) : M (gmap string string) :=
  tell (EvParseParams (body c)) ;;;
  match parseParams (body c) with
  | (_, Some err) =>
      raise (NewCommonEdgeX KindServerError
               "failed to parse SET command parameters" (Some err))
  | (paramMap, None) => ret paramMap
  end.

Definition createCommandValue (dr : DeviceResource.t) (v : string)
  : M (option CommandValue.t) :=
  tell (EvCreateCommandValue (DeviceResource.Name dr) v) ;;;
  match createCommandValueFromDeviceResource dr v with
  | (_, Some err) =>
      raise (NewCommonEdgeX KindServerError "failed to create CommandValue"
               (Some err))
  | (cv, None) => ret cv
  end.

Definition WriteDeviceResource (c : CommandProcessor) : M unit :=
  match ProfileDeviceResource (Device.ProfileName (device c)) (sourceName c)
  with
  | None =>
      raise (NewCommonEdgeX KindEntityDoesNotExist
               ("deviceResource " ++ sourceName c ++ " not found") None)
  | Some dr =>
      let props := DeviceResource.Properties dr in
      let notInBody :=
        NewCommonEdgeX KindServerError
          ("deviceResource " ++ DeviceResource.Name dr
           ++ " not found in request body and no default value defined")
          None in
      if String.eqb (ResourceProperties.ReadWrite props) v2.ReadWrite_R then
        raise (NewCommonEdgeX KindNotAllowed
                 ("deviceResource " ++ DeviceResource.Name dr
                  ++ " is marked as read-only") None)
      else
        paramMap <- parseBody c ;;
        v <- match paramMap !! DeviceResource.Name dr with
             | Some v => ret v
             | None =>
                 if negb (String.eqb (ResourceProperties.DefaultValue props) "")
                 then ret (ResourceProperties.DefaultValue props)
                 else raise notInBody
             end ;;
        r <- createCommandValue dr v ;;
        match r with
        | None => panic
        | Some cv =>
            attrs <- prepareAttributes (DeviceResource.Attributes dr)
                       (attributes c) ;;
            let req := CommandRequest.mk (CommandValue.DeviceResourceName cv)
                         attrs (CommandValue.Type_ cv) in
            cv' <- transformWrite cv dr ;;
            err <- driverWrite c [req] [Some cv'] ;;
            match err with
            | Some err =>
                raise (NewCommonEdgeX KindServerError
                         ("error writing DeviceResourece "
                          ++ DeviceResource.Name dr ++ " for "
                          ++ Device.Name (device c)) (Some err))
            | None => ret tt
            end
        end
  end.

(** The value of one resource operation of a composite write, before
    the mapping (lines 333-343): the entry of the body, else the default
    of the operation, else the default of the resource, else an error. *)
Definition resolveValue (paramMap : gmap string string)
    (ro : ResourceOperation.t) (dr : DeviceResource.t) : string + error :=
  match paramMap !! ResourceOperation.DeviceResource ro with
  | Some value => inl value
  | None =>
      if negb (String.eqb (ResourceOperation.DefaultValue ro) "") then
        inl (ResourceOperation.DefaultValue ro)
      else if negb (String.eqb
                 (ResourceProperties.DefaultValue
                    (DeviceResource.Properties dr)) "") then
        inl (ResourceProperties.DefaultValue (DeviceResource.Properties dr))
      else
        inr (NewCommonEdgeX KindServerError
               ("deviceResource " ++ DeviceResource.Name dr
                ++ " not found in request body and no default value defined")
               None)
  end.

(** The range loop over a mapping table (lines 348-354): the key of the
    first entry, in the order of the visit, whose value is the
    candidate. *)
Fixpoint findMapping (entries : list (string * string)) (value : string)
  : option string :=
  match entries with
  | [] => None
  | (k, v) :: rest =>
      if String.eqb v value then Some k else findMapping rest value
  end.

(** The write value mapping of one resource operation (lines 346-358);
    a table with entries but none for the candidate only warns. *)
Definition writeValueMapping (ro : ResourceOperation.t) (value : string)
  : M string :=
  if (0 <? size (ResourceOperation.Mappings ro))%nat then
    match findMapping (rangeOrder (ResourceOperation.Mappings ro)) value with
    | Some k => ret k
    | None =>
        tell (EvWarnf (ResourceOperation.DeviceResource ro) value
                (ResourceOperation.Mappings ro)) ;;;
        ret value
    end
  else ret value.

(** The first loop of WriteDeviceCommand (lines 317-367): one command
    value for each resource operation, in the declared order. *)
Fixpoint createCommandValues (c : CommandProcessor) (dc : DeviceCommand.t)
    (paramMap : gmap string string) (ops : list ResourceOperation.t)
    (cvs : list (option CommandValue.t))
  : M (list (option CommandValue.t)) :=
  match ops with
  | [] => ret cvs
  | ro :: rest =>
      let drName := ResourceOperation.DeviceResource ro in
      match ProfileDeviceResource (Device.ProfileName (device c)) drName with
      | None =>
          raise (NewCommonEdgeX KindServerError
                   ("deviceResource " ++ drName ++ " in SET commnd "
                    ++ DeviceCommand.Name dc ++ " for "
                    ++ Device.Name (device c) ++ " not defined") None)
      | Some dr =>
          if String.eqb (ResourceProperties.ReadWrite
                           (DeviceResource.Properties dr)) v2.ReadWrite_R
          then
            raise (NewCommonEdgeX KindNotAllowed
                     ("deviceResource " ++ drName ++ " in SET command "
                      ++ DeviceCommand.Name dc ++ " is marked as read-only")
                     None)
          else
            match resolveValue paramMap ro dr with
            | inr err => raise err
            | inl value =>
                value' <- writeValueMapping ro value ;;
                cv <- createCommandValue dr value' ;;
                createCommandValues c dc paramMap rest (cvs ++ [cv])%list
            end
      end
  end.

(** The second loop of WriteDeviceCommand (lines 370-391): one request
    for each command value, and the write transformation of the value. A
    command value that is the nil pointer makes the first line of the
    body, which reads its DeviceResourceName, panic. *)
Fixpoint prepareCommandRequests (c : CommandProcessor)
    (cvs : list (option CommandValue.t))
  : M (list CommandRequest.t * list (option CommandValue.t)) :=
  match cvs with
  | [] => ret ([], [])
  | None :: _ => panic
  | Some cv :: rest =>
      let dr := default DeviceResource.zero
                  (ProfileDeviceResource (Device.ProfileName (device c))
                     (CommandValue.DeviceResourceName cv)) in
      attrs <- prepareAttributes (DeviceResource.Attributes dr)
                 (attributes c) ;;
      let req := CommandRequest.mk (CommandValue.DeviceResourceName cv)
                   attrs (CommandValue.Type_ cv) in
      cv' <- transformWrite cv dr ;;
      r <- prepareCommandRequests c rest ;;
      ret (req :: fst r, Some cv' :: snd r)
  end.

Definition WriteDeviceCommand (c : CommandProcessor) : M unit :=
  match ProfileDeviceCommand (Device.ProfileName (device c)) (sourceName c)
  with
  | None =>
      raise (NewCommonEdgeX KindEntityDoesNotExist
               ("deviceCommand " ++ sourceName c ++ " not found") None)
  | Some dc =>
      if String.eqb (DeviceCommand.ReadWrite dc) v2.ReadWrite_R then
        raise (NewCommonEdgeX KindNotAllowed
                 ("deviceCommand " ++ DeviceCommand.Name dc
                  ++ " is marked as read-only") None)
      else if DeviceInfo.MaxCmdOps configuration
              <? Z.of_nat (length (DeviceCommand.ResourceOperations dc)) then
        raise (NewCommonEdgeX KindServerError
                 ("SET command " ++ DeviceCommand.Name dc
                  ++ " exceed device " ++ Device.Name (device c)
                  ++ " MaxCmdOps ("
                  ++ itoa (DeviceInfo.MaxCmdOps configuration) ++ ")") None)
      else
        paramMap <- parseBody c ;;
        cvs <- createCommandValues c dc paramMap
                 (DeviceCommand.ResourceOperations dc) [] ;;
        r <- prepareCommandRequests c cvs ;;
        err <- driverWrite c (fst r) (snd r) ;;
        match err with
        | Some err =>
            raise (NewCommonEdgeX KindServerError
                     ("error writing DeviceCommand "
                      ++ DeviceCommand.Name dc ++ " for "
                      ++ Device.Name (device c)) (Some err))
        | None => ret tt
        end
  end.

(** *** CommandHandler *)

(** The deferred function of CommandHandler (lines 79-91). It returns
    at once when the handler returns an error; it also runs while a panic
    unwinds, and then finds the named results still nil. The two
    goroutines it starts are logged as started. *)
Definition afterwards (device : Device.t) (sendEvent : bool)
    (correlationID : string) (res : option EventDTO) : M unit :=
  (if DeviceInfo.UpdateLastConnected configuration
   then tell (EvUpdateLastConnected (Device.Name device)) else ret tt) ;;;
  (if bool_decide (is_Some res) && sendEvent
   then tell (EvSendEvent correlationID) else ret tt).

Definition defer (m : M (option EventDTO))
    (deferred : option EventDTO -> M unit) : M (option EventDTO) :=
  fun w =>
    match m w with
    | (Done res, w') => (Done res, snd (deferred res w'))
    | (Raise e, w') => (Raise e, w')
    | (Panic, w') => (Panic, snd (deferred None w'))
    end.

Definition CommandHandler (isRead sendEvent : bool) (correlationID : string)
    (vars : gmap string string) (body attributes : string)
  : M (option EventDTO) :=
  if String.eqb serviceAdminState models.Locked then
    raise (NewCommonEdgeX KindServiceLocked "service locked" None)
  else
    let deviceKey := default "" (vars !! v2.Name) in
    match DeviceForName deviceKey with
    | None =>
        raise (NewCommonEdgeX KindEntityDoesNotExist
                 ("device " ++ deviceKey ++ " not found") None)
    | Some device =>
        if String.eqb (Device.AdminState device) models.Locked then
          raise (NewCommonEdgeX KindServiceLocked
                   ("device " ++ Device.Name device ++ " locked") None)
        else if String.eqb (Device.OperatingState device) models.Down then
          raise (NewCommonEdgeX KindServiceLocked
                   ("device " ++ Device.Name device
                    ++ " OperatingState is DOWN") None)
        else
          let cmd := default "" (vars !! v2.Command) in
          let helper :=
            NewCommandProcessor device cmd correlationID body attributes in
          defer
            match ProfileDeviceCommand (Device.ProfileName device) cmd with
            | Some _ =>
                if isRead then ReadDeviceCommand helper
                else (WriteDeviceCommand helper ;;; ret None)
            | None =>
                if isRead then ReadDeviceResource helper
                else (WriteDeviceResource helper ;;; ret None)
            end
            (afterwards device sendEvent correlationID)
    end.

End Engine.

(** ** A test double

    One device with its profile, a decoder for the request bodies, a
    driver and a transformer that accept everything; the log of the world
    records the calls. *)
Module Double.

Definition quote : ascii := ascii_of_N 34.

(** The text of a flat JSON object, without blanks. *)
Fixpoint members (l : list (string * string)) : string :=
  match l with
  | [] => ""
  | (k, v) :: rest =>
      String quote k ++ String quote (":" ++ String quote v)
      ++ String quote (match rest with [] => "" | _ => "," ++ members rest end)
  end.
Definition object (l : list (string * string)) : string :=
  "{" ++ members l ++ "}".

(** A decoder for such texts: an object of string members written
    without blanks and without escapes, or null; anything else is
    refused. *)
Inductive state :=
| Open | Key (k : string) | Colon (k : string) | Before (k : string)
| Within (k v : string) | After | Closed.

Fixpoint scan (st : state) (m : gmap string string) (s : string)
  : option (gmap string string) :=
  match s with
  | EmptyString => match st with Closed => Some m | _ => None end
  | String c r =>
      let b := byteOf c in
      match st with
      | Open => if b =? 34 then scan (Key "") m r
                else if (b =? 125) && bool_decide (m = ∅) then scan Closed m r
                else None
      | Key k => if b =? 34 then scan (Colon k) m r
                 else if b =? 92 then None
                 else scan (Key (k ++ String c "")) m r
      | Colon k => if b =? 58 then scan (Before k) m r else None
      | Before k => if b =? 34 then scan (Within k "") m r else None
      | Within k v => if b =? 34 then scan After (<[k := v]> m) r
                      else if b =? 92 then None
                      else scan (Within k (v ++ String c "")) m r
      | After => if b =? 44 then
                   match r with
                   | String c' r' =>
                       if byteOf c' =? 34 then scan (Key "") m r' else None
                   | EmptyString => None
                   end
                 else if b =? 125 then scan Closed m r
                 else None
      | Closed => None
      end
  end.

Definition unmarshal (s : string) : option (gmap string string) :=
  if String.eqb s "null" then Some ∅
  else match s with
       | String c r => if byteOf c =? 123 then scan Open ∅ r else None
       | EmptyString => None
       end.

Definition thermostat : Device.t :=
  Device.mk "thermostat" models.Unlocked models.Up ∅ "hvac".

Definition lockedFan : Device.t :=
  Device.mk "fan" models.Locked models.Up ∅ "hvac".

Definition downPump : Device.t :=
  Device.mk "pump" models.Unlocked models.Down ∅ "hvac".

Definition resources : list DeviceResource.t :=
  [ DeviceResource.mk "Temperature"
      (ResourceProperties.mk v2.ValueTypeFloat32 v2.ReadWrite_RW "") (Some 0%nat);
    DeviceResource.mk "Pressure"
      (ResourceProperties.mk v2.ValueTypeFloat64 v2.ReadWrite_RW "") None;
    DeviceResource.mk "Count"
      (ResourceProperties.mk v2.ValueTypeInt8 v2.ReadWrite_RW "") None;
    DeviceResource.mk "Mode"
      (ResourceProperties.mk v2.ValueTypeString v2.ReadWrite_RW "AUTO") None;
    DeviceResource.mk "Serial"
      (ResourceProperties.mk v2.ValueTypeString v2.ReadWrite_R "") None;
    DeviceResource.mk "Reset"
      (ResourceProperties.mk v2.ValueTypeBool v2.ReadWrite_W "") None ].

Definition onOff : gmap string string := <["ON" := "1"]> (<["OFF" := "0"]> ∅).

Definition commands : list DeviceCommand.t :=
  [ DeviceCommand.mk "SetPoint" v2.ReadWrite_RW
      [ResourceOperation.mk "Temperature" "" ∅];
    DeviceCommand.mk "Settings" v2.ReadWrite_RW
      [ResourceOperation.mk "Count" "" ∅;
       ResourceOperation.mk "Serial" "" ∅];
    DeviceCommand.mk "Status" v2.ReadWrite_R
      [ResourceOperation.mk "Count" "" ∅;
       ResourceOperation.mk "Temperature" "" ∅];
    DeviceCommand.mk "Trigger" v2.ReadWrite_W
      [ResourceOperation.mk "Reset" "" ∅];
    DeviceCommand.mk "Batch" v2.ReadWrite_RW
      [ResourceOperation.mk "Count" "" ∅;
       ResourceOperation.mk "Temperature" "" ∅;
       ResourceOperation.mk "Mode" "" onOff] ].

Definition deviceForName (name : string) : option Device.t :=
  find (fun d => String.eqb (Device.Name d) name)
    [thermostat; lockedFan; downPump].

(** The collaborators of the double, for a state of the service and a
    limit on the operations of a command. *)
Definition collaborators (adminState : string) (maxCmdOps : Z)
  : Collaborators := {|
  atofNumeric := fun _ _ => inr strconv.ErrSyntax;
  jsonParams := unmarshal;
  jsonBools := fun _ => None;
  jsonInts := fun _ _ => None;
  jsonFloats := fun _ _ => None;
  rangeOrder := map_to_list;
  rangeOrder_perm := fun m => Permutation_refl (map_to_list m);
  DeviceForName := deviceForName;
  ProfileDeviceCommand := fun profile name =>
    if String.eqb profile "hvac"
    then find (fun dc => String.eqb (DeviceCommand.Name dc) name) commands
    else None;
  ProfileDeviceResource := fun profile name =>
    if String.eqb profile "hvac"
    then find (fun dr => String.eqb (DeviceResource.Name dr) name) resources
    else None;
  serviceAdminState := adminState;
  configuration := DeviceInfo.mk maxCmdOps false true;
  HandleReadCommands := fun _ _ _ _ => ([], None);
  HandleWriteCommands := fun _ _ _ _ _ => None;
  TransformWriteParameter := fun cv _ => inl cv;
  EventDTO := list (option CommandValue.t);
  CommandValuesToEventDTO := fun results _ _ => (Some results, None)
|}.

(** The world before an invocation: the attributes that the profile
    declares for Temperature, and an empty log. *)
Definition world : World :=
  mkWorld (<[0%nat := <["register" := "40001"]> ∅]> ∅) [].

Definition processor (source body attributes : string) : CommandProcessor :=
  NewCommandProcessor thermostat source "correlation" body attributes.

Definition vars (name command : string) : gmap string string :=
  <[v2.Name := name]> (<[v2.Command := command]> ∅).

(** The four methods and the handler on the double, with the service
    unlocked unless said otherwise. *)
Definition readResource (source attributes : string) : Res _ * World :=
  ReadDeviceResource (collaborators := collaborators models.Unlocked 10)
    (processor source "" attributes) world.

Definition writeResource (source body : string) : Res unit * World :=
  WriteDeviceResource (collaborators := collaborators models.Unlocked 10)
    (processor source body "") world.

Definition readCommand (maxCmdOps : Z) (source : string) : Res _ * World :=
  ReadDeviceCommand (collaborators := collaborators models.Unlocked maxCmdOps)
    (processor source "" "") world.

Definition writeCommand (maxCmdOps : Z) (source body : string)
  : Res unit * World :=
  WriteDeviceCommand (collaborators := collaborators models.Unlocked maxCmdOps)
    (processor source body "") world.

Definition handle (adminState : string) (isRead : bool)
    (name command body : string) : Res _ * World :=
  CommandHandler (collaborators := collaborators adminState 10)
    isRead true "correlation" (vars name command) body "" world.

Definition decode (resource v : string)
  : option CommandValue.t * option error :=
  match ProfileDeviceResource (Collaborators := collaborators models.Unlocked 10)
          "hvac" resource with
  | Some dr =>
      createCommandValueFromDeviceResource
        (collaborators := collaborators models.Unlocked 10) dr v
  | None => (None, None)
  end.

End Double.

(** ** What an invocation ends in *)

(** The kind of the EdgeX error an outcome carries, if it is one. *)
Definition outcomeKind {A} (r : Res A) : option ErrKind :=
  match r with
  | Raise e => kindOf e
  | _ => None
  end.

(** An invocation that fails with an error of the kind [k] and leaves the
    world as it found it: no map touched, no collaborator called. *)
Definition rejects {A} (k : ErrKind) (m : M A) (w : World) : Prop :=
  outcomeKind (fst (m w)) = Some k /\ snd (m w) = w.

(** * Properties *)

Section Properties.

Context {collaborators : Collaborators}.

Local Open Scope engine_scope.

Lemma rejects_raise {A} k msg cause w :
  rejects (A := A) k (raise (NewCommonEdgeX k msg cause)) w.
Proof. split; reflexivity. Qed.

(** C2. The eligibility checks of CommandHandler run in the order
    service state, device existence, device state and stop at the first
    that fails: a locked service is ServiceLocked; else an unknown device
    is EntityDoesNotExist; else a locked or down device is ServiceLocked,
    whatever the operation asked for. Nothing else has happened by
    then. *)
Theorem CommandHandler_eligibility_order
    (isRead sendEvent : bool) (cid : string) (vars : gmap string string)
    (body attrs : string) (w : World) :
  let key := default "" (vars !! v2.Name) in
  let handler := CommandHandler isRead sendEvent cid vars body attrs in
  (serviceAdminState = models.Locked ->
     rejects KindServiceLocked handler w)
  /\ (serviceAdminState <> models.Locked -> DeviceForName key = None ->
     rejects KindEntityDoesNotExist handler w)
  /\ (forall d, serviceAdminState <> models.Locked ->
     DeviceForName key = Some d ->
     Device.AdminState d = models.Locked
     \/ Device.OperatingState d = models.Down ->
     rejects KindServiceLocked handler w).
Proof.
  intros key handler. subst handler. unfold CommandHandler. fold key.
  split; [|split].
  - intros ->. rewrite String.eqb_refl. apply rejects_raise.
  - intros Hs Hd. rewrite Hd.
    destruct (String.eqb_spec serviceAdminState models.Locked);
      [contradiction|]. apply rejects_raise.
  - intros d Hs Hd Hst. rewrite Hd.
    destruct (String.eqb_spec serviceAdminState models.Locked);
      [contradiction|].
    destruct (String.eqb_spec (Device.AdminState d) models.Locked);
      [apply rejects_raise|].
    destruct (String.eqb_spec (Device.OperatingState d) models.Down);
      [apply rejects_raise|].
    destruct Hst; contradiction.
Qed.

(** C6, amended. A composite command with more resource operations
    than MaxCmdOps, and whose own permission admits the direction asked
    for, fails with ServerError by the same test on the read and on the
    write path; on the write path this is before the body is parsed, so
    whatever the body holds. *)
Theorem MaxCmdOps_exceeded (c : CommandProcessor) (dc : DeviceCommand.t)
    (w : World) :
  ProfileDeviceCommand (Device.ProfileName (device c)) (sourceName c)
    = Some dc ->
  DeviceInfo.MaxCmdOps configuration
    < Z.of_nat (length (DeviceCommand.ResourceOperations dc)) ->
  (DeviceCommand.ReadWrite dc <> v2.ReadWrite_W ->
     rejects KindServerError (ReadDeviceCommand c) w)
  /\ (DeviceCommand.ReadWrite dc <> v2.ReadWrite_R ->
     forall body',
     rejects KindServerError
       (WriteDeviceCommand
          (NewCommandProcessor (device c) (sourceName c) (correlationID c)
             body' (attributes c))) w).
Proof.
  intros Hdc Hlen. apply Z.ltb_lt in Hlen. split.
  - intros Hrw. unfold ReadDeviceCommand. rewrite Hdc.
    destruct (String.eqb_spec (DeviceCommand.ReadWrite dc) v2.ReadWrite_W);
      [contradiction|].
    rewrite Hlen. apply rejects_raise.
  - intros Hrw body'. unfold WriteDeviceCommand. cbn [device sourceName
      NewCommandProcessor]. rewrite Hdc.
    destruct (String.eqb_spec (DeviceCommand.ReadWrite dc) v2.ReadWrite_R);
      [contradiction|].
    rewrite Hlen. apply rejects_raise.
Qed.

Lemma findMapping_Some entries value k :
  findMapping entries value = Some k -> (k, value) ∈ entries.
Proof.
  induction entries as [|[k' v'] rest IH]; cbn; [discriminate|].
  destruct (String.eqb_spec v' value) as [->|_].
  - intros [= ->]. left.
  - intros H. right. auto.
Qed.

Lemma findMapping_None entries value :
  findMapping entries value = None -> forall k, (k, value) ∉ entries.
Proof.
  induction entries as [|[k' v'] rest IH]; cbn; intros H k Hin.
  - inversion Hin.
  - destruct (String.eqb_spec v' value) as [->|Hne]; [discriminate|].
    apply elem_of_cons in Hin as [[= -> ->]|Hin]; [congruence|].
    exact (IH H k Hin).
Qed.

Lemma rangeOrder_lookup (m : gmap string string) k v :
  (k, v) ∈ rangeOrder m <-> m !! k = Some v.
Proof. rewrite (rangeOrder_perm m). apply elem_of_map_to_list. Qed.

Lemma size_pos_nonempty (m : gmap string string) :
  (0 <? size m)%nat = negb (bool_decide (m = ∅)).
Proof.
  case_bool_decide as H.
  - subst. reflexivity.
  - apply Nat.ltb_lt. destruct (size m) eqn:E; [|lia].
    apply map_size_empty_iff in E. contradiction.
Qed.

(** C7. The write value mapping of a resource operation: a candidate
    that is the value of some entry of the table is replaced by the key
    of such an entry; with a table that has entries but none for the
    candidate, the candidate goes on unchanged, with a warning and no
    error; with an empty table it goes on unchanged. *)
Theorem writeValueMapping_resolves (ro : ResourceOperation.t)
    (value : string) (w : World) :
  let table := ResourceOperation.Mappings ro in
  ((exists k, table !! k = Some value) ->
     exists k, table !! k = Some value
               /\ writeValueMapping ro value w = (Done k, w))
  /\ (table <> ∅ -> (forall k, table !! k <> Some value) ->
     writeValueMapping ro value w
     = (Done value,
        mkWorld (heap w)
          (log w ++ [EvWarnf (ResourceOperation.DeviceResource ro) value
                       table])%list))
  /\ (table = ∅ -> writeValueMapping ro value w = (Done value, w)).
Proof.
  intros table. unfold writeValueMapping. fold table.
  rewrite size_pos_nonempty. split; [|split].
  - intros [k Hk]. case_bool_decide as He.
    { rewrite He in Hk. rewrite lookup_empty in Hk. discriminate. }
    cbn [negb]. destruct (findMapping (rangeOrder table) value) as [k'|] eqn:E.
    + exists k'. split; [|reflexivity].
      apply rangeOrder_lookup, findMapping_Some, E.
    + exfalso. eapply findMapping_None; [exact E|].
      apply rangeOrder_lookup, Hk.
  - intros Hne Hno. case_bool_decide; [contradiction|]. cbn [negb].
    destruct (findMapping (rangeOrder table) value) as [k'|] eqn:E;
      [|reflexivity].
    exfalso. apply (Hno k'). apply rangeOrder_lookup, findMapping_Some, E.
  - intros He. case_bool_decide; [reflexivity|contradiction].
Qed.

(** The first loop takes the operations in the order of the list: over
    two lists on end it is the loop over the first, then the loop over
    the second. *)
Lemma createCommandValues_app c dc paramMap ops1 ops2 :
  forall cvs w,
    createCommandValues c dc paramMap (ops1 ++ ops2) cvs w
    = bind (createCommandValues c dc paramMap ops1 cvs)
        (fun cvs' => createCommandValues c dc paramMap ops2 cvs') w.
Proof.
  induction ops1 as [|ro rest IH]; intros cvs w; [reflexivity|].
  cbn [app createCommandValues].
  destruct (ProfileDeviceResource _ _) as [dr|]; [|reflexivity].
  destruct (String.eqb _ _); [reflexivity|].
  destruct (resolveValue paramMap ro dr) as [value|err]; [|reflexivity].
  unfold bind.
  destruct (writeValueMapping ro value w) as [[value'|e|] w1];
    [|reflexivity..].
  destruct (createCommandValue dr value' w1) as [[cv|e|] w2];
    [|reflexivity..].
  rewrite IH. reflexivity.
Qed.

(** C9. One turn of the first loop of WriteDeviceCommand, for a
    resource operation whose resource is declared and not read-only: the
    text that goes on to the mapping and the decoder is the entry of the
    body for the resource if there is one, else the default of the
    operation if it has one, else the default of the resource if it has
    one; else the turn ends the write with ServerError. The operations
    are taken in the declared order. *)
Theorem createCommandValues_value_precedence (c : CommandProcessor)
    (dc : DeviceCommand.t) (paramMap : gmap string string)
    (ro : ResourceOperation.t) (rest : list ResourceOperation.t)
    (cvs : list (option CommandValue.t)) (dr : DeviceResource.t) (w : World) :
  ProfileDeviceResource (Device.ProfileName (device c))
    (ResourceOperation.DeviceResource ro) = Some dr ->
  ResourceProperties.ReadWrite (DeviceResource.Properties dr)
    <> v2.ReadWrite_R ->
  let turn := createCommandValues c dc paramMap (ro :: rest) cvs in
  let goesOn (value : string) :=
    value' <- writeValueMapping ro value ;;
    cv <- createCommandValue dr value' ;;
    createCommandValues c dc paramMap rest (cvs ++ [cv])%list in
  let inBody := paramMap !! ResourceOperation.DeviceResource ro in
  let ofOperation := ResourceOperation.DefaultValue ro in
  let ofResource :=
    ResourceProperties.DefaultValue (DeviceResource.Properties dr) in
  (forall value, inBody = Some value -> turn w = goesOn value w)
  /\ (inBody = None -> ofOperation <> "" -> turn w = goesOn ofOperation w)
  /\ (inBody = None -> ofOperation = "" -> ofResource <> "" ->
      turn w = goesOn ofResource w)
  /\ (inBody = None -> ofOperation = "" -> ofResource = "" ->
      rejects KindServerError turn w).
Proof.
  intros Hdr Hrw turn goesOn inBody ofOperation ofResource.
  subst turn goesOn. cbn [createCommandValues]. rewrite Hdr.
  destruct (String.eqb_spec
    (ResourceProperties.ReadWrite (DeviceResource.Properties dr))
    v2.ReadWrite_R); [contradiction|].
  unfold resolveValue. fold inBody ofOperation ofResource.
  split; [|split; [|split]].
  - intros value ->. reflexivity.
  - intros -> Hop.
    destruct (String.eqb_spec ofOperation ""); [contradiction|]. reflexivity.
  - intros -> -> Hres.
    destruct (String.eqb_spec ofResource ""); [contradiction|]. reflexivity.
  - intros -> -> ->. split; reflexivity.
Qed.

(** *** Steps that neither panic nor reach the driver *)

Definition quiet {A} (m : M A) : Prop :=
  forall w,
    fst (m w) <> Panic
    /\ driverCalls (log (snd (m w))) = driverCalls (log w).

Lemma driverCalls_snoc l e :
  isDriverCall e = false -> driverCalls (l ++ [e]) = driverCalls l.
Proof.
  intros H. unfold driverCalls. rewrite List.filter_app. cbn.
  rewrite H, app_nil_r. reflexivity.
Qed.

Lemma quiet_ret {A} (a : A) : quiet (ret a).
Proof. intros w. split; [discriminate|reflexivity]. Qed.

Lemma quiet_raise {A} e : quiet (raise (A := A) e).
Proof. intros w. split; [discriminate|reflexivity]. Qed.

Lemma quiet_tell e : isDriverCall e = false -> quiet (tell e).
Proof.
  intros H w. split; [discriminate|]. cbn. apply driverCalls_snoc, H.
Qed.

Lemma quiet_bind {A B} (m : M A) (k : A -> M B) :
  quiet m -> (forall a, quiet (k a)) -> quiet (bind m k).
Proof.
  intros Hm Hk w. unfold bind. specialize (Hm w).
  destruct (m w) as [[a|e|] w1]; cbn in Hm.
  - destruct (Hk a w1) as [Hp Hc]. split; [exact Hp|]. lia.
  - cbn. split; [discriminate|]. tauto.
  - exfalso. tauto.
Qed.

Create HintDb quiet.
Hint Resolve quiet_ret quiet_raise quiet_tell quiet_bind : quiet.

Lemma quiet_writeValueMapping ro value : quiet (writeValueMapping ro value).
Proof.
  unfold writeValueMapping.
  destruct (0 <? size _)%nat; auto with quiet.
  destruct (findMapping _ _); auto with quiet.
Qed.

Lemma quiet_createCommandValue dr v : quiet (createCommandValue dr v).
Proof.
  unfold createCommandValue. apply quiet_bind; [auto with quiet|].
  intros _. destruct (createCommandValueFromDeviceResource dr v) as [cv [e|]];
    auto with quiet.
Qed.

Lemma quiet_parseBody c : quiet (parseBody c).
Proof.
  unfold parseBody. apply quiet_bind; [auto with quiet|].
  intros _. destruct (parseParams (body c)) as [pm [e|]]; auto with quiet.
Qed.

Hint Resolve quiet_writeValueMapping quiet_createCommandValue
  quiet_parseBody : quiet.

Lemma quiet_createCommandValues c dc paramMap ops :
  forall cvs, quiet (createCommandValues c dc paramMap ops cvs).
Proof.
  induction ops as [|ro rest IH]; intros cvs; cbn [createCommandValues];
    [auto with quiet|].
  destruct (ProfileDeviceResource _ _) as [dr|]; [|auto with quiet].
  destruct (String.eqb _ _); [auto with quiet|].
  destruct (resolveValue paramMap ro dr) as [value|err]; [|auto with quiet].
  apply quiet_bind; [auto with quiet|]. intros value'.
  apply quiet_bind; [auto with quiet|]. intros cv. apply IH.
Qed.

(** A read-only resource among the operations stops the first loop. *)
Lemma createCommandValues_read_only c dc paramMap pre ro post dr :
  ProfileDeviceResource (Device.ProfileName (device c))
    (ResourceOperation.DeviceResource ro) = Some dr ->
  ResourceProperties.ReadWrite (DeviceResource.Properties dr)
    = v2.ReadWrite_R ->
  forall cvs w,
    exists e,
      fst (createCommandValues c dc paramMap (pre ++ ro :: post) cvs w)
      = Raise e.
Proof.
  intros Hdr Hrw. induction pre as [|a pre IH]; intros cvs w.
  - cbn [app createCommandValues]. rewrite Hdr, Hrw, String.eqb_refl.
    eexists. reflexivity.
  - cbn [app createCommandValues].
    destruct (ProfileDeviceResource _ (ResourceOperation.DeviceResource a))
      as [dra|]; [|eexists; reflexivity].
    destruct (String.eqb _ _); [eexists; reflexivity|].
    destruct (resolveValue paramMap a dra) as [value|err];
      [|eexists; reflexivity].
    unfold bind at 1.
    pose proof (quiet_writeValueMapping a value w) as [Hp _].
    destruct (writeValueMapping a value w) as [[value'|e|] w1];
      [|eexists; reflexivity|contradiction].
    unfold bind at 1.
    pose proof (quiet_createCommandValue dra value' w1) as [Hp1 _].
    destruct (createCommandValue dra value' w1) as [[cv|e|] w2];
      [|eexists; reflexivity|contradiction].
    apply IH.
Qed.

(** The first loop up to a read-only resource that it reaches. *)
Lemma createCommandValues_reaches_read_only c dc paramMap pre ro post dr :
  ProfileDeviceResource (Device.ProfileName (device c))
    (ResourceOperation.DeviceResource ro) = Some dr ->
  ResourceProperties.ReadWrite (DeviceResource.Properties dr)
    = v2.ReadWrite_R ->
  forall cvs w cvs' w',
    createCommandValues c dc paramMap pre cvs w = (Done cvs', w') ->
    rejects KindNotAllowed
      (fun _ => createCommandValues c dc paramMap (pre ++ ro :: post) cvs w)
      w'.
Proof.
  intros Hdr Hrw. induction pre as [|a pre IH]; intros cvs w cvs' w'.
  - cbn [app createCommandValues]. intros [= <- <-].
    rewrite Hdr, Hrw, String.eqb_refl. split; reflexivity.
  - cbn [app createCommandValues].
    destruct (ProfileDeviceResource _ (ResourceOperation.DeviceResource a))
      as [dra|]; [|discriminate].
    destruct (String.eqb _ _); [discriminate|].
    destruct (resolveValue paramMap a dra) as [value|err]; [|discriminate].
    unfold bind at 1 3.
    destruct (writeValueMapping a value w) as [[value'|e|] w1];
      [|discriminate..].
    unfold bind at 1 2.
    destruct (createCommandValue dra value' w1) as [[cv|e|] w2];
      [|discriminate..].
    apply IH.
Qed.

Lemma WriteDeviceCommand_read_only_entry c dc pre ro post dr w :
  ProfileDeviceCommand (Device.ProfileName (device c)) (sourceName c)
    = Some dc ->
  DeviceCommand.ResourceOperations dc = (pre ++ ro :: post)%list ->
  ProfileDeviceResource (Device.ProfileName (device c))
    (ResourceOperation.DeviceResource ro) = Some dr ->
  ResourceProperties.ReadWrite (DeviceResource.Properties dr)
    = v2.ReadWrite_R ->
  exists e w',
    WriteDeviceCommand c w = (Raise e, w')
    /\ driverCalls (log w') = driverCalls (log w)
    /\ (forall paramMap w1 cvs w2,
        DeviceCommand.ReadWrite dc <> v2.ReadWrite_R ->
        Z.of_nat (length (DeviceCommand.ResourceOperations dc))
          <= DeviceInfo.MaxCmdOps configuration ->
        parseBody c w = (Done paramMap, w1) ->
        createCommandValues c dc paramMap pre [] w1 = (Done cvs, w2) ->
        kindOf e = Some KindNotAllowed /\ w' = w2).
Proof.
  intros Hdc Hops Hdr Hrw.
  pose proof (createCommandValues_read_only c dc) as Hstop.
  pose proof (createCommandValues_reaches_read_only c dc) as Hreach.
  unfold WriteDeviceCommand. rewrite Hdc, Hops.
  destruct (String.eqb_spec (DeviceCommand.ReadWrite dc) v2.ReadWrite_R)
    as [Hc|Hc].
  { do 2 eexists. split; [reflexivity|]. split; [reflexivity|].
    intros; contradiction. }
  destruct (Z.ltb_spec (DeviceInfo.MaxCmdOps configuration)
              (Z.of_nat (length (pre ++ ro :: post)))) as [Hn|Hn].
  { do 2 eexists. split; [reflexivity|]. split; [reflexivity|].
    intros; lia. }
  unfold bind.
  pose proof (quiet_parseBody c w) as [Hp Hq].
  destruct (parseBody c w) as [[paramMap|e|] w1]; cbn in Hp, Hq.
  2:{ do 2 eexists. split; [reflexivity|]. split; [exact Hq|].
      intros; discriminate. }
  2:{ contradiction. }
  destruct (Hstop paramMap pre ro post dr Hdr Hrw [] w1) as [e He].
  pose proof (quiet_createCommandValues c dc paramMap
                (pre ++ ro :: post) [] w1) as [_ Hq1].
  specialize (Hreach paramMap pre ro post dr Hdr Hrw [] w1).
  destruct (createCommandValues c dc paramMap (pre ++ ro :: post) [] w1)
    as [r w2] eqn:E. cbn in He, Hq1. subst r.
  exists e, w2. split; [reflexivity|]. split; [lia|].
  intros pm w1' cvs w2' _ _ [= <- <-] Hpre.
  destruct (Hreach cvs w2' Hpre) as [Hk Hw]. cbn in Hk, Hw.
  split; [exact Hk|exact Hw].
Qed.

(** C8, amended. A read of a resource or of a composite command that
    is write-only, and a write of one that is read-only, fail with
    NotAllowed and nothing has been called by then. A composite write
    with a read-only resource among its operations always fails, and
    before any call of the driver; it fails with NotAllowed when the
    first loop gets as far as that operation, which is when the count
    and the body are accepted and every operation before it yields a
    value; otherwise the check that fails before it decides the error. *)
Theorem permission_checks (c : CommandProcessor) (w : World) :
  let profile := Device.ProfileName (device c) in
  (forall dr, ProfileDeviceResource profile (sourceName c) = Some dr ->
     (ResourceProperties.ReadWrite (DeviceResource.Properties dr)
        = v2.ReadWrite_W ->
      rejects KindNotAllowed (ReadDeviceResource c) w)
     /\ (ResourceProperties.ReadWrite (DeviceResource.Properties dr)
           = v2.ReadWrite_R ->
         rejects KindNotAllowed (WriteDeviceResource c) w))
  /\ (forall dc, ProfileDeviceCommand profile (sourceName c) = Some dc ->
     (DeviceCommand.ReadWrite dc = v2.ReadWrite_W ->
      rejects KindNotAllowed (ReadDeviceCommand c) w)
     /\ (DeviceCommand.ReadWrite dc = v2.ReadWrite_R ->
         rejects KindNotAllowed (WriteDeviceCommand c) w)
     /\ (forall pre ro post dr,
         DeviceCommand.ResourceOperations dc = (pre ++ ro :: post)%list ->
         ProfileDeviceResource profile (ResourceOperation.DeviceResource ro)
           = Some dr ->
         ResourceProperties.ReadWrite (DeviceResource.Properties dr)
           = v2.ReadWrite_R ->
         (exists e, fst (WriteDeviceCommand c w) = Raise e)
         /\ driverCalls (log (snd (WriteDeviceCommand c w)))
            = driverCalls (log w)
         /\ (forall paramMap w1 cvs w2,
             DeviceCommand.ReadWrite dc <> v2.ReadWrite_R ->
             Z.of_nat (length (DeviceCommand.ResourceOperations dc))
               <= DeviceInfo.MaxCmdOps configuration ->
             parseBody c w = (Done paramMap, w1) ->
             createCommandValues c dc paramMap pre [] w1 = (Done cvs, w2) ->
             outcomeKind (fst (WriteDeviceCommand c w)) = Some KindNotAllowed
             /\ snd (WriteDeviceCommand c w) = w2))).
Proof.
  intros profile. subst profile. split.
  - intros dr Hdr. split; intros Hrw.
    + unfold ReadDeviceResource. rewrite Hdr, Hrw, String.eqb_refl.
      apply rejects_raise.
    + unfold WriteDeviceResource. rewrite Hdr, Hrw, String.eqb_refl.
      apply rejects_raise.
  - intros dc Hdc. split; [|split].
    + intros Hrw. unfold ReadDeviceCommand.
      rewrite Hdc, Hrw, String.eqb_refl. apply rejects_raise.
    + intros Hrw. unfold WriteDeviceCommand.
      rewrite Hdc, Hrw, String.eqb_refl. apply rejects_raise.
    + intros pre ro post dr Hops Hdr Hrw.
      destruct (WriteDeviceCommand_read_only_entry c dc pre ro post dr w
                  Hdc Hops Hdr Hrw) as (e & w' & -> & Hq & Hk).
      split; [eexists; reflexivity|]. split; [exact Hq|].
      intros paramMap w1 cvs w2 Hc Hn Hb Hpre.
      exact (Hk paramMap w1 cvs w2 Hc Hn Hb Hpre).
Qed.

(** *** The batch reaches the driver whole or not at all *)

Definition silent {A} (m : M A) : Prop :=
  forall w, driverCalls (log (snd (m w))) = driverCalls (log w).

Lemma quiet_silent {A} (m : M A) : quiet m -> silent m.
Proof. intros H w. apply H. Qed.

Lemma silent_bind {A B} (m : M A) (k : A -> M B) :
  silent m -> (forall a, silent (k a)) -> silent (bind m k).
Proof.
  intros Hm Hk w. unfold bind. specialize (Hm w).
  destruct (m w) as [[a|e|] w1]; cbn in Hm |- *; [|exact Hm..].
  rewrite (Hk a w1). exact Hm.
Qed.

Lemma silent_prepareAttributes declared query :
  silent (prepareAttributes declared query).
Proof.
  intros w. unfold prepareAttributes.
  destruct (String.eqb query ""); [reflexivity|].
  unfold bind, getHeap. cbn.
  destruct (mapLen (heap w) declared <=? 0)%nat; cbn; [reflexivity|].
  destruct declared; reflexivity.
Qed.

Lemma silent_transformWrite cv dr : silent (transformWrite cv dr).
Proof.
  unfold transformWrite. destruct (DeviceInfo.DataTransform configuration).
  - apply quiet_silent. apply quiet_bind; [auto with quiet|]. intros _.
    destruct (TransformWriteParameter _ _); auto with quiet.
  - apply quiet_silent. auto with quiet.
Qed.

Lemma silent_prepareCommandRequests c cvs :
  silent (prepareCommandRequests c cvs).
Proof.
  induction cvs as [|[cv|] rest IH]; cbn [prepareCommandRequests].
  - intros w. reflexivity.
  - apply silent_bind; [apply silent_prepareAttributes|]. intros attrs.
    apply silent_bind; [apply silent_transformWrite|]. intros cv'.
    apply silent_bind; [exact IH|]. intros r w. reflexivity.
  - intros w. reflexivity.
Qed.

(** Whatever a composite write ends in, the driver has either not been
    called, or been called once, after both loops had run to their end,
    with the requests and the values of all the operations. *)
Lemma WriteDeviceCommand_whole_batch_or_nothing c w :
  driverCalls (log (snd (WriteDeviceCommand c w))) = driverCalls (log w)
  \/ exists dc paramMap w1 cvs w2 r w3,
       ProfileDeviceCommand (Device.ProfileName (device c)) (sourceName c)
         = Some dc
       /\ parseBody c w = (Done paramMap, w1)
       /\ createCommandValues c dc paramMap
            (DeviceCommand.ResourceOperations dc) [] w1 = (Done cvs, w2)
       /\ prepareCommandRequests c cvs w2 = (Done r, w3)
       /\ driverCalls (log w3) = driverCalls (log w)
       /\ log (snd (WriteDeviceCommand c w))
          = (log w3 ++ [EvHandleWriteCommands (Device.Name (device c))
                         (fst r) (snd r)])%list.
Proof.
  unfold WriteDeviceCommand.
  destruct (ProfileDeviceCommand _ _) as [dc|] eqn:Edc; [|left; reflexivity].
  destruct (String.eqb _ _); [left; reflexivity|].
  destruct (_ <? _); [left; reflexivity|].
  unfold bind.
  pose proof (quiet_parseBody c w) as [_ Hq].
  destruct (parseBody c w) as [[paramMap|e|] w1] eqn:Ebody; cbn in Hq;
    [|left; exact Hq..].
  pose proof (quiet_createCommandValues c dc paramMap
                (DeviceCommand.ResourceOperations dc) [] w1) as [_ Hq1].
  destruct (createCommandValues c dc paramMap _ [] w1) as [[cvs|e|] w2]
    eqn:Ecvs; cbn in Hq1; [|left; cbn; lia..].
  pose proof (silent_prepareCommandRequests c cvs w2) as Hq2.
  destruct (prepareCommandRequests c cvs w2) as [[r|e|] w3] eqn:Ereqs;
    cbn in Hq2; [|left; cbn; lia..].
  right. exists dc, paramMap, w1, cvs, w2, r, w3.
  split; [reflexivity|]. split; [reflexivity|]. split; [exact Ecvs|].
  split; [exact Ereqs|]. split; [lia|].
  unfold driverWrite, bind, tell, getHeap, ret. cbn.
  destruct (HandleWriteCommands _ _ _ _ _); reflexivity.
Qed.

(** *** The attribute maps *)

Lemma prepareAttributes_fresh declared attributes w :
  attributes <> "" -> mapLen (heap w) declared = 0%nat ->
  let l := fresh (dom (heap w)) in
  prepareAttributes declared attributes w
  = (Done (Some l),
     mkWorld (<[l := {[common.URLRawQuery := attributes]}]> (heap w))
       (log w)).
Proof.
  intros Hq Hlen l. unfold prepareAttributes.
  destruct (String.eqb_spec attributes ""); [contradiction|].
  unfold bind, getHeap. rewrite Hlen. cbn.
  rewrite lookup_insert_eq. cbn. rewrite insert_insert_eq, insert_empty.
  reflexivity.
Qed.

Lemma prepareAttributes_shared l m attributes w :
  attributes <> "" -> heap w !! l = Some m -> m <> ∅ ->
  prepareAttributes (Some l) attributes w
  = (Done (Some l),
     mkWorld (<[l := <[common.URLRawQuery := attributes]> m]> (heap w))
       (log w)).
Proof.
  intros Hq Hm Hne. unfold prepareAttributes.
  destruct (String.eqb_spec attributes ""); [contradiction|].
  unfold bind, getHeap. cbn. rewrite Hm.
  destruct (size m) eqn:E.
  { apply map_size_empty_iff in E. contradiction. }
  cbn. rewrite Hm. reflexivity.
Qed.

Lemma ReadDeviceResource_heap c dr w :
  ProfileDeviceResource (Device.ProfileName (device c)) (sourceName c)
    = Some dr ->
  ResourceProperties.ReadWrite (DeviceResource.Properties dr)
    <> v2.ReadWrite_W ->
  heap (snd (ReadDeviceResource c w))
  = heap (snd (prepareAttributes (DeviceResource.Attributes dr)
                 (attributes c) w)).
Proof.
  intros Hdr Hrw. unfold ReadDeviceResource. rewrite Hdr.
  destruct (String.eqb_spec
    (ResourceProperties.ReadWrite (DeviceResource.Properties dr))
    v2.ReadWrite_W); [contradiction|].
  unfold bind at 1.
  destruct (prepareAttributes _ _ w) as [[attrs|e|] w1]; [|reflexivity..].
  unfold driverRead, toEvent, bind, tell, getHeap, ret, raise. cbn.
  destruct (HandleReadCommands _ _ _ _) as [results [err|]]; [reflexivity|].
  cbn. destruct (CommandValuesToEventDTO _ _ _) as [res [e|]]; reflexivity.
Qed.

(** *** Big-endian bytes *)

Lemma testbit_255 m : Z.testbit 255 m = (0 <=? m) && (m <? 8).
Proof.
  destruct (Z.leb_spec 0 m).
  - change 255 with (Z.ones 8). rewrite Z.testbit_ones_nonneg by lia.
    reflexivity.
  - rewrite Z.testbit_neg_r by lia. reflexivity.
Qed.

Lemma testbit_above f k n : 0 <= f < 2 ^ k -> k <= n -> Z.testbit f n = false.
Proof.
  intros [H0 Hk] Hn. destruct (Z.eq_dec f 0) as [->|Hne].
  - apply Z.testbit_0_l.
  - apply Z.bits_above_log2; [lia|].
    assert (Z.log2 f < k) by (apply Z.log2_lt_pow2; lia). lia.
Qed.

Lemma testbit_byte f k m :
  0 <= k -> 0 <= m ->
  Z.testbit (Z.shiftl (Z.land (Z.shiftr f k) 255) k) m
  = (k <=? m) && (m <? k + 8) && Z.testbit f m.
Proof.
  intros Hk Hm. rewrite Z.shiftl_spec by lia.
  destruct (Z.leb_spec k m).
  - rewrite Z.land_spec, Z.shiftr_spec, testbit_255 by lia.
    replace (m - k + k) with m by lia.
    destruct (Z.leb_spec 0 (m - k)); [|lia].
    destruct (Z.ltb_spec (m - k) 8), (Z.ltb_spec m (k + 8)); try lia;
      destruct (Z.testbit f m); reflexivity.
  - rewrite Z.testbit_neg_r by lia. reflexivity.
Qed.

Lemma Uint32_PutUint32 f :
  0 <= f < 2 ^ 32 -> binary.Uint32 (binary.PutUint32 f) = f.
Proof.
  intros Hf. unfold binary.Uint32, binary.PutUint32. cbn [nth].
  rewrite <- (Z.shiftl_0_r (Z.land f 255)).
  rewrite <- (Z.shiftr_0_r f) at 1.
  apply Z.bits_inj'. intros n Hn.
  rewrite !Z.lor_spec, !testbit_byte by lia.
  destruct (Z.ltb_spec n 32).
  - destruct (Z.leb_spec 0 n), (Z.ltb_spec n (0 + 8)), (Z.leb_spec 8 n),
      (Z.ltb_spec n (8 + 8)), (Z.leb_spec 16 n), (Z.ltb_spec n (16 + 8)),
      (Z.leb_spec 24 n), (Z.ltb_spec n (24 + 8)); try lia;
      destruct (Z.testbit f n); reflexivity.
  - rewrite (testbit_above f 32 n Hf) by lia.
    rewrite !andb_false_r. reflexivity.
Qed.

Lemma Uint64_PutUint64 f :
  0 <= f < 2 ^ 64 -> binary.Uint64 (binary.PutUint64 f) = f.
Proof.
  intros Hf. unfold binary.Uint64, binary.PutUint64.
  change 0xFFFFFFFF with (Z.ones 32).
  assert (Hhi : 0 <= Z.shiftr f 32 < 2 ^ 32).
  { rewrite Z.shiftr_div_pow2 by lia. split.
    - apply Z.div_pos; lia.
    - apply Z.div_lt_upper_bound; lia. }
  assert (Hlo : 0 <= Z.land f (Z.ones 32) < 2 ^ 32).
  { rewrite Z.land_ones by lia. apply Z.mod_pos_bound. lia. }
  replace (firstn 4 (binary.PutUint32 (Z.shiftr f 32)
                     ++ binary.PutUint32 (Z.land f (Z.ones 32))))
    with (binary.PutUint32 (Z.shiftr f 32)) by reflexivity.
  replace (skipn 4 (binary.PutUint32 (Z.shiftr f 32)
                    ++ binary.PutUint32 (Z.land f (Z.ones 32))))
    with (binary.PutUint32 (Z.land f (Z.ones 32))) by reflexivity.
  rewrite !Uint32_PutUint32 by assumption.
  apply Z.bits_inj'. intros n Hn.
  rewrite Z.lor_spec, Z.shiftl_spec, Z.land_spec by lia.
  destruct (Z.ltb_spec n 32).
  - rewrite Z.testbit_neg_r by lia.
    rewrite Z.testbit_ones_nonneg by lia.
    destruct (Z.ltb_spec n 32); [|lia]. cbn. apply andb_true_r.
  - rewrite Z.shiftr_spec by lia. replace (n - 32 + 32) with n by lia.
    rewrite Z.testbit_ones_nonneg by lia.
    destruct (Z.ltb_spec n 32); [lia|]. rewrite andb_false_r.
    apply orb_false_r.
Qed.

Lemma float32FromBytes_PutUint32 f :
  0 <= f < 2 ^ 32 -> float32FromBytes (binary.PutUint32 f) = inl f.
Proof.
  intros Hf. unfold float32FromBytes, binary.Read.
  change (firstn 4 (binary.PutUint32 f)) with (binary.PutUint32 f).
  cbn [binary.PutUint32 length Nat.ltb Nat.leb Nat.eqb].
  f_equal. apply (Uint32_PutUint32 f Hf).
Qed.

Lemma float64FromBytes_PutUint64 f :
  0 <= f < 2 ^ 64 -> float64FromBytes (binary.PutUint64 f) = inl f.
Proof.
  intros Hf. unfold float64FromBytes, binary.Read.
  change (firstn 8 (binary.PutUint64 f)) with (binary.PutUint64 f).
  pose proof (Uint64_PutUint64 f Hf) as H.
  unfold binary.PutUint64, binary.PutUint32 in *.
  cbn [app length Nat.ltb Nat.leb Nat.eqb] in *.
  f_equal. exact H.
Qed.

(** *** The float kinds *)

Lemma createCommandValue_Float32 dr v :
  ResourceProperties.ValueType (DeviceResource.Properties dr)
    = v2.ValueTypeFloat32 ->
  createCommandValueFromDeviceResource dr v = caseLocal (float32Case dr v).
Proof.
  intros H. unfold createCommandValueFromDeviceResource. rewrite H.
  reflexivity.
Qed.

Lemma createCommandValue_Float64 dr v :
  ResourceProperties.ValueType (DeviceResource.Properties dr)
    = v2.ValueTypeFloat64 ->
  createCommandValueFromDeviceResource dr v = caseLocal (float64Case dr v).
Proof.
  intros H. unfold createCommandValueFromDeviceResource. rewrite H.
  reflexivity.
Qed.

(** C5. For the float kinds, a text that the decimal parse refuses for
    a reason other than its range, and that is the base64 text of
    exactly the big-endian bytes of a float of the kind's size that is
    not NaN, decodes to the command value that holds that float. *)
Theorem float_binary_fallback (dr : DeviceResource.t) (v : string) (f : Z) :
  let kind := ResourceProperties.ValueType (DeviceResource.Properties dr) in
  (kind = v2.ValueTypeFloat32 ->
   strconv.ParseFloat atofNumeric v 32 = inr strconv.ErrSyntax ->
   0 <= f < 2 ^ 32 ->
   base64.DecodeString v = Some (binary.PutUint32 f) ->
   math.IsNaN32 f = false ->
   createCommandValueFromDeviceResource dr v
   = (Some (CommandValue.mk (DeviceResource.Name dr) v2.ValueTypeFloat32
              (VFloat32 f)), None))
  /\ (kind = v2.ValueTypeFloat64 ->
   strconv.ParseFloat atofNumeric v 64 = inr strconv.ErrSyntax ->
   0 <= f < 2 ^ 64 ->
   base64.DecodeString v = Some (binary.PutUint64 f) ->
   math.IsNaN64 f = false ->
   createCommandValueFromDeviceResource dr v
   = (Some (CommandValue.mk (DeviceResource.Name dr) v2.ValueTypeFloat64
              (VFloat64 f)), None)).
Proof.
  intros kind. subst kind. split; intros Hk Hparse Hf Hb64 Hnan.
  - rewrite (createCommandValue_Float32 dr v Hk). unfold float32Case.
    rewrite Hparse, Hb64, (float32FromBytes_PutUint32 f Hf), Hnan.
    reflexivity.
  - rewrite (createCommandValue_Float64 dr v Hk). unfold float64Case.
    rewrite Hparse, Hb64, (float64FromBytes_PutUint64 f Hf), Hnan.
    reflexivity.
Qed.

(** C10. For the float kinds the texts NaN, Inf and -Inf are taken by
    the decimal parse itself and give a command value that holds NaN,
    the positive and the negative infinity: the test for NaN guards the
    binary fallback only. *)
Theorem float_special_texts (dr : DeviceResource.t) :
  let kind := ResourceProperties.ValueType (DeviceResource.Properties dr) in
  let name := DeviceResource.Name dr in
  (kind = v2.ValueTypeFloat32 ->
   createCommandValueFromDeviceResource dr "NaN"
   = (Some (CommandValue.mk name v2.ValueTypeFloat32 (VFloat32 0x7FC00000)),
      None)
   /\ math.IsNaN32 0x7FC00000 = true
   /\ math.IsInf32 0x7F800000 1 = true
   /\ math.IsInf32 0xFF800000 (-1) = true
   /\ createCommandValueFromDeviceResource dr "Inf"
      = (Some (CommandValue.mk name v2.ValueTypeFloat32
                 (VFloat32 0x7F800000)), None)
   /\ createCommandValueFromDeviceResource dr "-Inf"
      = (Some (CommandValue.mk name v2.ValueTypeFloat32
                 (VFloat32 0xFF800000)), None))
  /\ (kind = v2.ValueTypeFloat64 ->
   createCommandValueFromDeviceResource dr "NaN"
   = (Some (CommandValue.mk name v2.ValueTypeFloat64
              (VFloat64 0x7FF8000000000001)), None)
   /\ math.IsNaN64 0x7FF8000000000001 = true
   /\ math.IsInf64 0x7FF0000000000000 1 = true
   /\ math.IsInf64 0xFFF0000000000000 (-1) = true
   /\ createCommandValueFromDeviceResource dr "Inf"
      = (Some (CommandValue.mk name v2.ValueTypeFloat64
                 (VFloat64 0x7FF0000000000000)), None)
   /\ createCommandValueFromDeviceResource dr "-Inf"
      = (Some (CommandValue.mk name v2.ValueTypeFloat64
                 (VFloat64 0xFFF0000000000000)), None)).
Proof.
  intros kind name. subst kind name. split; intros Hk.
  - rewrite !(createCommandValue_Float32 dr _ Hk).
    repeat split; reflexivity.
  - rewrite !(createCommandValue_Float64 dr _ Hk).
    repeat split; reflexivity.
Qed.

(** For the float kinds the function never returns an error: whatever
    the case-local err holds when control leaves the switch, the err of
    the function is nil. *)
Lemma float_kinds_return_no_error dr v :
  let kind := ResourceProperties.ValueType (DeviceResource.Properties dr) in
  kind = v2.ValueTypeFloat32 \/ kind = v2.ValueTypeFloat64 ->
  snd (createCommandValueFromDeviceResource dr v) = None.
Proof.
  intros kind [Hk|Hk]; subst kind.
  - rewrite (createCommandValue_Float32 dr v Hk). reflexivity.
  - rewrite (createCommandValue_Float64 dr v Hk). reflexivity.
Qed.

End Properties.

(** * The properties on the test double *)

(** C1. A composite write in which the value of a float resource fails
    to decode does not end in an error: the codec returns no value and no
    error, the nil value joins the batch, and the loop that prepares the
    requests panics on it. The driver is not called. (With Count, an
    integer resource, in place of Temperature the same failure is the
    ServerError that the specification expects.) *)
Theorem composite_write_float_decode_failure :
  let bad := Double.object
               [("Count", "5"); ("Temperature", "abc"); ("Mode", "1")] in
  let sibling := Double.object
               [("Count", "abc"); ("Temperature", "QEAAAA=="); ("Mode", "1")] in
  Double.decode "Temperature" "abc" = (None, None)
  /\ fst (Double.writeCommand 10 "Batch" bad) = Panic
  /\ driverCalls (log (snd (Double.writeCommand 10 "Batch" bad))) = 0%nat
  /\ outcomeKind (fst (Double.writeCommand 10 "Batch" sibling))
     = Some KindServerError
  /\ driverCalls (log (snd (Double.writeCommand 10 "Batch" sibling))) = 0%nat.
Proof. vm_compute. repeat split; reflexivity. Qed.

(** C2 on the double: a locked service, an unknown device, a locked
    device and a device that is down. *)
Lemma CommandHandler_eligibility_order_witness :
  rejects KindServiceLocked
    (fun _ => Double.handle models.Locked true "thermostat" "Temperature" "")
    Double.world
  /\ rejects KindEntityDoesNotExist
    (fun _ => Double.handle models.Unlocked true "ghost" "Temperature" "")
    Double.world
  /\ rejects KindServiceLocked
    (fun _ => Double.handle models.Unlocked true "fan" "Temperature" "")
    Double.world
  /\ rejects KindServiceLocked
    (fun _ => Double.handle models.Unlocked false "pump" "Temperature" "")
    Double.world.
Proof.
  split; [|split; [|split]].
  - apply (proj1 (CommandHandler_eligibility_order
                    (collaborators := Double.collaborators models.Locked 10)
                    true true "correlation"
                    (Double.vars "thermostat" "Temperature") "" ""
                    Double.world)).
    reflexivity.
  - apply (proj1 (proj2 (CommandHandler_eligibility_order
                    (collaborators := Double.collaborators models.Unlocked 10)
                    true true "correlation"
                    (Double.vars "ghost" "Temperature") "" ""
                    Double.world))).
    + discriminate.
    + reflexivity.
  - apply (proj2 (proj2 (CommandHandler_eligibility_order
                    (collaborators := Double.collaborators models.Unlocked 10)
                    true true "correlation"
                    (Double.vars "fan" "Temperature") "" ""
                    Double.world)) Double.lockedFan).
    + discriminate.
    + reflexivity.
    + left. reflexivity.
  - apply (proj2 (proj2 (CommandHandler_eligibility_order
                    (collaborators := Double.collaborators models.Unlocked 10)
                    false true "correlation"
                    (Double.vars "pump" "Temperature") "" ""
                    Double.world)) Double.downPump).
    + discriminate.
    + reflexivity.
    + right. reflexivity.
Defined.

(** C4. On a float resource a text that is neither a decimal nor base64,
    and a base64 text whose bytes are those of a NaN, make the codec
    return no value and no error at all, for either size: the errors are
    assigned to the err of the case and the err of the function is
    returned. *)
Theorem float_decode_failure_returns_no_error :
  (forall atof, strconv.ParseFloat atof "abc" 32 = inr strconv.ErrSyntax)
  /\ base64.DecodeString "abc" = None
  /\ Double.decode "Temperature" "abc" = (None, None)
  /\ (forall atof, strconv.ParseFloat atof "f/AAAQ==" 32 = inr strconv.ErrSyntax)
  /\ base64.DecodeString "f/AAAQ==" = Some [127; 240; 0; 1]
  /\ float32FromBytes [127; 240; 0; 1] = inl 0x7FF00001
  /\ math.IsNaN32 0x7FF00001 = true
  /\ Double.decode "Temperature" "f/AAAQ==" = (None, None)
  /\ (forall atof, strconv.ParseFloat atof "abc" 64 = inr strconv.ErrSyntax)
  /\ Double.decode "Pressure" "abc" = (None, None)
  /\ (forall atof,
        strconv.ParseFloat atof "f/gAAAAAAAA=" 64 = inr strconv.ErrSyntax)
  /\ base64.DecodeString "f/gAAAAAAAA=" = Some [127; 248; 0; 0; 0; 0; 0; 0]
  /\ float64FromBytes [127; 248; 0; 0; 0; 0; 0; 0] = inl 0x7FF8000000000000
  /\ math.IsNaN64 0x7FF8000000000000 = true
  /\ Double.decode "Pressure" "f/gAAAAAAAA=" = (None, None).
Proof. repeat split; reflexivity. Qed.

(** C5 on the double: the base64 texts of the bytes of 3.0 as a float32
    and as a float64. *)
Lemma float_binary_fallback_witness :
  Double.decode "Temperature" "QEAAAA=="
  = (Some (CommandValue.mk "Temperature" v2.ValueTypeFloat32
             (VFloat32 0x40400000)), None)
  /\ Double.decode "Pressure" "QAgAAAAAAAA="
  = (Some (CommandValue.mk "Pressure" v2.ValueTypeFloat64
             (VFloat64 0x4008000000000000)), None).
Proof.
  split.
  - apply (proj1 (float_binary_fallback
                    (collaborators := Double.collaborators models.Unlocked 10)
                    (DeviceResource.mk "Temperature"
                       (ResourceProperties.mk v2.ValueTypeFloat32
                          v2.ReadWrite_RW "") (Some 0%nat))
                    "QEAAAA==" 0x40400000)).
    + reflexivity.
    + reflexivity.
    + lia.
    + reflexivity.
    + reflexivity.
  - apply (proj2 (float_binary_fallback
                    (collaborators := Double.collaborators models.Unlocked 10)
                    (DeviceResource.mk "Pressure"
                       (ResourceProperties.mk v2.ValueTypeFloat64
                          v2.ReadWrite_RW "") None)
                    "QAgAAAAAAAA=" 0x4008000000000000)).
    + reflexivity.
    + reflexivity.
    + lia.
    + reflexivity.
    + reflexivity.
Defined.

(** C10 on the double. *)
Lemma float_special_texts_witness :
  Double.decode "Temperature" "NaN"
  = (Some (CommandValue.mk "Temperature" v2.ValueTypeFloat32
             (VFloat32 0x7FC00000)), None)
  /\ Double.decode "Pressure" "-Inf"
  = (Some (CommandValue.mk "Pressure" v2.ValueTypeFloat64
             (VFloat64 0xFFF0000000000000)), None).
Proof.
  split.
  - apply (proj1 (float_special_texts
                    (collaborators := Double.collaborators models.Unlocked 10)
                    (DeviceResource.mk "Temperature"
                       (ResourceProperties.mk v2.ValueTypeFloat32
                          v2.ReadWrite_RW "") (Some 0%nat)))).
    reflexivity.
  - apply (proj2 (float_special_texts
                    (collaborators := Double.collaborators models.Unlocked 10)
                    (DeviceResource.mk "Pressure"
                       (ResourceProperties.mk v2.ValueTypeFloat64
                          v2.ReadWrite_RW "") None))).
    reflexivity.
Defined.

(** C6, as stated, fails: with MaxCmdOps at 1 the command Status has two
    operations, one too many, yet a write to it fails with NotAllowed, as
    Status is read-only and that test comes first; so does, with
    MaxCmdOps at 0, a read of the write-only Trigger. *)
Lemma MaxCmdOps_exceeded_after_permission :
  ProfileDeviceCommand (Collaborators := Double.collaborators models.Unlocked 1)
    "hvac" "Status"
  = Some (DeviceCommand.mk "Status" v2.ReadWrite_R
            [ResourceOperation.mk "Count" "" ∅;
             ResourceOperation.mk "Temperature" "" ∅])
  /\ outcomeKind (fst (Double.writeCommand 1 "Status"
                         (Double.object [("Count", "5")])))
     = Some KindNotAllowed
  /\ ~ rejects KindServerError
         (fun _ => Double.writeCommand 1 "Status"
                     (Double.object [("Count", "5")])) Double.world
  /\ ~ rejects KindServerError
         (fun _ => Double.readCommand 0 "Trigger") Double.world.
Proof.
  split; [reflexivity|]. split; [reflexivity|].
  split; intros [H _]; vm_compute in H; discriminate.
Qed.

(** C6, amended, on the double: Batch has three operations and the
    limit is two; the body of the write is not even JSON. *)
Lemma MaxCmdOps_exceeded_witness :
  rejects KindServerError (fun _ => Double.readCommand 2 "Batch") Double.world
  /\ rejects KindServerError
       (fun _ => Double.writeCommand 2 "Batch" "not a JSON text") Double.world.
Proof.
  destruct (MaxCmdOps_exceeded
              (collaborators := Double.collaborators models.Unlocked 2)
              (Double.processor "Batch" "" "")
              (DeviceCommand.mk "Batch" v2.ReadWrite_RW
                 [ResourceOperation.mk "Count" "" ∅;
                  ResourceOperation.mk "Temperature" "" ∅;
                  ResourceOperation.mk "Mode" "" Double.onOff])
              Double.world) as [Hread Hwrite].
  - reflexivity.
  - cbn. lia.
  - split.
    + apply Hread. discriminate.
    + apply (Hwrite ltac:(discriminate) "not a JSON text").
Defined.

(** C7 on the double: the table ON/1, OFF/0 with the candidates 1 and
    7, and the empty table. *)
Lemma writeValueMapping_resolves_witness :
  (exists k, Double.onOff !! k = Some "1"
     /\ writeValueMapping (collaborators := Double.collaborators models.Unlocked 10)
          (ResourceOperation.mk "Mode" "" Double.onOff) "1" Double.world
        = (Done k, Double.world))
  /\ writeValueMapping (collaborators := Double.collaborators models.Unlocked 10)
       (ResourceOperation.mk "Mode" "" Double.onOff) "7" Double.world
     = (Done "7",
        mkWorld (heap Double.world) [EvWarnf "Mode" "7" Double.onOff])
  /\ writeValueMapping (collaborators := Double.collaborators models.Unlocked 10)
       (ResourceOperation.mk "Mode" "" ∅) "7" Double.world
     = (Done "7", Double.world).
Proof.
  split; [|split].
  - apply (proj1 (writeValueMapping_resolves
                    (collaborators := Double.collaborators models.Unlocked 10)
                    (ResourceOperation.mk "Mode" "" Double.onOff) "1"
                    Double.world)).
    exists "ON". reflexivity.
  - apply (proj1 (proj2 (writeValueMapping_resolves
                    (collaborators := Double.collaborators models.Unlocked 10)
                    (ResourceOperation.mk "Mode" "" Double.onOff) "7"
                    Double.world))).
    + intros H. apply (f_equal (fun m => m !! "ON")) in H. discriminate H.
    + intros k. cbn. unfold Double.onOff. rewrite !lookup_insert.
      repeat case_decide; rewrite ?lookup_empty; discriminate.
  - apply (proj2 (proj2 (writeValueMapping_resolves
                    (collaborators := Double.collaborators models.Unlocked 10)
                    (ResourceOperation.mk "Mode" "" ∅) "7" Double.world))).
    reflexivity.
Defined.

(** C9 on the double: Mode, whose resource has the default AUTO, with
    and without an entry in the body and a default of the operation; and
    Count, which has no value anywhere. *)
Lemma createCommandValues_value_precedence_witness :
  let C := Double.collaborators models.Unlocked 10 in
  let c := Double.processor "Batch" "" "" in
  let dc := DeviceCommand.mk "Batch" v2.ReadWrite_RW [] in
  let decoded (name kind : string) (v : Val) (events : list Event) :=
    (Done [Some (CommandValue.mk name kind v)],
     mkWorld (heap Double.world) events) in
  createCommandValues (collaborators := C) c dc (<["Mode" := "ECO"]> ∅)
    [ResourceOperation.mk "Mode" "COOL" ∅] [] Double.world
  = decoded "Mode" "String" (VString "ECO") [EvCreateCommandValue "Mode" "ECO"]
  /\ createCommandValues (collaborators := C) c dc (<["Count" := "5"]> ∅)
    [ResourceOperation.mk "Mode" "COOL" ∅] [] Double.world
  = decoded "Mode" "String" (VString "COOL")
      [EvCreateCommandValue "Mode" "COOL"]
  /\ createCommandValues (collaborators := C) c dc (<["Count" := "5"]> ∅)
    [ResourceOperation.mk "Mode" "" ∅] [] Double.world
  = decoded "Mode" "String" (VString "AUTO")
      [EvCreateCommandValue "Mode" "AUTO"]
  /\ rejects KindServerError
       (createCommandValues (collaborators := C) c dc (<["Mode" := "ECO"]> ∅)
          [ResourceOperation.mk "Count" "" ∅] []) Double.world.
Proof.
  intros C c dc decoded.
  pose (mode := DeviceResource.mk "Mode"
          (ResourceProperties.mk v2.ValueTypeString v2.ReadWrite_RW "AUTO")
          None).
  pose (count := DeviceResource.mk "Count"
          (ResourceProperties.mk v2.ValueTypeInt8 v2.ReadWrite_RW "") None).
  split; [|split; [|split]].
  - rewrite (proj1 (createCommandValues_value_precedence (collaborators := C)
               c dc (<["Mode" := "ECO"]> ∅) (ResourceOperation.mk "Mode" "COOL" ∅)
               [] [] mode Double.world eq_refl ltac:(discriminate))
               "ECO" eq_refl).
    reflexivity.
  - rewrite (proj1 (proj2 (createCommandValues_value_precedence
               (collaborators := C)
               c dc (<["Count" := "5"]> ∅) (ResourceOperation.mk "Mode" "COOL" ∅)
               [] [] mode Double.world eq_refl ltac:(discriminate)))
               eq_refl ltac:(discriminate)).
    reflexivity.
  - rewrite (proj1 (proj2 (proj2 (createCommandValues_value_precedence
               (collaborators := C)
               c dc (<["Count" := "5"]> ∅) (ResourceOperation.mk "Mode" "" ∅)
               [] [] mode Double.world eq_refl ltac:(discriminate))))
               eq_refl eq_refl ltac:(discriminate)).
    reflexivity.
  - exact (proj2 (proj2 (proj2 (createCommandValues_value_precedence
               (collaborators := C)
               c dc (<["Mode" := "ECO"]> ∅) (ResourceOperation.mk "Count" "" ∅)
               [] [] count Double.world eq_refl ltac:(discriminate))))
               eq_refl eq_refl eq_refl).
Defined.

(** C8, as stated, fails: the command Settings has the read-only Serial
    as its second operation, and a write to it whose body has no value
    for Count, the first operation, fails with ServerError: the
    operations are checked one after the other, each in full. *)
Lemma read_only_entry_behind_a_failing_entry :
  ProfileDeviceCommand (Collaborators := Double.collaborators models.Unlocked 10)
    "hvac" "Settings"
  = Some (DeviceCommand.mk "Settings" v2.ReadWrite_RW
            [ResourceOperation.mk "Count" "" ∅;
             ResourceOperation.mk "Serial" "" ∅])
  /\ ProfileDeviceResource
       (Collaborators := Double.collaborators models.Unlocked 10)
       "hvac" "Serial"
     = Some (DeviceResource.mk "Serial"
               (ResourceProperties.mk v2.ValueTypeString v2.ReadWrite_R "")
               None)
  /\ outcomeKind (fst (Double.writeCommand 10 "Settings"
                         (Double.object [("Serial", "S-1")])))
     = Some KindServerError
  /\ outcomeKind (fst (Double.writeCommand 10 "Settings"
                         (Double.object [("Serial", "S-1")])))
     <> Some KindNotAllowed.
Proof. repeat split; try reflexivity. vm_compute. discriminate. Qed.

(** C8, amended, on the double; in the last write the body has a value
    for Count, so that the loop reaches the read-only Serial. *)
Lemma permission_checks_witness :
  rejects KindNotAllowed (fun _ => Double.readResource "Reset" "") Double.world
  /\ rejects KindNotAllowed
       (fun _ => Double.writeResource "Serial" (Double.object [("Serial", "S-1")]))
       Double.world
  /\ rejects KindNotAllowed (fun _ => Double.readCommand 10 "Trigger")
       Double.world
  /\ rejects KindNotAllowed
       (fun _ => Double.writeCommand 10 "Status" (Double.object [("Count", "5")]))
       Double.world
  /\ outcomeKind (fst (Double.writeCommand 10 "Settings"
                         (Double.object [("Count", "5")])))
     = Some KindNotAllowed
  /\ driverCalls (log (snd (Double.writeCommand 10 "Settings"
                              (Double.object [("Count", "5")]))))
     = 0%nat.
Proof.
  pose (C := Double.collaborators models.Unlocked 10).
  pose (serial := DeviceResource.mk "Serial"
          (ResourceProperties.mk v2.ValueTypeString v2.ReadWrite_R "") None).
  pose (reset := DeviceResource.mk "Reset"
          (ResourceProperties.mk v2.ValueTypeBool v2.ReadWrite_W "") None).
  pose (settings := DeviceCommand.mk "Settings" v2.ReadWrite_RW
          [ResourceOperation.mk "Count" "" ∅;
           ResourceOperation.mk "Serial" "" ∅]).
  split; [|split; [|split; [|split]]].
  - apply (proj1 (permission_checks (collaborators := C)
                    (Double.processor "Reset" "" "") Double.world)
             reset eq_refl).
    reflexivity.
  - apply (proj1 (permission_checks (collaborators := C)
                    (Double.processor "Serial"
                       (Double.object [("Serial", "S-1")]) "") Double.world)
             serial eq_refl).
    reflexivity.
  - apply (proj2 (permission_checks (collaborators := C)
                    (Double.processor "Trigger" "" "") Double.world)
             (DeviceCommand.mk "Trigger" v2.ReadWrite_W
                [ResourceOperation.mk "Reset" "" ∅]) eq_refl).
    reflexivity.
  - apply (proj2 (permission_checks (collaborators := C)
                    (Double.processor "Status"
                       (Double.object [("Count", "5")]) "") Double.world)
             (DeviceCommand.mk "Status" v2.ReadWrite_R
                [ResourceOperation.mk "Count" "" ∅;
                 ResourceOperation.mk "Temperature" "" ∅]) eq_refl).
    reflexivity.
  - destruct (proj2 (proj2 (proj2 (permission_checks (collaborators := C)
                    (Double.processor "Settings"
                       (Double.object [("Count", "5")]) "") Double.world)
             settings eq_refl))
             [ResourceOperation.mk "Count" "" ∅]
             (ResourceOperation.mk "Serial" "" ∅) [] serial
             eq_refl eq_refl eq_refl) as (_ & Hquiet & Hkind).
    split; [|exact Hquiet].
    eapply Hkind.
    + discriminate.
    + cbn. lia.
    + reflexivity.
    + reflexivity.
Defined.

(** C3, as stated, fails: the profile declares an attribute for
    Temperature, and after a read of Temperature with a raw query the map
    of the declaration holds the raw query too. *)
Lemma declared_attributes_take_the_raw_query :
  let declared := Some 0%nat in
  let after := snd (Double.readResource "Temperature" "unit=C") in
  (DeviceResource.Attributes <$>
     ProfileDeviceResource
       (Collaborators := Double.collaborators models.Unlocked 10)
       "hvac" "Temperature") = Some declared
  /\ heap Double.world !! 0%nat = Some (<["register" := "40001"]> ∅)
  /\ (heap Double.world !! 0%nat) ≫= (fun m => m !! common.URLRawQuery) = None
  /\ (heap after !! 0%nat) ≫= (fun m => m !! common.URLRawQuery)
     = Some "unit=C"
  /\ heap after !! 0%nat <> heap Double.world !! 0%nat.
Proof.
  split; [reflexivity|]. split; [reflexivity|]. split; [reflexivity|].
  split; [reflexivity|].
  intros H.
  apply (f_equal (fun o => o ≫= (fun m => m !! common.URLRawQuery))) in H.
  vm_compute in H. discriminate H.
Qed.

(** * More of the value codec *)

(** ** What createCommandValueFromDeviceResource can return *)

Definition isFloatKind (valueType : string) : Prop :=
  valueType = v2.ValueTypeFloat32 \/ valueType = v2.ValueTypeFloat64.

(** A command value made for a resource: it bears the name of the
    resource and its declared kind, and its value has the representation
    of that kind. *)
Definition tagged (dr : DeviceResource.t) (cv : CommandValue.t) : Prop :=
  CommandValue.DeviceResourceName cv = DeviceResource.Name dr
  /\ CommandValue.Type_ cv
     = ResourceProperties.ValueType (DeviceResource.Properties dr)
  /\ validate (CommandValue.Type_ cv) (CommandValue.Value cv) = true.

Definition codecOutcome (dr : DeviceResource.t)
    (r : option CommandValue.t * option error) : Prop :=
  match r with
  | (Some cv, None) => tagged dr cv
  | (None, Some e) => kindOf e = Some KindServerError
  | (None, None) =>
      isFloatKind (ResourceProperties.ValueType (DeviceResource.Properties dr))
  | (Some _, Some _) => False
  end.

(** The kinds of the unsigned and of the signed integers, with their
    sizes. *)
Definition uintKinds : list (string * Z) :=
  [(v2.ValueTypeUint8, 8); (v2.ValueTypeUint16, 16);
   (v2.ValueTypeUint32, 32); (v2.ValueTypeUint64, 64)].

Definition intKinds : list (string * Z) :=
  [(v2.ValueTypeInt8, 8); (v2.ValueTypeInt16, 16);
   (v2.ValueTypeInt32, 32); (v2.ValueTypeInt64, 64)].

Definition uintArrayKinds : list (string * Z) :=
  [(v2.ValueTypeUint8Array, 8); (v2.ValueTypeUint16Array, 16);
   (v2.ValueTypeUint32Array, 32); (v2.ValueTypeUint64Array, 64)].

Definition serverError (r : option CommandValue.t * option error) : Prop :=
  exists message cause,
    r = (None, Some (CommonEdgeX KindServerError message cause)).

Section Codec.

Context {collaborators : Collaborators}.

Local Ltac kind_case H :=
  unfold codecOutcome, tagged, isFloatKind, caseLocal, NewCommandValue,
    float32Case, float64Case;
  try rewrite !H;
  repeat match goal with
  | |- context [match ?x with _ => _ end] =>
      lazymatch x with
      | context [match _ with _ => _ end] => fail
      | _ => destruct x eqn:?
      end
  | |- context [if ?x then _ else _] =>
      lazymatch x with
      | context [match _ with _ => _ end] => fail
      | _ => destruct x eqn:?
      end
  end;
  try match goal with
  | E : validate _ _ = false |- _ => vm_compute in E; discriminate E
  end;
  cbn in *; simplify_eq; cbn;
  first [ reflexivity | tauto
        | repeat split; first [reflexivity | assumption] ].

(** The codec returns a tagged value, a ServerError, or nothing at all
    for a float kind. *)
Lemma codec_outcome (dr : DeviceResource.t) (v : string) :
  codecOutcome dr (createCommandValueFromDeviceResource dr v).
Proof.
  unfold createCommandValueFromDeviceResource. cbv zeta.
  repeat match goal with
  | |- context [String.eqb ?a ?b] =>
      destruct (String.eqb_spec a b) as [H|_]; [solve [kind_case H]|]
  end.
  reflexivity.
Qed.

(** X1. Whatever the kind and the text, the codec returns one of three
    things: a command value and no error, the value bearing the name and
    the kind of the resource and a value of that kind; no value and a
    ServerError; or, for the two float kinds only, no value and no
    error. It never returns a value together with an error. *)
Theorem codec_outcomes (dr : DeviceResource.t) (v : string) :
  match createCommandValueFromDeviceResource dr v with
  | (Some cv, None) =>
      CommandValue.DeviceResourceName cv = DeviceResource.Name dr
      /\ CommandValue.Type_ cv
         = ResourceProperties.ValueType (DeviceResource.Properties dr)
      /\ validate (CommandValue.Type_ cv) (CommandValue.Value cv) = true
  | (None, Some e) => kindOf e = Some KindServerError
  | (None, None) =>
      ResourceProperties.ValueType (DeviceResource.Properties dr)
        = v2.ValueTypeFloat32
      \/ ResourceProperties.ValueType (DeviceResource.Properties dr)
         = v2.ValueTypeFloat64
  | (Some _, Some _) => False
  end.
Proof. exact (codec_outcome dr v). Qed.

(** ** Decimal texts *)

Lemma digit_char d :
  0 <= d < 10 ->
  let c := ascii_of_N (Z.to_N (48 + d)) in
  strconv.isDigit c = true /\ byteOf c - 48 = d
  /\ (byteOf c =? 43) = false /\ (byteOf c =? 45) = false.
Proof.
  intros Hd.
  assert (d = 0 \/ d = 1 \/ d = 2 \/ d = 3 \/ d = 4 \/ d = 5 \/ d = 6
          \/ d = 7 \/ d = 8 \/ d = 9) as H by lia.
  repeat destruct H as [H|H]; subst d; repeat split; reflexivity.
Qed.

Lemma uintLoop_step maxVal a d acc :
  0 <= d < 10 ->
  strconv.uintLoop maxVal a (String (ascii_of_N (Z.to_N (48 + d))) acc)
  = if maxVal <? a * 10 + d then inr strconv.ErrRange
    else strconv.uintLoop maxVal (a * 10 + d) acc.
Proof.
  intros Hd. destruct (digit_char d Hd) as (Hdig & Hval & _).
  cbn [strconv.uintLoop]. rewrite Hdig, Hval. reflexivity.
Qed.

Lemma uintLoop_utoa maxVal fuel :
  forall n acc,
    0 <= n <= maxVal -> n < 10 ^ Z.of_nat fuel ->
    strconv.uintLoop maxVal 0 (utoa fuel n acc)
    = strconv.uintLoop maxVal n acc.
Proof.
  induction fuel as [|fuel IH]; intros n acc Hn Hfuel.
  - cbn in Hfuel. assert (n = 0) as -> by lia. reflexivity.
  - cbn [utoa].
    assert (Hmod : 0 <= n mod 10 < 10) by (apply Z.mod_pos_bound; lia).
    assert (Hdiv : n = n / 10 * 10 + n mod 10)
      by (pose proof (Z.div_mod n 10); lia).
    destruct (Z.ltb_spec n 10) as [Hlt|Hge].
    + rewrite uintLoop_step by exact Hmod. rewrite Z.mod_small by lia.
      replace (0 * 10 + n) with n by lia.
      destruct (Z.ltb_spec maxVal n); [lia|]. reflexivity.
    + rewrite IH.
      * rewrite uintLoop_step by exact Hmod. rewrite <- Hdiv.
        destruct (Z.ltb_spec maxVal n); [lia|]. reflexivity.
      * split; [apply Z.div_pos; lia|].
        assert (n / 10 <= n) by (apply Z.div_le_upper_bound; lia). lia.
      * apply Z.div_lt_upper_bound; [lia|].
        rewrite Nat2Z.inj_succ, Z.pow_succ_r in Hfuel by lia. lia.
Qed.

Lemma uintLoop_utoa_range maxVal fuel :
  forall n acc,
    0 <= maxVal < n -> n < 10 ^ Z.of_nat fuel ->
    strconv.uintLoop maxVal 0 (utoa fuel n acc) = inr strconv.ErrRange.
Proof.
  induction fuel as [|fuel IH]; intros n acc Hn Hfuel.
  - cbn in Hfuel. lia.
  - cbn [utoa].
    assert (Hmod : 0 <= n mod 10 < 10) by (apply Z.mod_pos_bound; lia).
    assert (Hdiv : n = n / 10 * 10 + n mod 10)
      by (pose proof (Z.div_mod n 10); lia).
    assert (Hfuel' : n / 10 < 10 ^ Z.of_nat fuel).
    { apply Z.div_lt_upper_bound; [lia|].
      rewrite Nat2Z.inj_succ, Z.pow_succ_r in Hfuel by lia. lia. }
    destruct (Z.ltb_spec n 10) as [Hlt|Hge].
    + rewrite uintLoop_step by exact Hmod. rewrite Z.mod_small by lia.
      replace (0 * 10 + n) with n by lia.
      destruct (Z.ltb_spec maxVal n); [reflexivity|lia].
    + destruct (Z_lt_le_dec maxVal (n / 10)) as [Hbig|Hsmall].
      * apply IH; [lia|exact Hfuel'].
      * rewrite uintLoop_utoa; [|split; [apply Z.div_pos; lia|lia]
                                 |exact Hfuel'].
        rewrite uintLoop_step by exact Hmod. rewrite <- Hdiv.
        destruct (Z.ltb_spec maxVal n); [reflexivity|lia].
Qed.

Lemma utoa_cons fuel :
  forall n acc,
    0 <= n ->
    exists d r, 0 <= d < 10
                /\ utoa (S fuel) n acc
                   = String (ascii_of_N (Z.to_N (48 + d))) r.
Proof.
  induction fuel as [|fuel IH]; intros n acc Hn;
    assert (Hmod : 0 <= n mod 10 < 10) by (apply Z.mod_pos_bound; lia).
  - exists (n mod 10), acc. split; [exact Hmod|].
    cbn. destruct (n <? 10); reflexivity.
  - change (utoa (S (S fuel)) n acc)
      with (let acc' := String (ascii_of_N (Z.to_N (48 + n mod 10))) acc in
            if n <? 10 then acc' else utoa (S fuel) (n / 10) acc').
    cbv zeta. destruct (n <? 10).
    + exists (n mod 10), acc. split; [exact Hmod|reflexivity].
    + apply IH. apply Z.div_pos; lia.
Qed.

Lemma itoa_fuel n : 0 <= n -> n < 10 ^ Z.of_nat (S (Z.to_nat (Z.log2 n))).
Proof.
  intros Hn. rewrite Nat2Z.inj_succ, Z2Nat.id by apply Z.log2_nonneg.
  destruct (Z.eq_dec n 0) as [->|Hne]; [reflexivity|].
  assert (n < 2 ^ Z.succ (Z.log2 n)) by (apply Z.log2_spec; lia).
  assert (2 ^ Z.succ (Z.log2 n) <= 10 ^ Z.succ (Z.log2 n)).
  { apply Z.pow_le_mono_l. lia. }
  lia.
Qed.

(** ParseUint on the decimal text of a number that is not negative. *)
Lemma ParseUint_itoa n bits :
  0 <= n -> 0 <= bits ->
  strconv.ParseUint (itoa n) bits
  = if n <? 2 ^ bits then inl n else inr strconv.ErrRange.
Proof.
  intros Hn Hbits. unfold itoa.
  destruct (Z.ltb_spec n 0); [lia|].
  destruct (utoa_cons (Z.to_nat (Z.log2 n)) n "" Hn) as (d & r & Hd & Hs).
  unfold strconv.ParseUint. rewrite Hs, <- Hs.
  assert (0 < 2 ^ bits) by (apply Z.pow_pos_nonneg; lia).
  destruct (Z.ltb_spec n (2 ^ bits)).
  - rewrite uintLoop_utoa; [reflexivity|lia|apply itoa_fuel, Hn].
  - apply uintLoop_utoa_range; [lia|apply itoa_fuel, Hn].
Qed.

(** ParseInt on the decimal text of any number, for a size of at least
    two bits. *)
Lemma ParseInt_itoa n bits :
  2 <= bits ->
  strconv.ParseInt (itoa n) bits
  = if (- 2 ^ (bits - 1) <=? n) && (n <? 2 ^ (bits - 1)) then inl n
    else inr strconv.ErrRange.
Proof.
  intros Hbits.
  assert (Hpow : 2 ^ bits = 2 * 2 ^ (bits - 1)).
  { rewrite <- Z.pow_succ_r by lia. f_equal. lia. }
  assert (2 <= 2 ^ (bits - 1)).
  { change 2 with (2 ^ 1) at 1. apply Z.pow_le_mono_r; lia. }
  destruct (Z_lt_le_dec n 0) as [Hneg|Hpos].
  - assert (Hitoa : itoa n = String "-"%char (itoa (- n))).
    { unfold itoa. destruct (Z.ltb_spec n 0); [|lia].
      destruct (Z.ltb_spec (- n) 0); [lia|]. reflexivity. }
    rewrite Hitoa. unfold strconv.ParseInt.
    change (byteOf "-"%char =? 45) with true.
    cbn [orb andb negb]. rewrite Bool.orb_true_r.
    rewrite ParseUint_itoa by lia.
    destruct (Z.ltb_spec n (2 ^ (bits - 1))); [|lia]. rewrite Bool.andb_true_r.
    destruct (Z.ltb_spec (- n) (2 ^ bits)); cbv zeta; cbn [andb negb].
    + destruct (Z.ltb_spec (2 ^ (bits - 1)) (- n)),
        (Z.leb_spec (- 2 ^ (bits - 1)) n); try lia; [reflexivity|].
      f_equal. lia.
    + destruct (Z.ltb_spec (2 ^ (bits - 1)) (2 ^ bits - 1)),
        (Z.leb_spec (- 2 ^ (bits - 1)) n); try lia. reflexivity.
  - pose proof (ParseUint_itoa n bits Hpos ltac:(lia)) as Hu.
    unfold itoa in *. destruct (Z.ltb_spec n 0); [lia|].
    destruct (utoa_cons (Z.to_nat (Z.log2 n)) n "" Hpos) as (d & r & Hd & Hs).
    destruct (digit_char d Hd) as (_ & _ & Hplus & Hminus).
    unfold strconv.ParseInt. rewrite Hs. rewrite Hplus, Hminus.
    cbn [orb andb negb]. rewrite <- Hs, Hu.
    destruct (Z.leb_spec (- 2 ^ (bits - 1)) n); [|lia]. cbn [andb].
    destruct (Z.ltb_spec n (2 ^ bits)), (Z.ltb_spec n (2 ^ (bits - 1)));
      try lia.
    + destruct (Z.leb_spec (2 ^ (bits - 1)) n); [lia|]. reflexivity.
    + destruct (Z.leb_spec (2 ^ (bits - 1)) n); [|lia]. reflexivity.
    + destruct (Z.leb_spec (2 ^ (bits - 1)) (2 ^ bits - 1)); [|lia].
      reflexivity.
Qed.

(** ** The integer kinds *)

Lemma uintLoop_range maxVal :
  forall s a n,
    0 <= a <= maxVal -> strconv.uintLoop maxVal a s = inl n ->
    0 <= n <= maxVal.
Proof.
  induction s as [|c r IH]; intros a n Ha; cbn [strconv.uintLoop].
  - intros [= <-]. exact Ha.
  - destruct (strconv.isDigit c) eqn:Hc; [|discriminate].
    destruct (Z.ltb_spec maxVal (a * 10 + (byteOf c - 48))); [discriminate|].
    apply IH. unfold strconv.isDigit in Hc.
    apply andb_prop in Hc as [Hlo _]. apply Z.leb_le in Hlo. lia.
Qed.

Lemma ParseUint_range s bits n :
  0 <= bits -> strconv.ParseUint s bits = inl n -> 0 <= n < 2 ^ bits.
Proof.
  intros Hbits. assert (0 < 2 ^ bits) by (apply Z.pow_pos_nonneg; lia).
  unfold strconv.ParseUint. destruct s; [discriminate|]. intros H'.
  apply uintLoop_range in H'; lia.
Qed.

Lemma castUint_id bits n : 0 <= n < 2 ^ bits -> castUint bits n = n.
Proof. intros H. unfold castUint. apply Z.mod_small, H. Qed.

Lemma castInt_id bits n :
  1 <= bits -> - 2 ^ (bits - 1) <= n < 2 ^ (bits - 1) -> castInt bits n = n.
Proof.
  intros Hbits H. unfold castInt.
  assert (2 ^ bits = 2 * 2 ^ (bits - 1)).
  { rewrite <- Z.pow_succ_r by lia. f_equal. lia. }
  rewrite Z.mod_small by lia. lia.
Qed.

Lemma decode_uint dr v kind bits :
  In (kind, bits) uintKinds ->
  ResourceProperties.ValueType (DeviceResource.Properties dr) = kind ->
  createCommandValueFromDeviceResource dr v
  = match strconv.ParseUint v bits with
    | inl n =>
        (Some (CommandValue.mk (DeviceResource.Name dr) kind
                 (VUint bits (castUint bits n))), None)
    | inr e =>
        (None, Some (CommonEdgeX KindServerError
           ("failed to convert set parameter " ++ v ++ " to ValueType " ++ kind)
           (Some (NumError "ParseUint" v e))))
    end.
Proof.
  intros Hk Hvt. unfold createCommandValueFromDeviceResource. rewrite Hvt.
  destruct Hk as [[= <- <-]|[[= <- <-]|[[= <- <-]|[[= <- <-]|[]]]]];
    cbv zeta; destruct (strconv.ParseUint v _); reflexivity.
Qed.

Lemma decode_int dr v kind bits :
  In (kind, bits) intKinds ->
  ResourceProperties.ValueType (DeviceResource.Properties dr) = kind ->
  createCommandValueFromDeviceResource dr v
  = match strconv.ParseInt v bits with
    | inl n =>
        (Some (CommandValue.mk (DeviceResource.Name dr) kind
                 (VInt bits (castInt bits n))), None)
    | inr e =>
        (None, Some (CommonEdgeX KindServerError
           ("failed to convert set parameter " ++ v ++ " to ValueType " ++ kind)
           (Some (NumError "ParseInt" v e))))
    end.
Proof.
  intros Hk Hvt. unfold createCommandValueFromDeviceResource. rewrite Hvt.
  destruct Hk as [[= <- <-]|[[= <- <-]|[[= <- <-]|[[= <- <-]|[]]]]];
    cbv zeta; destruct (strconv.ParseInt v _); reflexivity.
Qed.

Lemma decode_uint_array dr v kind bits :
  In (kind, bits) uintArrayKinds ->
  ResourceProperties.ValueType (DeviceResource.Properties dr) = kind ->
  createCommandValueFromDeviceResource dr v
  = match parseUintElements bits
            (strings.Split (strings.Trim v "[]") ","%char) with
    | inl arr =>
        (Some (CommandValue.mk (DeviceResource.Name dr) kind
                 (VUintArray bits arr)), None)
    | inr e =>
        (None, Some (CommonEdgeX KindServerError
           ("failed to convert set parameter " ++ v ++ " to ValueType " ++ kind)
           (Some e)))
    end.
Proof.
  intros Hk Hvt. unfold createCommandValueFromDeviceResource. rewrite Hvt.
  destruct Hk as [[= <- <-]|[[= <- <-]|[[= <- <-]|[[= <- <-]|[]]]]];
    cbv zeta; destruct (parseUintElements _ _); reflexivity.
Qed.

Lemma kinds_bits kind bits :
  In (kind, bits) uintKinds \/ In (kind, bits) intKinds
  \/ In (kind, bits) uintArrayKinds ->
  2 <= bits.
Proof.
  intros [H|[H|H]];
    destruct H as [[= <- <-]|[[= <- <-]|[[= <- <-]|[[= <- <-]|[]]]]]; lia.
Qed.

(** X2. For the unsigned kinds of 8, 16, 32 and 64 bits the decimal text
    of a number within the range of the kind decodes to a command value
    that holds that very number, and the decimal text of a number above
    the range is refused with ServerError: the range is checked, the
    number is never cut down to the size. *)
Theorem unsigned_decimal_round_trip (dr : DeviceResource.t)
    (kind : string) (bits n : Z) :
  In (kind, bits) uintKinds ->
  ResourceProperties.ValueType (DeviceResource.Properties dr) = kind ->
  0 <= n ->
  (n < 2 ^ bits ->
   createCommandValueFromDeviceResource dr (itoa n)
   = (Some (CommandValue.mk (DeviceResource.Name dr) kind (VUint bits n)),
      None))
  /\ (2 ^ bits <= n ->
      serverError (createCommandValueFromDeviceResource dr (itoa n))).
Proof.
  intros Hk Hvt Hn.
  pose proof (kinds_bits kind bits (or_introl Hk)) as Hbits.
  rewrite (decode_uint dr (itoa n) kind bits Hk Hvt).
  rewrite ParseUint_itoa by lia. split; intros Hr.
  - destruct (Z.ltb_spec n (2 ^ bits)); [|lia].
    rewrite castUint_id by lia. reflexivity.
  - destruct (Z.ltb_spec n (2 ^ bits)); [lia|].
    do 2 eexists. reflexivity.
Qed.

(** X3. For the signed kinds of 8, 16, 32 and 64 bits the decimal text
    of a number from -2^(bits-1) to 2^(bits-1)-1 decodes to a command value
    that holds that very number, and the decimal text of any other number
    is refused with ServerError. *)
Theorem signed_decimal_round_trip (dr : DeviceResource.t)
    (kind : string) (bits n : Z) :
  In (kind, bits) intKinds ->
  ResourceProperties.ValueType (DeviceResource.Properties dr) = kind ->
  (- 2 ^ (bits - 1) <= n < 2 ^ (bits - 1) ->
   createCommandValueFromDeviceResource dr (itoa n)
   = (Some (CommandValue.mk (DeviceResource.Name dr) kind (VInt bits n)),
      None))
  /\ (n < - 2 ^ (bits - 1) \/ 2 ^ (bits - 1) <= n ->
      serverError (createCommandValueFromDeviceResource dr (itoa n))).
Proof.
  intros Hk Hvt.
  pose proof (kinds_bits kind bits (or_intror (or_introl Hk))) as Hbits.
  rewrite (decode_int dr (itoa n) kind bits Hk Hvt).
  rewrite ParseInt_itoa by lia. split; intros Hr.
  - destruct (Z.leb_spec (- 2 ^ (bits - 1)) n), (Z.ltb_spec n (2 ^ (bits - 1)));
      try lia. cbn [andb]. rewrite castInt_id by lia. reflexivity.
  - destruct (Z.leb_spec (- 2 ^ (bits - 1)) n), (Z.ltb_spec n (2 ^ (bits - 1)));
      try lia; cbn [andb]; do 2 eexists; reflexivity.
Qed.

(** ** The unsigned array kinds *)

Lemma parseUintElements_all bits strs arr :
  0 <= bits ->
  Forall2 (fun u n => strconv.ParseUint (strings.Trim u " ") bits = inl n)
    strs arr ->
  parseUintElements bits strs = inl arr
  /\ Forall (fun n => 0 <= n < 2 ^ bits) arr.
Proof.
  intros Hbits. induction 1 as [|u n strs arr Hu _ [IH1 IH2]].
  - split; [reflexivity|constructor].
  - pose proof (ParseUint_range _ _ _ Hbits Hu) as Hr.
    cbn [parseUintElements]. rewrite Hu, IH1, castUint_id by exact Hr.
    split; [reflexivity|]. constructor; assumption.
Qed.

Lemma parseUintElements_any bits strs :
  Exists (fun u => exists e,
            strconv.ParseUint (strings.Trim u " ") bits = inr e) strs ->
  exists e, parseUintElements bits strs = inr e.
Proof.
  induction 1 as [u strs [e He]|u strs _ [e IH]]; cbn [parseUintElements].
  - rewrite He. eexists. reflexivity.
  - destruct (strconv.ParseUint _ bits); [|eexists; reflexivity].
    rewrite IH. eexists. reflexivity.
Qed.

(** X4. For the unsigned array kinds the text, without the brackets at
    its ends, is cut at the commas. When every piece, blanks apart, is a
    number of the size of the elements, the command value holds these
    numbers in their order, each one as it is written and within the
    range; when some piece is not, the whole text is refused with
    ServerError; so is a text that is nothing but brackets. *)
Theorem unsigned_array_decoding (dr : DeviceResource.t) (v : string)
    (kind : string) (bits : Z) :
  In (kind, bits) uintArrayKinds ->
  ResourceProperties.ValueType (DeviceResource.Properties dr) = kind ->
  let pieces := strings.Split (strings.Trim v "[]") ","%char in
  let parsed (u : string) := strconv.ParseUint (strings.Trim u " ") bits in
  (forall arr,
     Forall2 (fun u n => parsed u = inl n) pieces arr ->
     createCommandValueFromDeviceResource dr v
     = (Some (CommandValue.mk (DeviceResource.Name dr) kind
                (VUintArray bits arr)), None)
     /\ length arr = length pieces
     /\ Forall (fun n => 0 <= n < 2 ^ bits) arr)
  /\ (Exists (fun u => exists e, parsed u = inr e) pieces ->
      serverError (createCommandValueFromDeviceResource dr v))
  /\ (strings.Trim v "[]" = "" ->
      serverError (createCommandValueFromDeviceResource dr v)).
Proof.
  intros Hk Hvt pieces parsed.
  pose proof (kinds_bits kind bits (or_intror (or_intror Hk))) as Hbits.
  rewrite (decode_uint_array dr v kind bits Hk Hvt). fold pieces.
  assert (Hany : Exists (fun u => exists e, parsed u = inr e) pieces ->
                 serverError
                   match parseUintElements bits pieces with
                   | inl arr =>
                       (Some (CommandValue.mk (DeviceResource.Name dr) kind
                                (VUintArray bits arr)), None)
                   | inr e =>
                       (None, Some (CommonEdgeX KindServerError
                          ("failed to convert set parameter " ++ v
                           ++ " to ValueType " ++ kind) (Some e)))
                   end).
  { intros Hex. destruct (parseUintElements_any bits pieces Hex) as [e ->].
    do 2 eexists. reflexivity. }
  split; [|split].
  - intros arr Hall.
    destruct (parseUintElements_all bits pieces arr ltac:(lia) Hall)
      as [-> Hrange].
    split; [reflexivity|]. split; [|exact Hrange].
    symmetry. eapply Forall2_length, Hall.
  - exact Hany.
  - intros Hempty. apply Hany. subst pieces parsed. rewrite Hempty.
    left. exists strconv.ErrSyntax. reflexivity.
Qed.

(** ** The bytes of a float *)

(** X5. float32FromBytes and float64FromBytes fail on fewer than four
    and eight bytes; on more they read the float from the first four and
    eight bytes and leave the rest unread, so that the big-endian bytes of
    a float, whatever follows them, give that float back. *)
Theorem float_from_bytes_prefix (numericValue extra : list Z) (f : Z) :
  ((length numericValue < 4)%nat ->
     exists e, float32FromBytes numericValue = inr e)
  /\ ((length numericValue < 8)%nat ->
     exists e, float64FromBytes numericValue = inr e)
  /\ (0 <= f < 2 ^ 32 ->
     float32FromBytes (binary.PutUint32 f ++ extra) = inl f)
  /\ (0 <= f < 2 ^ 64 ->
     float64FromBytes (binary.PutUint64 f ++ extra) = inl f).
Proof.
  unfold float32FromBytes, float64FromBytes, binary.Read.
  split; [|split; [|split]].
  - intros H. destruct numericValue; [eexists; reflexivity|].
    apply Nat.ltb_lt in H. rewrite H. eexists. reflexivity.
  - intros H. destruct numericValue; [eexists; reflexivity|].
    apply Nat.ltb_lt in H. rewrite H. eexists. reflexivity.
  - intros Hf. pose proof (Uint32_PutUint32 f Hf) as Hrt.
    unfold binary.PutUint32 in *. cbn [app firstn length Nat.ltb Nat.leb
      Nat.eqb]. f_equal. exact Hrt.
  - intros Hf. pose proof (Uint64_PutUint64 f Hf) as Hrt.
    unfold binary.PutUint64, binary.PutUint32 in *.
    cbn [app firstn length Nat.ltb Nat.leb Nat.eqb] in *.
    f_equal. exact Hrt.
Qed.

End Codec.

(** * More of the engine *)

(** ** What a run of a method may do *)

(** The calls of the read side and of the write side of the engine, and
    the two tasks started once the handler is done. *)
Definition readSide (e : Event) : bool :=
  match e with
  | EvHandleReadCommands _ _ | EvCommandValuesToEventDTO _ _ => true
  | _ => false
  end.

Definition writeSide (e : Event) : bool :=
  match e with
  | EvParseParams _ | EvCreateCommandValue _ _ | EvWarnf _ _ _
  | EvTransformWriteParameter _ | EvHandleWriteCommands _ _ _ => true
  | _ => false
  end.

Definition afterSide (e : Event) : bool :=
  match e with
  | EvUpdateLastConnected _ | EvSendEvent _ => true
  | _ => false
  end.

(** The attribute maps after a run with the raw query [q], against the
    maps before it: with no raw query nothing has changed; with one, every
    map that was there is there still, as it was or with the raw query
    stored under the reserved key. *)
Definition stamped (q : string) (h h' : gmap nat (gmap string string))
  : Prop :=
  (q = "" -> h' = h)
  /\ forall l m, h !! l = Some m ->
       h' !! l = Some m \/ h' !! l = Some (<[common.URLRawQuery := q]> m).

(** The world after a run against the world before it: the log has
    grown by events of the class [P], the maps are stamped. *)
Definition evolves (P : Event -> bool) (q : string) (w w' : World) : Prop :=
  (exists l, log w' = (log w ++ l)%list /\ Forall (fun e => P e = true) l)
  /\ stamped q (heap w) (heap w').

(** An attribute map that holds the raw query. *)
Definition hasQuery (q : string) (attrs : mapRef)
    (h : gmap nat (gmap string string)) : Prop :=
  exists l m, attrs = Some l /\ h !! l = Some m
              /\ m !! common.URLRawQuery = Some q.

(** An error of one of the kinds [ks]. *)
Definition ofKinds (ks : list ErrKind) (e : error) : Prop :=
  exists k, kindOf e = Some k /\ In k ks.

(** The triple of a computation: from a world that satisfies [Pre] it
    moves to a world related by [R]; a value it ends in satisfies [Q] in
    that world, an error it ends in satisfies [E], and it panics only if
    [Pn]. *)
Definition triple {A} (Pre : World -> Prop) (m : M A)
    (R : World -> World -> Prop) (Q : A -> World -> Prop)
    (E : error -> Prop) (Pn : Prop) : Prop :=
  forall w, Pre w ->
    R w (snd (m w))
    /\ match fst (m w) with
       | Done a => Q a (snd (m w))
       | Raise e => E e
       | Panic => Pn
       end.

Definition always : World -> Prop := fun _ => True.
Definition anything {A} : A -> World -> Prop := fun _ _ => True.

Section Logic.

Context {collaborators : Collaborators}.

Local Open Scope engine_scope.

Lemma stamped_refl q h : stamped q h h.
Proof. split; [reflexivity|]. intros l m H. left. exact H. Qed.

Lemma stamped_trans q h1 h2 h3 :
  stamped q h1 h2 -> stamped q h2 h3 -> stamped q h1 h3.
Proof.
  intros [He1 H1] [He2 H2]. split.
  - intros Hq. rewrite (He2 Hq). exact (He1 Hq).
  - intros l m Hm. destruct (H1 l m Hm) as [Hl|Hl];
      destruct (H2 l _ Hl) as [Hr|Hr]; rewrite Hr; auto.
    right. rewrite insert_insert_eq. reflexivity.
Qed.

Lemma stamped_none q h h' : stamped "" h h' -> stamped q h h'.
Proof.
  intros [He _]. rewrite (He eq_refl). apply stamped_refl.
Qed.

Lemma stamped_query q h h' attrs :
  stamped q h h' -> hasQuery q attrs h -> hasQuery q attrs h'.
Proof.
  intros [_ H] (l & m & -> & Hm & Hq). destruct (H l m Hm) as [Hl|Hl].
  - exists l, m. auto.
  - exists l, (<[common.URLRawQuery := q]> m).
    split; [reflexivity|]. split; [exact Hl|apply lookup_insert_eq].
Qed.

Lemma evolves_refl P q w : evolves P q w w.
Proof.
  split; [|apply stamped_refl]. exists []. rewrite app_nil_r.
  split; [reflexivity|constructor].
Qed.

Lemma evolves_trans P q w1 w2 w3 :
  evolves P q w1 w2 -> evolves P q w2 w3 -> evolves P q w1 w3.
Proof.
  intros [(l1 & Hl1 & HP1) Hs1] [(l2 & Hl2 & HP2) Hs2].
  split; [|eapply stamped_trans; eassumption].
  exists (l1 ++ l2)%list. rewrite Hl2, Hl1, app_assoc.
  split; [reflexivity|]. apply Forall_app. auto.
Qed.

Lemma evolves_weaken (P P' : Event -> bool) q q' w w' :
  (forall e, P e = true -> P' e = true) ->
  (q = q' \/ q = "") ->
  evolves P q w w' -> evolves P' q' w w'.
Proof.
  intros HP Hq [(l & Hl & Hall) Hs]. split.
  - exists l. split; [exact Hl|]. eapply Forall_impl; [exact Hall|].
    exact HP.
  - destruct Hq as [ <- | -> ]; [exact Hs|]. apply stamped_none, Hs.
Qed.

Lemma evolves_tell (P : Event -> bool) q w e :
  P e = true -> evolves P q w (mkWorld (heap w) (log w ++ [e])).
Proof.
  intros He. split; [|apply stamped_refl]. exists [e].
  split; [reflexivity|]. constructor; [exact He|constructor].
Qed.

(** *** The rules *)

Section Rules.

Context (P : Event -> bool) (q : string).

Abbreviation R := (evolves P q).

Lemma triple_ret {A} Pre (a : A) (Q : A -> World -> Prop) E Pn :
  (forall w, Pre w -> Q a w) -> triple Pre (ret a) R Q E Pn.
Proof. intros H w Hw. split; [apply evolves_refl|]. cbn. auto. Qed.

Lemma triple_raise {A} Pre e (Q : A -> World -> Prop) (E : error -> Prop) Pn :
  E e -> triple Pre (raise e) R Q E Pn.
Proof. intros H w Hw. split; [apply evolves_refl|]. exact H. Qed.

Lemma triple_panic {A} Pre (Q : A -> World -> Prop) E (Pn : Prop) :
  Pn -> triple Pre (panic (A := A)) R Q E Pn.
Proof. intros H w Hw. split; [apply evolves_refl|]. exact H. Qed.

Lemma triple_tell Pre e (Q : unit -> World -> Prop) E Pn :
  P e = true ->
  (forall w, Pre w -> Q tt (mkWorld (heap w) (log w ++ [e]))) ->
  triple Pre (tell e) R Q E Pn.
Proof.
  intros He H w Hw. split; [apply evolves_tell, He|]. cbn. auto.
Qed.

Lemma triple_bind {A B} Pre (m : M A) (k : A -> M B)
    (Q1 : A -> World -> Prop) (Q : B -> World -> Prop) E Pn :
  triple Pre m R Q1 E Pn ->
  (forall a, triple (Q1 a) (k a) R Q E Pn) ->
  triple Pre (bind m k) R Q E Pn.
Proof.
  intros Hm Hk w Hw. unfold bind. destruct (Hm w Hw) as [HR Hres].
  destruct (m w) as [[a|e|] w1]; cbn in HR, Hres.
  - destruct (Hk a w1 Hres) as [HR' Hres']. split; [|exact Hres'].
    eapply evolves_trans; eassumption.
  - split; [exact HR|exact Hres].
  - split; [exact HR|exact Hres].
Qed.

(** The consequence rule: the value may be described with the help of
    what held before and of how the world moved. *)
Lemma triple_post {A} (Pre : World -> Prop) (m : M A)
    (Q Q' : A -> World -> Prop) (E E' : error -> Prop) (Pn Pn' : Prop) :
  triple Pre m R Q E Pn ->
  (forall w w' a, Pre w -> R w w' -> Q a w' -> Q' a w') ->
  (forall e, E e -> E' e) -> (Pn -> Pn') ->
  triple Pre m R Q' E' Pn'.
Proof.
  intros Hm HQ HE HP w Hw. destruct (Hm w Hw) as [HR Hres].
  split; [exact HR|]. destruct (fst (m w)); eauto.
Qed.

Lemma triple_pre {A} (Pre Pre' : World -> Prop) (m : M A) Q E Pn :
  triple Pre m R Q E Pn -> (forall w, Pre' w -> Pre w) ->
  triple Pre' m R Q E Pn.
Proof. intros Hm H w Hw. apply Hm, H, Hw. Qed.

(** A fact that the precondition gives may be used to build the
    triple. *)
Lemma triple_assume {A} (F : Prop) (Pre : World -> Prop) (m : M A) Q E Pn :
  (forall w, Pre w -> F) -> (F -> triple Pre m R Q E Pn) ->
  triple Pre m R Q E Pn.
Proof. intros HF Hm w Hw. apply (Hm (HF w Hw)), Hw. Qed.

End Rules.

Lemma triple_world {A} (P P' : Event -> bool) q q' Pre (m : M A) Q E Pn :
  triple Pre m (evolves P q) Q E Pn ->
  (forall e, P e = true -> P' e = true) -> (q = q' \/ q = "") ->
  triple Pre m (evolves P' q') Q E Pn.
Proof.
  intros Hm HP Hq w Hw. destruct (Hm w Hw) as [HR Hres].
  split; [|exact Hres]. eapply evolves_weaken; eassumption.
Qed.

End Logic.

Section Steps.

Context {collaborators : Collaborators}.

Local Open Scope engine_scope.

(** *** The steps of the methods *)

Definition noEvent : Event -> bool := fun _ => false.

Definition readKinds : list ErrKind :=
  [KindEntityDoesNotExist; KindNotAllowed; KindServerError].

(** ContractInvalid is the error of the write transformation, which runs
    only when the configuration asks for it. *)
Definition writeKinds : list ErrKind :=
  readKinds ++ (if DeviceInfo.DataTransform configuration
                then [KindContractInvalid] else []).

Lemma ofKinds_intro ks k message cause :
  In k ks -> ofKinds ks (NewCommonEdgeX k message cause).
Proof. intros H. exists k. split; [reflexivity|exact H]. Qed.

Lemma ofKinds_incl ks ks' e : incl ks ks' -> ofKinds ks e -> ofKinds ks' e.
Proof. intros H (k & Hk & Hin). exists k. auto. Qed.

Lemma In_writeKinds k : In k readKinds -> In k writeKinds.
Proof. intros H. apply in_or_app. left. exact H. Qed.

Local Ltac kinds :=
  first [ apply ofKinds_intro; cbn; tauto
        | apply ofKinds_intro, In_writeKinds; cbn; tauto ].

Lemma Forall_noEvent l : Forall (fun e => noEvent e = true) l -> l = [].
Proof. destruct 1 as [|e l He]; [reflexivity|discriminate He]. Qed.

(** The attributes of a request: no call is made, no error, no panic;
    with a raw query the map of the request holds it, without one the map
    is the declared one. *)
Lemma prepareAttributes_triple declared q :
  triple always (prepareAttributes declared q) (evolves noEvent q)
    (fun attrs w' =>
       (q = "" -> attrs = declared) /\ (q <> "" -> hasQuery q attrs (heap w')))
    (fun _ => False) False.
Proof.
  intros w _. unfold prepareAttributes.
  destruct (String.eqb_spec q "") as [Hq|Hq].
  { split; [apply evolves_refl|]. cbn. split; [auto|contradiction]. }
  unfold bind, getHeap.
  assert (Hlog : exists l, log w = (log w ++ l)%list
                           /\ Forall (fun e => noEvent e = true) l).
  { exists []. rewrite app_nil_r. split; [reflexivity|constructor]. }
  destruct (Nat.leb_spec (mapLen (heap w) declared) 0) as [Hlen|Hlen]; cbn.
  - rewrite lookup_insert_eq. cbn. rewrite insert_insert_eq, insert_empty.
    pose proof (is_fresh (dom (heap w))) as Hfresh.
    apply not_elem_of_dom in Hfresh. split; [split|].
    + exact Hlog.
    + split; [contradiction|]. intros l m Hm. left. cbn.
      rewrite lookup_insert_ne; [exact Hm|]. intros <-. congruence.
    + split; [contradiction|]. intros _.
      eexists _, _. split; [reflexivity|].
      split; [apply lookup_insert_eq|apply lookup_singleton_eq].
  - destruct declared as [l0|]; [|cbn in Hlen; lia]. cbn in Hlen |- *.
    destruct (heap w !! l0) as [m0|] eqn:Hm0; [|lia]. cbn.
    split; [split|].
    + exact Hlog.
    + split; [contradiction|]. intros l m Hm. cbn.
      destruct (decide (l = l0)) as [->|Hne].
      * right. rewrite lookup_insert_eq. congruence.
      * left. rewrite lookup_insert_ne by congruence. exact Hm.
    + split; [contradiction|]. intros _.
      exists l0, (<[common.URLRawQuery := q]> m0). split; [reflexivity|].
      split; apply lookup_insert_eq.
Qed.

Lemma driverRead_triple q c reqs :
  triple always (driverRead c reqs) (evolves readSide q) anything
    (fun _ => False) False.
Proof.
  intros w _. unfold driverRead, bind, tell, getHeap, ret. cbn.
  split; [|exact I]. apply evolves_tell. reflexivity.
Qed.

Lemma driverWrite_triple q c reqs cvs :
  triple always (driverWrite c reqs cvs) (evolves writeSide q) anything
    (fun _ => False) False.
Proof.
  intros w _. unfold driverWrite, bind, tell, getHeap, ret. cbn.
  split; [|exact I]. apply evolves_tell. reflexivity.
Qed.

Lemma toEvent_triple q c results source message :
  triple always (toEvent c results source message) (evolves readSide q)
    anything (ofKinds [KindServerError]) False.
Proof.
  unfold toEvent. eapply triple_bind.
  - apply triple_tell with (Q := fun _ _ => True); [reflexivity|auto].
  - intros []. destruct (CommandValuesToEventDTO _ _ _) as [res [e|]].
    + apply triple_raise. kinds.
    + apply triple_ret. intros; exact I.
Qed.

Lemma ReadDeviceResource_triple c :
  triple always (ReadDeviceResource c) (evolves readSide (attributes c))
    anything (ofKinds readKinds) False.
Proof.
  unfold ReadDeviceResource.
  destruct (ProfileDeviceResource _ _) as [dr|]; [|apply triple_raise; kinds].
  destruct (String.eqb _ _); [apply triple_raise; kinds|].
  eapply triple_bind.
  { eapply triple_post.
    - eapply triple_world; [apply prepareAttributes_triple|discriminate|auto].
    - intros w w' a _ _ _. exact I.
    - contradiction.
    - contradiction. }
  intros attrs. eapply triple_bind.
  { eapply triple_post; [apply driverRead_triple| |contradiction..].
    intros w w' a _ _ _. exact I. }
  intros [results [err|]].
  - apply triple_raise. kinds.
  - eapply triple_post; [apply toEvent_triple| | |contradiction].
    + auto.
    + intros e. apply ofKinds_incl. intros k [<-|[]]. cbn. tauto.
Qed.

(** One request of a composite read, against the resource operation it
    is made for. *)
Definition reqShape (c : CommandProcessor) (op : ResourceOperation.t)
    (req : CommandRequest.t) : Prop :=
  exists dr,
    ProfileDeviceResource (Device.ProfileName (device c))
      (ResourceOperation.DeviceResource op) = Some dr
    /\ CommandRequest.DeviceResourceName req = DeviceResource.Name dr
    /\ CommandRequest.Type_ req
       = ResourceProperties.ValueType (DeviceResource.Properties dr)
    /\ (attributes c = "" ->
        CommandRequest.Attributes req = DeviceResource.Attributes dr).

Definition carryQuery (q : string) (reqs : list CommandRequest.t)
    (w : World) : Prop :=
  q <> "" ->
  Forall (fun req => hasQuery q (CommandRequest.Attributes req) (heap w)) reqs.

Lemma readRequests_triple c dc ops :
  triple always (readRequests c dc ops) (evolves noEvent (attributes c))
    (fun reqs w' =>
       Forall2 (reqShape c) ops reqs /\ carryQuery (attributes c) reqs w')
    (ofKinds [KindServerError]) False.
Proof.
  induction ops as [|op rest IH]; cbn [readRequests].
  - apply triple_ret. intros w _. split; [constructor|].
    intros _. constructor.
  - destruct (ProfileDeviceResource _ _) as [dr|] eqn:Hdr;
      [|apply triple_raise; kinds].
    eapply triple_bind.
    { eapply triple_post; [apply prepareAttributes_triple| |contradiction..].
      intros w w' a _ _ H. exact H. }
    intros attrs. eapply triple_bind.
    { eapply triple_post with
        (Q' := fun reqs w' =>
           (Forall2 (reqShape c) rest reqs
            /\ carryQuery (attributes c) reqs w')
           /\ (attributes c = "" -> attrs = DeviceResource.Attributes dr)
           /\ (attributes c <> "" -> hasQuery (attributes c) attrs (heap w')));
        [eapply triple_pre; [exact IH|intros; exact I]| |auto..].
      intros w w' reqs [He Hq] [_ Hs] Hreqs. split; [exact Hreqs|].
      split; [exact He|]. intros Hne. eapply stamped_query; eauto. }
    intros reqs. apply triple_ret.
    intros w [[Hshape Hcarry] [He Hq]]. split.
    + constructor; [|exact Hshape]. exists dr. cbn. auto.
    + intros Hne. constructor; [cbn; auto|]. apply Hcarry, Hne.
Qed.

Lemma ReadDeviceCommand_triple c :
  triple always (ReadDeviceCommand c) (evolves readSide (attributes c))
    anything (ofKinds readKinds) False.
Proof.
  unfold ReadDeviceCommand.
  destruct (ProfileDeviceCommand _ _) as [dc|]; [|apply triple_raise; kinds].
  destruct (String.eqb _ _); [apply triple_raise; kinds|].
  destruct (_ <? _); [apply triple_raise; kinds|].
  eapply triple_bind.
  { eapply triple_post with (Q' := anything).
    - eapply triple_world; [apply readRequests_triple|discriminate|auto].
    - intros; exact I.
    - intros e. apply ofKinds_incl. intros k [<-|[]]. cbn. tauto.
    - contradiction. }
  intros reqs. eapply triple_bind.
  { eapply triple_post with (Q' := anything);
      [apply driverRead_triple| |contradiction..].
    intros; exact I. }
  intros [results [err|]].
  - apply triple_raise. kinds.
  - eapply triple_post; [apply toEvent_triple| | |contradiction].
    + auto.
    + intros e. apply ofKinds_incl. intros k [<-|[]]. cbn. tauto.
Qed.

(** One command value of a composite write, against the resource
    operation it is made for: the nil value stands for a float resource
    only. *)
Definition cvShape (c : CommandProcessor) (ro : ResourceOperation.t)
    (cv : option CommandValue.t) : Prop :=
  exists dr,
    ProfileDeviceResource (Device.ProfileName (device c))
      (ResourceOperation.DeviceResource ro) = Some dr
    /\ match cv with
       | Some cv => tagged dr cv
       | None =>
           isFloatKind
             (ResourceProperties.ValueType (DeviceResource.Properties dr))
       end.

Definition transformKinds : list ErrKind :=
  if DeviceInfo.DataTransform configuration then [KindContractInvalid] else [].

Lemma transformKinds_writeKinds e :
  ofKinds transformKinds e -> ofKinds writeKinds e.
Proof. apply ofKinds_incl. intros k H. apply in_or_app. right. exact H. Qed.

Lemma readKinds_writeKinds e : ofKinds readKinds e -> ofKinds writeKinds e.
Proof. apply ofKinds_incl. intros k H. apply In_writeKinds, H. Qed.

Lemma parseBody_triple q c :
  triple always (parseBody c) (evolves writeSide q)
    (fun paramMap _ => paramMap <> ∅) (ofKinds [KindServerError]) False.
Proof.
  unfold parseBody. eapply triple_bind.
  - apply triple_tell with (Q := fun _ _ => True); [reflexivity|auto].
  - intros []. unfold parseParams. destruct (jsonParams (body c)) as [pm|].
    + destruct (size pm =? 0)%nat eqn:Hs.
      * apply triple_raise. kinds.
      * apply triple_ret. intros _ _ ->. discriminate Hs.
    + apply triple_raise. kinds.
Qed.

Lemma createCommandValue_triple q dr v :
  triple always (createCommandValue dr v) (evolves writeSide q)
    (fun cv _ =>
       match cv with
       | Some cv => tagged dr cv
       | None =>
           isFloatKind
             (ResourceProperties.ValueType (DeviceResource.Properties dr))
       end)
    (ofKinds [KindServerError]) False.
Proof.
  unfold createCommandValue. eapply triple_bind.
  - apply triple_tell with (Q := fun _ _ => True); [reflexivity|auto].
  - intros []. pose proof (codec_outcome dr v) as H.
    destruct (createCommandValueFromDeviceResource dr v) as [[cv|] [e|]];
      cbn in H.
    + contradiction.
    + apply triple_ret. auto.
    + apply triple_raise. kinds.
    + apply triple_ret. auto.
Qed.

Lemma writeValueMapping_triple q ro value :
  triple always (writeValueMapping ro value) (evolves writeSide q) anything
    (fun _ => False) False.
Proof.
  unfold writeValueMapping. destruct (0 <? size _)%nat.
  - destruct (findMapping _ _).
    + apply triple_ret. intros; exact I.
    + eapply triple_bind.
      * apply triple_tell with (Q := fun _ _ => True); [reflexivity|auto].
      * intros []. apply triple_ret. intros; exact I.
  - apply triple_ret. intros; exact I.
Qed.

Lemma transformWrite_triple q cv dr :
  triple always (transformWrite cv dr) (evolves writeSide q)
    (fun cv' _ => DeviceInfo.DataTransform configuration = false -> cv' = cv)
    (ofKinds transformKinds) False.
Proof.
  unfold transformWrite, transformKinds.
  destruct (DeviceInfo.DataTransform configuration).
  - eapply triple_bind.
    + apply triple_tell with (Q := fun _ _ => True); [reflexivity|auto].
    + intros []. destruct (TransformWriteParameter _ _).
      * apply triple_ret. intros _ _ [=].
      * apply triple_raise. kinds.
  - apply triple_ret. auto.
Qed.

Lemma resolveValue_error paramMap ro dr e :
  resolveValue paramMap ro dr = inr e -> ofKinds [KindServerError] e.
Proof.
  unfold resolveValue. destruct (paramMap !! _); [discriminate|].
  destruct (negb _); [discriminate|]. destruct (negb _); [discriminate|].
  intros [= <-]. kinds.
Qed.

Lemma createCommandValues_triple q c dc paramMap ops :
  forall cvs,
    triple always (createCommandValues c dc paramMap ops cvs)
      (evolves writeSide q)
      (fun cvs' _ =>
         exists new, cvs' = (cvs ++ new)%list /\ Forall2 (cvShape c) ops new)
      (ofKinds [KindNotAllowed; KindServerError]) False.
Proof.
  induction ops as [|ro rest IH]; intros cvs; cbn [createCommandValues].
  - apply triple_ret. intros w _. exists []. rewrite app_nil_r.
    split; [reflexivity|constructor].
  - destruct (ProfileDeviceResource _ _) as [dr|] eqn:Hdr;
      [|apply triple_raise; kinds].
    destruct (String.eqb _ _); [apply triple_raise; kinds|].
    destruct (resolveValue paramMap ro dr) as [value|err] eqn:Hv.
    2:{ apply triple_raise. apply resolveValue_error in Hv.
        revert Hv. apply ofKinds_incl. intros k [<-|[]]. cbn. tauto. }
    eapply triple_bind.
    { eapply triple_post with (Q' := anything);
        [apply writeValueMapping_triple| |contradiction..].
      intros; exact I. }
    intros value'. eapply triple_bind.
    { eapply triple_post;
        [eapply triple_pre; [apply createCommandValue_triple|intros; exact I]
        | | |contradiction].
      - intros w w' a _ _ H. exact H.
      - intros e. apply ofKinds_incl. intros k [<-|[]]. cbn. tauto. }
    intros cv. eapply triple_assume with
      (F := match cv with
            | Some cv => tagged dr cv
            | None =>
                isFloatKind
                  (ResourceProperties.ValueType (DeviceResource.Properties dr))
            end); [intros w H; exact H|].
    intros Hcv. eapply triple_post;
      [eapply triple_pre; [apply IH|intros; exact I]| |auto..].
    intros w w' cvs' _ _ (new & -> & Hnew). exists (cv :: new).
    rewrite <- app_assoc. split; [reflexivity|].
    constructor; [|exact Hnew]. exists dr. auto.
Qed.

Lemma prepareCommandRequests_triple c cvs :
  triple always (prepareCommandRequests c cvs)
    (evolves writeSide (attributes c))
    (fun r _ =>
       Forall2 (fun cv req =>
                  exists cv', cv = Some cv'
                    /\ CommandRequest.DeviceResourceName req
                       = CommandValue.DeviceResourceName cv'
                    /\ CommandRequest.Type_ req = CommandValue.Type_ cv')
         cvs (fst r)
       /\ length (snd r) = length cvs
       /\ (DeviceInfo.DataTransform configuration = false -> snd r = cvs))
    (ofKinds transformKinds) (In None cvs).
Proof.
  induction cvs as [|[cv|] rest IH]; cbn [prepareCommandRequests].
  - apply triple_ret. intros w _. cbn. auto.
  - eapply triple_bind.
    { eapply triple_post with (Q' := anything).
      - eapply triple_world; [apply prepareAttributes_triple|discriminate|auto].
      - intros; exact I.
      - contradiction.
      - contradiction. }
    intros attrs. eapply triple_bind.
    { eapply triple_post;
        [eapply triple_pre; [apply transformWrite_triple|intros; exact I]
        | |auto|contradiction].
      intros w w' a _ _ H. exact H. }
    intros cv'. eapply triple_assume with
      (F := DeviceInfo.DataTransform configuration = false -> cv' = cv);
      [intros w H; exact H|].
    intros Hcv. eapply triple_bind.
    { eapply triple_post;
        [eapply triple_pre; [exact IH|intros; exact I]| |auto|].
      - intros w w' a _ _ H. exact H.
      - intros H. right. exact H. }
    intros r. apply triple_ret. intros w (Hshape & Hlen & Hsame). cbn.
    split; [|split].
    + constructor; [|exact Hshape]. exists cv. auto.
    + f_equal. exact Hlen.
    + intros Hno. rewrite (Hcv Hno), (Hsame Hno). reflexivity.
  - apply triple_panic. left. reflexivity.
Qed.

(** A float resource behind the name a single write asks for, and among
    the resource operations of the command a composite write asks for. *)
Definition floatResource (c : CommandProcessor) : Prop :=
  exists dr,
    ProfileDeviceResource (Device.ProfileName (device c)) (sourceName c)
      = Some dr
    /\ isFloatKind (ResourceProperties.ValueType (DeviceResource.Properties dr)).

Definition floatOperation (c : CommandProcessor) : Prop :=
  exists dc ro dr,
    ProfileDeviceCommand (Device.ProfileName (device c)) (sourceName c)
      = Some dc
    /\ In ro (DeviceCommand.ResourceOperations dc)
    /\ ProfileDeviceResource (Device.ProfileName (device c))
         (ResourceOperation.DeviceResource ro) = Some dr
    /\ isFloatKind (ResourceProperties.ValueType (DeviceResource.Properties dr)).

Lemma WriteDeviceResource_triple c :
  triple always (WriteDeviceResource c) (evolves writeSide (attributes c))
    anything (ofKinds writeKinds) (floatResource c).
Proof.
  unfold WriteDeviceResource.
  destruct (ProfileDeviceResource _ _) as [dr|] eqn:Hdr;
    [|apply triple_raise; kinds].
  cbv zeta. destruct (String.eqb _ _); [apply triple_raise; kinds|].
  eapply triple_bind.
  { eapply triple_post with (Q' := anything);
      [apply parseBody_triple| | |contradiction].
    - intros; exact I.
    - intros e H. apply readKinds_writeKinds. revert H.
      apply ofKinds_incl. intros k [<-|[]]. cbn. tauto. }
  intros paramMap. eapply triple_bind with (Q1 := anything).
  { destruct (paramMap !! _).
    - apply triple_ret. intros; exact I.
    - destruct (negb _).
      + apply triple_ret. intros; exact I.
      + apply triple_raise. kinds. }
  intros v. eapply triple_bind.
  { eapply triple_post;
      [eapply triple_pre; [apply createCommandValue_triple|intros; exact I]
      | | |contradiction].
    - intros w w' a _ _ H. exact H.
    - intros e H. apply readKinds_writeKinds. revert H.
      apply ofKinds_incl. intros k [<-|[]]. cbn. tauto. }
  intros [cv|].
  2:{ eapply triple_assume; [intros w H; exact H|]. intros Hfloat.
      apply triple_panic. exists dr. auto. }
  eapply triple_bind.
  { eapply triple_post with (Q' := anything).
    - eapply triple_pre.
      + eapply triple_world; [apply prepareAttributes_triple|discriminate|auto].
      + intros; exact I.
    - intros; exact I.
    - contradiction.
    - contradiction. }
  intros attrs. eapply triple_bind.
  { eapply triple_post with (Q' := anything);
      [apply transformWrite_triple| | |contradiction].
    - intros; exact I.
    - apply transformKinds_writeKinds. }
  intros cv'. eapply triple_bind.
  { eapply triple_post with (Q' := anything);
      [apply driverWrite_triple| |contradiction..].
    intros; exact I. }
  intros [err|].
  - apply triple_raise. kinds.
  - apply triple_ret. intros; exact I.
Qed.

Lemma cvShape_nil c ops cvs :
  Forall2 (cvShape c) ops cvs -> In None cvs ->
  exists ro dr,
    In ro ops
    /\ ProfileDeviceResource (Device.ProfileName (device c))
         (ResourceOperation.DeviceResource ro) = Some dr
    /\ isFloatKind (ResourceProperties.ValueType (DeviceResource.Properties dr)).
Proof.
  induction 1 as [|ro cv ops cvs (dr & Hdr & Hcv) _ IH]; intros Hin.
  - destruct Hin.
  - destruct Hin as [->|Hin].
    + exists ro, dr. split; [left; reflexivity|auto].
    + destruct (IH Hin) as (ro' & dr' & Hro & H').
      exists ro', dr'. split; [right; exact Hro|exact H'].
Qed.

Lemma WriteDeviceCommand_triple c :
  triple always (WriteDeviceCommand c) (evolves writeSide (attributes c))
    anything (ofKinds writeKinds) (floatOperation c).
Proof.
  unfold WriteDeviceCommand.
  destruct (ProfileDeviceCommand _ _) as [dc|] eqn:Hdc;
    [|apply triple_raise; kinds].
  destruct (String.eqb _ _); [apply triple_raise; kinds|].
  destruct (_ <? _); [apply triple_raise; kinds|].
  eapply triple_bind.
  { eapply triple_post with (Q' := anything);
      [apply parseBody_triple| | |contradiction].
    - intros; exact I.
    - intros e H. apply readKinds_writeKinds. revert H.
      apply ofKinds_incl. intros k [<-|[]]. cbn. tauto. }
  intros paramMap. eapply triple_bind.
  { eapply triple_post;
      [eapply triple_pre; [apply createCommandValues_triple|intros; exact I]
      | | |contradiction].
    - intros w w' a _ _ H. exact H.
    - intros e H. apply readKinds_writeKinds. revert H.
      apply ofKinds_incl. intros k [<-|[<-|[]]]; cbn; tauto. }
  intros cvs. eapply triple_assume; [intros w H; exact H|].
  intros (new & Hcvs & Hshape). cbn in Hcvs. subst new.
  eapply triple_bind.
  { eapply triple_post with (Q' := anything);
      [eapply triple_pre; [apply prepareCommandRequests_triple|intros; exact I]
      | | |].
    - intros; exact I.
    - apply transformKinds_writeKinds.
    - intros Hnil. destruct (cvShape_nil c _ _ Hshape Hnil)
        as (ro & dr & Hro & Hdr & Hfloat).
      exists dc, ro, dr. auto. }
  intros r. eapply triple_bind.
  { eapply triple_post with (Q' := anything);
      [apply driverWrite_triple| |contradiction..].
    intros; exact I. }
  intros [err|].
  - apply triple_raise. kinds.
  - apply triple_ret. intros; exact I.
Qed.

(** *** The handler *)

Definition sideOf (isRead : bool) (e : Event) : bool :=
  (if isRead then readSide e else writeSide e) || afterSide e.

Definition kindsOf (isRead : bool) : list ErrKind :=
  KindServiceLocked :: (if isRead then readKinds else writeKinds).

(** The processor that the handler makes for an invocation. *)
Definition helperOf (device : Device.t) (cid : string)
    (vars : gmap string string) (body attrs : string) : CommandProcessor :=
  NewCommandProcessor device (default "" (vars !! v2.Command)) cid body attrs.

Definition floatTarget (vars : gmap string string) (body attrs cid : string)
  : Prop :=
  exists device,
    DeviceForName (default "" (vars !! v2.Name)) = Some device
    /\ (floatResource (helperOf device cid vars body attrs)
        \/ floatOperation (helperOf device cid vars body attrs)).

Lemma afterwards_evolves device sendEvent cid res w :
  evolves afterSide "" w (snd (afterwards device sendEvent cid res w)).
Proof.
  unfold afterwards, bind, tell, ret.
  destruct (DeviceInfo.UpdateLastConnected configuration);
    destruct (bool_decide (is_Some res) && sendEvent); cbn.
  - apply (evolves_trans _ _ w
             (mkWorld (heap w)
                (log w ++ [EvUpdateLastConnected (Device.Name device)]))).
    + apply evolves_tell. reflexivity.
    + apply (evolves_tell afterSide ""
               (mkWorld (heap w)
                  (log w ++ [EvUpdateLastConnected (Device.Name device)]))
               (EvSendEvent cid)). reflexivity.
  - apply evolves_tell. reflexivity.
  - apply evolves_tell. reflexivity.
  - apply evolves_refl.
Qed.

Lemma sideOf_read (isRead : bool) (e : Event) :
  (if isRead then readSide e else writeSide e) = true -> sideOf isRead e = true.
Proof. intros H. unfold sideOf. rewrite H. reflexivity. Qed.

Lemma sideOf_after (isRead : bool) (e : Event) : afterSide e = true -> sideOf isRead e = true.
Proof. intros H. unfold sideOf. rewrite H. apply orb_true_r. Qed.

Lemma kindsOf_incl (isRead : bool) (e : error) :
  ofKinds (if isRead then readKinds else writeKinds) e ->
  ofKinds (kindsOf isRead) e.
Proof. apply ofKinds_incl. intros k H. right. exact H. Qed.

(** The part of the handler that the deferred function follows. *)
Lemma dispatch_triple (isRead : bool) device cid vars body attrs :
  let helper := helperOf device cid vars body attrs in
  triple always
    (match ProfileDeviceCommand (Device.ProfileName device)
             (default "" (vars !! v2.Command)) with
     | Some _ =>
         if isRead then ReadDeviceCommand helper
         else (WriteDeviceCommand helper ;;; ret None)
     | None =>
         if isRead then ReadDeviceResource helper
         else (WriteDeviceResource helper ;;; ret None)
     end)
    (evolves (fun e => if isRead then readSide e else writeSide e) attrs)
    (fun res _ => isRead = false -> res = None)
    (ofKinds (if isRead then readKinds else writeKinds))
    (isRead = false /\ (floatResource helper \/ floatOperation helper)).
Proof.
  intros helper.
  destruct (ProfileDeviceCommand _ _) as [dc|]; destruct isRead.
  - eapply triple_post; [apply (ReadDeviceCommand_triple helper)
                        | |auto|contradiction].
    intros w w' a _ _ _ [=].
  - eapply triple_bind with (Q1 := anything).
    + eapply triple_post; [apply (WriteDeviceCommand_triple helper)|auto..].
    + intros []. apply triple_ret. auto.
  - eapply triple_post; [apply (ReadDeviceResource_triple helper)
                        | |auto|contradiction].
    intros w w' a _ _ _ [=].
  - eapply triple_bind with (Q1 := anything).
    + eapply triple_post; [apply (WriteDeviceResource_triple helper)|auto..].
    + intros []. apply triple_ret. auto.
Qed.

Lemma CommandHandler_triple (isRead sendEvent : bool) cid vars body attrs :
  triple always (CommandHandler isRead sendEvent cid vars body attrs)
    (evolves (sideOf isRead) attrs)
    (fun res _ => isRead = false -> res = None)
    (ofKinds (kindsOf isRead))
    (isRead = false /\ floatTarget vars body attrs cid).
Proof.
  unfold CommandHandler.
  destruct (String.eqb _ _);
    [apply triple_raise, ofKinds_intro; left; reflexivity|].
  destruct (DeviceForName _) as [device|] eqn:Hdev;
    [|apply triple_raise, kindsOf_incl; destruct isRead; kinds].
  destruct (String.eqb _ _);
    [apply triple_raise, ofKinds_intro; left; reflexivity|].
  destruct (String.eqb _ _);
    [apply triple_raise, ofKinds_intro; left; reflexivity|].
  cbv zeta. fold (helperOf device cid vars body attrs).
  intros w _. unfold defer.
  destruct (dispatch_triple isRead device cid vars body attrs w I)
    as [Hev Hres].
  match type of Hev with
  | evolves _ _ _ (snd (?m w)) => destruct (m w) as [[res|e|] w1]
  end; cbn in Hev, Hres |- *.
  - split; [|exact Hres]. eapply evolves_trans.
    + eapply evolves_weaken; [apply sideOf_read|left; reflexivity|exact Hev].
    + eapply evolves_weaken;
        [apply sideOf_after|right; reflexivity|apply afterwards_evolves].
  - split; [|apply kindsOf_incl, Hres].
    eapply evolves_weaken; [apply sideOf_read|left; reflexivity|exact Hev].
  - split.
    + eapply evolves_trans.
      * eapply evolves_weaken; [apply sideOf_read|left; reflexivity|exact Hev].
      * eapply evolves_weaken;
          [apply sideOf_after|right; reflexivity|apply afterwards_evolves].
    + destruct Hres as [Hr Hfloat]. split; [exact Hr|].
      exists device. auto.
Qed.

(** X6. Whatever an invocation fails with is an EdgeX error of a kind
    the handler can name: ServiceLocked, EntityDoesNotExist, NotAllowed
    or ServerError for a read; the same for a write, and ContractInvalid
    too when the configuration asks for the write transformation, never
    without. *)
Theorem CommandHandler_error_kinds (isRead sendEvent : bool)
    (cid : string) (vars : gmap string string) (body attrs : string)
    (w : World) (e : error) :
  fst (CommandHandler isRead sendEvent cid vars body attrs w) = Raise e ->
  exists k,
    kindOf e = Some k
    /\ In k [KindServiceLocked; KindEntityDoesNotExist; KindNotAllowed;
             KindServerError; KindContractInvalid]
    /\ (k = KindContractInvalid ->
        isRead = false /\ DeviceInfo.DataTransform configuration = true).
Proof.
  intros He.
  destruct (CommandHandler_triple isRead sendEvent cid vars body attrs w I)
    as [_ H].
  rewrite He in H. destruct H as (k & Hk & Hin). exists k.
  split; [exact Hk|]. unfold kindsOf, writeKinds, readKinds in Hin.
  destruct isRead, (DeviceInfo.DataTransform configuration); cbn in Hin |- *;
    intuition (subst; auto; discriminate).
Qed.

(** X7. The calls of an invocation that the log records, in their
    order (the lookups in the caches and the debug lines are not
    recorded). First come the calls of the method: a read calls nothing but the read capability of
    the driver and the conversion to an event; a write calls nothing but
    the parser of the body, the codec, the logger for a mapping that
    fails, the write transformation and the write capability of the
    driver. Then come the tasks of the deferred function: none when the
    invocation fails with an error; the update of the last connection, if
    the configuration asks for it, when it succeeds and also when it
    panics; after it the sending of the event, when one was asked for and
    the invocation ends in an event. A write never ends in an event. *)
Theorem CommandHandler_calls (isRead sendEvent : bool) (cid : string)
    (vars : gmap string string) (body attrs : string) (w : World) :
  let r := CommandHandler isRead sendEvent cid vars body attrs w in
  let touch :=
    if DeviceInfo.UpdateLastConnected configuration
    then [EvUpdateLastConnected
            (default "" (Device.Name <$>
                           DeviceForName (default "" (vars !! v2.Name))))]
    else [] in
  exists calls,
    Forall (fun e => (if isRead then readSide e else writeSide e) = true)
      calls
    /\ log (snd r)
       = (log w ++ calls
          ++ match fst r with
             | Done res =>
                 touch ++ (if bool_decide (is_Some res) && sendEvent
                           then [EvSendEvent cid] else [])
             | Raise _ => []
             | Panic => touch
             end)%list
    /\ (isRead = false -> forall res, fst r = Done res -> res = None).
Proof.
  cbv zeta. unfold CommandHandler.
  assert (Hnil : forall e : error,
            exists calls : list Event,
              Forall (fun e =>
                        (if isRead then readSide e else writeSide e) = true)
                calls
              /\ log w = (log w ++ calls ++ [])%list
              /\ (isRead = false ->
                  forall res : option EventDTO,
                    Raise e = Done res -> res = None)).
  { intros e. exists []. rewrite !app_nil_r.
    split; [constructor|]. split; [reflexivity|]. intros _ res [=]. }
  destruct (String.eqb _ _); [apply Hnil|].
  destruct (DeviceForName _) as [device|] eqn:Hdev; [|apply Hnil].
  destruct (String.eqb _ _); [apply Hnil|].
  destruct (String.eqb _ _); [apply Hnil|].
  clear Hnil. cbv zeta. fold (helperOf device cid vars body attrs).
  unfold defer.
  destruct (dispatch_triple isRead device cid vars body attrs w I)
    as [[(l & Hl & Hall) _] Hres].
  match type of Hl with
  | log (snd (?m w)) = _ => destruct (m w) as [[res|e|] w1]
  end; cbn in Hl, Hres |- *; exists l; (split; [exact Hall|]).
  - split; [|intros Hw res' [= <-]; exact (Hres Hw)].
    unfold afterwards, bind, tell, ret.
    destruct (DeviceInfo.UpdateLastConnected configuration);
      destruct (bool_decide (is_Some res) && sendEvent); cbn; rewrite Hl;
      rewrite <- ?app_assoc, ?app_nil_r; reflexivity.
  - split; [|intros _ res [=]]. rewrite app_nil_r. exact Hl.
  - split; [|intros _ res [=]].
    unfold afterwards, bind, tell, ret. cbn.
    destruct (DeviceInfo.UpdateLastConnected configuration); cbn; rewrite Hl;
      rewrite <- ?app_assoc, ?app_nil_r; reflexivity.
Qed.

(** X8. The attribute maps after an invocation. Without a raw query no
    map has changed and none has been made. With a raw query every map
    that was there is there still, either as it was or with the raw query
    stored under the reserved key and nothing else changed. *)
Theorem CommandHandler_attribute_maps (isRead sendEvent : bool)
    (cid : string) (vars : gmap string string) (body attrs : string)
    (w : World) :
  let w' := snd (CommandHandler isRead sendEvent cid vars body attrs w) in
  (attrs = "" -> heap w' = heap w)
  /\ forall l m, heap w !! l = Some m ->
       heap w' !! l = Some m
       \/ heap w' !! l = Some (<[common.URLRawQuery := attrs]> m).
Proof.
  destruct (CommandHandler_triple isRead sendEvent cid vars body attrs w I)
    as [[_ Hs] _].
  exact Hs.
Qed.

(** X9. A read never panics. A write panics only when a float resource
    is behind the name it asks for, be it the resource itself or one of
    the resource operations of the command. *)
Theorem CommandHandler_panics (isRead sendEvent : bool) (cid : string)
    (vars : gmap string string) (body attrs : string) (w : World) :
  fst (CommandHandler isRead sendEvent cid vars body attrs w) = Panic ->
  isRead = false /\ floatTarget vars body attrs cid.
Proof.
  intros He.
  destruct (CommandHandler_triple isRead sendEvent cid vars body attrs w I)
    as [_ H].
  rewrite He in H. exact H.
Qed.

(** X10. The requests of a composite read, when the loop that makes them
    runs to its end: one for each resource operation, in the declared
    order, each with the name and the kind of the resource the operation
    names; with a raw query the attribute map of every request holds it,
    without one every request has the attribute map of its resource. The
    loop looks the resources up and calls neither the driver nor the
    transformer. *)
Theorem readRequests_shape (c : CommandProcessor) (dc : DeviceCommand.t)
    (ops : list ResourceOperation.t) (w w' : World)
    (reqs : list CommandRequest.t) :
  readRequests c dc ops w = (Done reqs, w') ->
  Forall2 (reqShape c) ops reqs
  /\ (attributes c <> "" ->
      Forall (fun req =>
                hasQuery (attributes c) (CommandRequest.Attributes req)
                  (heap w')) reqs)
  /\ log w' = log w.
Proof.
  intros H. destruct (readRequests_triple c dc ops w I)
    as [[(l & Hl & Hall) _] Hres].
  rewrite H in Hl, Hres. cbn in Hl, Hres. destruct Hres as [Hshape Hq].
  split; [exact Hshape|]. split; [exact Hq|].
  rewrite (Forall_noEvent l Hall), app_nil_r in Hl. exact Hl.
Qed.

(** *** What a write hands to the driver *)

Lemma batch_shape c ops cvs reqs :
  Forall2 (cvShape c) ops cvs ->
  Forall2 (fun cv req =>
             exists cv', cv = Some cv'
               /\ CommandRequest.DeviceResourceName req
                  = CommandValue.DeviceResourceName cv'
               /\ CommandRequest.Type_ req = CommandValue.Type_ cv')
    cvs reqs ->
  Forall2 (fun ro req =>
             exists dr,
               ProfileDeviceResource (Device.ProfileName (device c))
                 (ResourceOperation.DeviceResource ro) = Some dr
               /\ CommandRequest.DeviceResourceName req = DeviceResource.Name dr
               /\ CommandRequest.Type_ req
                  = ResourceProperties.ValueType (DeviceResource.Properties dr))
    ops reqs
  /\ Forall2 (fun ro cv =>
                exists dr cv',
                  ProfileDeviceResource (Device.ProfileName (device c))
                    (ResourceOperation.DeviceResource ro) = Some dr
                  /\ cv = Some cv' /\ tagged dr cv')
       ops cvs.
Proof.
  intros Hcvs. revert reqs.
  induction Hcvs as [|ro cv ops cvs (dr & Hdr & Hcv) _ IH]; intros reqs Hreqs.
  - inversion Hreqs. split; constructor.
  - inversion Hreqs as [|? req ? reqs' (cv' & -> & Hn & Ht) Hrest]; subst.
    destruct (IH _ Hrest) as [IH1 IH2]. destruct Hcv as (Hname & Htype & Hv).
    split; constructor; try assumption.
    + exists dr. split; [exact Hdr|]. split; congruence.
    + exists dr, cv'. repeat split; assumption.
Qed.


(** X12. A write whose body the JSON decoder refuses, or whose body is
    an object without members (or null), fails with ServerError right
    after the attempt to parse it: nothing is decoded, no map is touched
    and the driver is not called. This holds for a single resource that
    is not read-only and for a composite command that is not read-only
    and within the limit of operations. *)
Theorem rejected_body (c : CommandProcessor) (w : World) :
  jsonParams (body c) = None \/ jsonParams (body c) = Some ∅ ->
  let parsed := mkWorld (heap w) (log w ++ [EvParseParams (body c)]) in
  (forall dr,
     ProfileDeviceResource (Device.ProfileName (device c)) (sourceName c)
       = Some dr ->
     ResourceProperties.ReadWrite (DeviceResource.Properties dr)
       <> v2.ReadWrite_R ->
     outcomeKind (fst (WriteDeviceResource c w)) = Some KindServerError
     /\ snd (WriteDeviceResource c w) = parsed)
  /\ (forall dc,
     ProfileDeviceCommand (Device.ProfileName (device c)) (sourceName c)
       = Some dc ->
     DeviceCommand.ReadWrite dc <> v2.ReadWrite_R ->
     Z.of_nat (length (DeviceCommand.ResourceOperations dc))
       <= DeviceInfo.MaxCmdOps configuration ->
     outcomeKind (fst (WriteDeviceCommand c w)) = Some KindServerError
     /\ snd (WriteDeviceCommand c w) = parsed).
Proof.
  intros Hbody parsed.
  assert (Hparse : exists e,
            parseBody c w
            = (Raise (NewCommonEdgeX KindServerError
                        "failed to parse SET command parameters" (Some e)),
               parsed)).
  { unfold parseBody, parseParams, bind, tell. cbn.
    destruct Hbody as [->| ->]; eexists; reflexivity. }
  destruct Hparse as [e He]. split.
  - intros dr Hdr Hrw. unfold WriteDeviceResource. rewrite Hdr. cbv zeta.
    destruct (String.eqb_spec
      (ResourceProperties.ReadWrite (DeviceResource.Properties dr))
      v2.ReadWrite_R); [contradiction|].
    unfold bind. rewrite He. split; reflexivity.
  - intros dc Hdc Hrw Hlen. unfold WriteDeviceCommand. rewrite Hdc.
    destruct (String.eqb_spec (DeviceCommand.ReadWrite dc) v2.ReadWrite_R);
      [contradiction|].
    destruct (Z.ltb_spec (DeviceInfo.MaxCmdOps configuration)
                (Z.of_nat (length (DeviceCommand.ResourceOperations dc))));
      [lia|].
    unfold bind. rewrite He. split; reflexivity.
Qed.

(** X13. The text a single write decodes, once the body is parsed: the
    entry of the body for the resource if there is one, even an empty
    one; else the default of the resource if it has one; it goes to the
    codec as it is, no mapping being applied. With neither, the write
    fails with ServerError and nothing is decoded. *)
Theorem WriteDeviceResource_value (c : CommandProcessor)
    (dr : DeviceResource.t) (paramMap : gmap string string) (w w1 : World) :
  ProfileDeviceResource (Device.ProfileName (device c)) (sourceName c)
    = Some dr ->
  ResourceProperties.ReadWrite (DeviceResource.Properties dr)
    <> v2.ReadWrite_R ->
  parseBody c w = (Done paramMap, w1) ->
  let inBody := paramMap !! DeviceResource.Name dr in
  let ofResource :=
    ResourceProperties.DefaultValue (DeviceResource.Properties dr) in
  let decodes (v : string) :=
    exists rest,
      log (snd (WriteDeviceResource c w))
      = (log w1 ++ EvCreateCommandValue (DeviceResource.Name dr) v :: rest)%list
  in
  (forall v, inBody = Some v -> decodes v)
  /\ (inBody = None -> ofResource <> "" -> decodes ofResource)
  /\ (inBody = None -> ofResource = "" ->
      outcomeKind (fst (WriteDeviceResource c w)) = Some KindServerError
      /\ snd (WriteDeviceResource c w) = w1).
Proof.
  intros Hdr Hrw Hbody inBody ofResource decodes.
  assert (Hdec : forall v w2,
            (fun w0 => createCommandValue dr v w0) w1 = w2 ->
            forall k : option CommandValue.t -> M unit,
              (forall r, exists l,
                 log (snd (k r (snd w2))) = (log (snd w2) ++ l)%list) ->
              exists rest,
                log (snd (bind (createCommandValue dr v) k w1))
                = (log w1 ++ EvCreateCommandValue (DeviceResource.Name dr) v
                            :: rest)%list).
  { intros v w2 <- k Hk. unfold bind.
    assert (Hcv : exists l,
              log (snd (createCommandValue dr v w1))
              = (log w1 ++ [EvCreateCommandValue (DeviceResource.Name dr) v]
                 ++ l)%list).
    { unfold createCommandValue, bind, tell. cbn.
      destruct (createCommandValueFromDeviceResource dr v) as [cv [e|]];
        exists []; reflexivity. }
    destruct Hcv as [l0 Hl0].
    assert (l0 = []) as ->.
    { revert Hl0. unfold createCommandValue, bind, tell. cbn.
      destruct (createCommandValueFromDeviceResource dr v) as [cv [e|]]; cbn;
        intros H; apply app_inv_head in H;
        destruct l0; [reflexivity|discriminate|reflexivity|discriminate]. }
    destruct (createCommandValue dr v w1) as [[r|e|] w2] eqn:E; cbn in Hl0.
    - destruct (Hk r) as [l Hl]. cbn in Hl. rewrite Hl, Hl0.
      exists l. rewrite <- app_assoc. reflexivity.
    - exists []. cbn. rewrite Hl0. reflexivity.
    - exists []. cbn. rewrite Hl0. reflexivity. }
  assert (Hrest : forall r : option CommandValue.t,
            forall w2, exists l,
              log (snd (match r with
                        | None => panic
                        | Some cv =>
                            attrs <- prepareAttributes
                                       (DeviceResource.Attributes dr)
                                       (attributes c) ;;
                            cv' <- transformWrite cv dr ;;
                            err <- driverWrite c
                                     [CommandRequest.mk
                                        (CommandValue.DeviceResourceName cv)
                                        attrs (CommandValue.Type_ cv)]
                                     [Some cv'] ;;
                            match err with
                            | Some err =>
                                raise (NewCommonEdgeX KindServerError
                                         ("error writing DeviceResourece "
                                          ++ DeviceResource.Name dr ++ " for "
                                          ++ Device.Name (device c)) (Some err))
                            | None => ret tt
                            end
                        end w2))
              = (log w2 ++ l)%list).
  { intros [cv|] w2; [|exists []; cbn; rewrite app_nil_r; reflexivity].
    assert (Ht : triple always
              (attrs <- prepareAttributes (DeviceResource.Attributes dr)
                          (attributes c) ;;
               cv' <- transformWrite cv dr ;;
               err <- driverWrite c
                        [CommandRequest.mk (CommandValue.DeviceResourceName cv)
                           attrs (CommandValue.Type_ cv)] [Some cv'] ;;
               match err with
               | Some err =>
                   raise (NewCommonEdgeX KindServerError
                            ("error writing DeviceResourece "
                             ++ DeviceResource.Name dr ++ " for "
                             ++ Device.Name (device c)) (Some err))
               | None => ret tt
               end)
              (evolves writeSide (attributes c)) anything (fun _ => True) True).
    { eapply triple_bind with (Q1 := anything).
      { eapply triple_post with (Q' := anything).
        - eapply triple_world;
            [apply prepareAttributes_triple|discriminate|auto].
        - intros; exact I.
        - auto.
        - auto. }
      intros attrs. eapply triple_bind with (Q1 := anything).
      { eapply triple_post with (Q' := anything);
          [apply transformWrite_triple|intros; exact I|auto..]. }
      intros cv'. eapply triple_bind with (Q1 := anything).
      { eapply triple_post with (Q' := anything);
          [apply driverWrite_triple|intros; exact I|auto..]. }
      intros [err|]; [apply triple_raise; exact I|].
      apply triple_ret. intros; exact I. }
    destruct (Ht w2 I) as [[(l & Hl & _) _] _]. exists l. exact Hl. }
  subst decodes. cbv beta. split; [|split].
  - intros v Hv. unfold WriteDeviceResource. rewrite Hdr. cbv zeta.
    destruct (String.eqb_spec
      (ResourceProperties.ReadWrite (DeviceResource.Properties dr))
      v2.ReadWrite_R); [contradiction|].
    unfold bind at 1. rewrite Hbody. fold inBody. rewrite Hv.
    unfold bind at 1. cbn [ret].
    eapply Hdec; [reflexivity|]. intros r. apply Hrest.
  - intros Hnone Hdef. unfold WriteDeviceResource. rewrite Hdr. cbv zeta.
    destruct (String.eqb_spec
      (ResourceProperties.ReadWrite (DeviceResource.Properties dr))
      v2.ReadWrite_R); [contradiction|].
    unfold bind at 1. rewrite Hbody. fold inBody ofResource. rewrite Hnone.
    destruct (String.eqb_spec ofResource ""); [contradiction|].
    cbn [negb]. unfold bind at 1. cbn [ret].
    eapply Hdec; [reflexivity|]. intros r. apply Hrest.
  - intros Hnone Hdef. unfold WriteDeviceResource. rewrite Hdr. cbv zeta.
    destruct (String.eqb_spec
      (ResourceProperties.ReadWrite (DeviceResource.Properties dr))
      v2.ReadWrite_R); [contradiction|].
    unfold bind. rewrite Hbody. fold inBody ofResource.
    rewrite Hnone, Hdef. cbn. split; reflexivity.
Qed.

(** X14. An operation name that is neither a composite command nor a
    resource of the profile of the device makes the invocation, read or
    write, fail with EntityDoesNotExist, once the device has passed the
    checks; nothing is called and no task is started. *)
Theorem unknown_operation (isRead sendEvent : bool) (cid : string)
    (vars : gmap string string) (body attrs : string) (w : World)
    (found : Device.t) :
  serviceAdminState <> models.Locked ->
  DeviceForName (default "" (vars !! v2.Name)) = Some found ->
  Device.AdminState found <> models.Locked ->
  Device.OperatingState found <> models.Down ->
  let cmd := default "" (vars !! v2.Command) in
  ProfileDeviceCommand (Device.ProfileName found) cmd = None ->
  ProfileDeviceResource (Device.ProfileName found) cmd = None ->
  rejects KindEntityDoesNotExist
    (CommandHandler isRead sendEvent cid vars body attrs) w.
Proof.
  intros Hsvc Hdev Hadmin Hop cmd Hcmd Hres. unfold CommandHandler.
  destruct (String.eqb_spec serviceAdminState models.Locked); [contradiction|].
  rewrite Hdev.
  destruct (String.eqb_spec (Device.AdminState found) models.Locked);
    [contradiction|].
  destruct (String.eqb_spec (Device.OperatingState found) models.Down);
    [contradiction|].
  cbv zeta. fold cmd. rewrite Hcmd. unfold rejects, defer.
  destruct isRead.
  - unfold ReadDeviceResource. cbn [device sourceName NewCommandProcessor].
    rewrite Hres. split; reflexivity.
  - unfold WriteDeviceResource, bind.
    cbn [device sourceName NewCommandProcessor]. rewrite Hres.
    split; reflexivity.
Qed.

(** *** A driver that fails *)

(** A computation that cannot succeed while the driver fails with
    [cause]: it panics or fails before it reaches the driver, or it calls
    the driver once and fails with a ServerError that wraps [cause]. *)
Definition fails {A} (cause : error) (m : M A) : Prop :=
  forall w,
    match fst (m w) with
    | Done _ => False
    | Panic => driverCalls (log (snd (m w))) = driverCalls (log w)
    | Raise e =>
        driverCalls (log (snd (m w))) = driverCalls (log w)
        \/ exists message before call,
             e = CommonEdgeX KindServerError message (Some cause)
             /\ log (snd (m w)) = (before ++ [call])%list
             /\ isDriverCall call = true
             /\ driverCalls before = driverCalls (log w)
    end.

Lemma fails_raise {A} cause e : fails (A := A) cause (raise e).
Proof. intros w. left. reflexivity. Qed.

Lemma fails_panic {A} cause : fails (A := A) cause panic.
Proof. intros w. reflexivity. Qed.

Lemma fails_bind {A B} cause (m : M A) (k : A -> M B) :
  silent m -> (forall a, fails cause (k a)) -> fails cause (bind m k).
Proof.
  intros Hm Hk w. unfold bind. specialize (Hm w).
  destruct (m w) as [[a|e|] w1]; cbn in Hm |- *; [|left; exact Hm|exact Hm].
  specialize (Hk a w1). destruct (fst (k a w1)); [exact Hk| |congruence].
  rewrite Hm in Hk. exact Hk.
Qed.

Lemma silent_readRequests c dc ops : silent (readRequests c dc ops).
Proof.
  induction ops as [|op rest IH]; cbn [readRequests].
  - intros w. reflexivity.
  - destruct (ProfileDeviceResource _ _) as [dr|]; [|intros w; reflexivity].
    apply silent_bind; [apply silent_prepareAttributes|]. intros attrs.
    apply silent_bind; [exact IH|]. intros reqs w. reflexivity.
Qed.

Section Failing.

Variable cause : error.

Hypothesis read_fails :
  forall name protocols reqs h,
    snd (HandleReadCommands name protocols reqs h) = Some cause.
Hypothesis write_fails :
  forall name protocols reqs cvs h,
    HandleWriteCommands name protocols reqs cvs h = Some cause.

Lemma fails_read c reqs message
    (k : list (option CommandValue.t) -> M (option EventDTO)) :
  fails cause
    (r <- driverRead c reqs ;;
     match r with
     | (_, Some err) =>
         raise (NewCommonEdgeX KindServerError message (Some err))
     | (results, None) => k results
     end).
Proof.
  intros w. unfold driverRead, bind, tell, getHeap, ret. cbn.
  pose proof (read_fails (Device.Name (device c)) (Device.Protocols (device c))
                reqs (heap w)) as H.
  destruct (HandleReadCommands _ _ _ _) as [results [err|]];
    cbn in H; [|discriminate]. injection H as ->. cbn. right.
  eexists _, (log w), _. repeat split; reflexivity.
Qed.

Lemma fails_write c reqs cvs message :
  fails cause
    (err <- driverWrite c reqs cvs ;;
     match err with
     | Some err => raise (NewCommonEdgeX KindServerError message (Some err))
     | None => ret tt
     end).
Proof.
  intros w. unfold driverWrite, bind, tell, getHeap, ret. cbn.
  rewrite write_fails. cbn. right.
  eexists _, (log w), _. repeat split; reflexivity.
Qed.

Lemma fails_ReadDeviceResource c : fails cause (ReadDeviceResource c).
Proof.
  unfold ReadDeviceResource.
  destruct (ProfileDeviceResource _ _) as [dr|]; [|apply fails_raise].
  cbv zeta. destruct (String.eqb _ _); [apply fails_raise|].
  apply fails_bind; [apply silent_prepareAttributes|]. intros attrs.
  apply fails_read.
Qed.

Lemma fails_ReadDeviceCommand c : fails cause (ReadDeviceCommand c).
Proof.
  unfold ReadDeviceCommand.
  destruct (ProfileDeviceCommand _ _) as [dc|]; [|apply fails_raise].
  destruct (String.eqb _ _); [apply fails_raise|].
  destruct (_ <? _); [apply fails_raise|].
  apply fails_bind; [apply silent_readRequests|]. intros reqs.
  apply fails_read.
Qed.

Lemma fails_WriteDeviceResource c : fails cause (WriteDeviceResource c).
Proof.
  unfold WriteDeviceResource.
  destruct (ProfileDeviceResource _ _) as [dr|]; [|apply fails_raise].
  cbv zeta. destruct (String.eqb _ _); [apply fails_raise|].
  apply fails_bind; [apply quiet_silent, quiet_parseBody|]. intros paramMap.
  apply fails_bind.
  { apply quiet_silent. destruct (paramMap !! _); [apply quiet_ret|].
    destruct (negb _); [apply quiet_ret|apply quiet_raise]. }
  intros v.
  apply fails_bind; [apply quiet_silent, quiet_createCommandValue|].
  intros [cv|]; [|apply fails_panic].
  apply fails_bind; [apply silent_prepareAttributes|]. intros attrs.
  apply fails_bind; [apply silent_transformWrite|]. intros cv'.
  apply fails_write.
Qed.

Lemma fails_WriteDeviceCommand c : fails cause (WriteDeviceCommand c).
Proof.
  unfold WriteDeviceCommand.
  destruct (ProfileDeviceCommand _ _) as [dc|]; [|apply fails_raise].
  destruct (String.eqb _ _); [apply fails_raise|].
  destruct (_ <? _); [apply fails_raise|].
  apply fails_bind; [apply quiet_silent, quiet_parseBody|]. intros paramMap.
  apply fails_bind; [apply quiet_silent, quiet_createCommandValues|].
  intros cvs.
  apply fails_bind; [apply silent_prepareCommandRequests|]. intros r.
  apply fails_write.
Qed.

End Failing.

(** X15. With a driver both capabilities of which fail on every call,
    no invocation succeeds. Either it ends without a call of the driver,
    or it fails with a ServerError that wraps the error of the driver,
    and the call of the driver, the only one, is the last thing it has
    done: a read makes no event of the results, and no task is started. *)
Theorem driver_failure (cause : error) (isRead sendEvent : bool)
    (cid : string) (vars : gmap string string) (body attrs : string)
    (w : World) :
  (forall name protocols reqs h,
     snd (HandleReadCommands name protocols reqs h) = Some cause) ->
  (forall name protocols reqs cvs h,
     HandleWriteCommands name protocols reqs cvs h = Some cause) ->
  let r := CommandHandler isRead sendEvent cid vars body attrs w in
  (forall res, fst r <> Done res)
  /\ (driverCalls (log (snd r)) = driverCalls (log w)
      \/ exists message before call,
           fst r = Raise (CommonEdgeX KindServerError message (Some cause))
           /\ log (snd r) = (before ++ [call])%list
           /\ isDriverCall call = true
           /\ driverCalls before = driverCalls (log w)).
Proof.
  intros Hread Hwrite. cbv zeta. unfold CommandHandler.
  assert (Hnil : forall e : error,
            (forall res : option EventDTO, Raise e <> Done res)
            /\ (driverCalls (log w) = driverCalls (log w)
                \/ exists message before call,
                     Raise (A := option EventDTO) e
                     = Raise (CommonEdgeX KindServerError message (Some cause))
                     /\ log w = (before ++ [call])%list
                     /\ isDriverCall call = true
                     /\ driverCalls before = driverCalls (log w))).
  { intros e. split; [discriminate|]. left. reflexivity. }
  destruct (String.eqb _ _); [apply Hnil|].
  destruct (DeviceForName _) as [device|] eqn:Hdev; [|apply Hnil].
  destruct (String.eqb _ _); [apply Hnil|].
  destruct (String.eqb _ _); [apply Hnil|].
  clear Hnil. cbv zeta. fold (helperOf device cid vars body attrs).
  set (helper := helperOf device cid vars body attrs).
  assert (Hm : fails cause
            (match ProfileDeviceCommand (Device.ProfileName device)
                     (default "" (vars !! v2.Command)) with
             | Some _ =>
                 if isRead then ReadDeviceCommand helper
                 else (WriteDeviceCommand helper ;;; ret None)
             | None =>
                 if isRead then ReadDeviceResource helper
                 else (WriteDeviceResource helper ;;; ret None)
             end)).
  { assert (Hseq : forall m : M unit,
              fails cause m -> fails cause (m ;;; ret (None (A := EventDTO)))).
    { intros m H w0. specialize (H w0). unfold bind.
      destruct (m w0) as [[[]|e|] w1]; cbn in H |- *;
        [contradiction|exact H..]. }
    destruct (ProfileDeviceCommand _ _); destruct isRead.
    - apply fails_ReadDeviceCommand; assumption.
    - apply Hseq, fails_WriteDeviceCommand; assumption.
    - apply fails_ReadDeviceResource; assumption.
    - apply Hseq, fails_WriteDeviceResource; assumption. }
  specialize (Hm w). unfold defer.
  match type of Hm with
  | match fst (?m w) with _ => _ end => destruct (m w) as [[res|e|] w1]
  end; cbn in Hm |- *; [contradiction| |].
  - split; [discriminate|].
    destruct Hm as [Hm|(message & before & call & -> & Hm)];
      [left; exact Hm|right].
    exists message, before, call. split; [reflexivity|exact Hm].
  - split; [discriminate|]. left.
    unfold afterwards, bind, tell, ret.
    destruct (DeviceInfo.UpdateLastConnected configuration);
      cbn -[driverCalls]; [|exact Hm].
    rewrite driverCalls_snoc; [exact Hm|reflexivity].
Qed.

(** *** What a method that succeeds has called *)

Lemma prepareAttributes_done declared q w :
  exists attrs w1,
    prepareAttributes declared q w = (Done attrs, w1)
    /\ log w1 = log w
    /\ (q = "" -> attrs = declared)
    /\ (q <> "" -> hasQuery q attrs (heap w1)).
Proof.
  destruct (prepareAttributes_triple declared q w I)
    as [[(l & Hl & Hall) _] Hres].
  rewrite (Forall_noEvent l Hall), app_nil_r in Hl.
  destruct (prepareAttributes declared q w) as [[attrs|e|] w1];
    cbn in Hl, Hres; [|contradiction..].
  exists attrs, w1. split; [reflexivity|]. split; [exact Hl|exact Hres].
Qed.

(** X16. A read of a single resource that succeeds has called the read
    capability of the driver once, with one request that has the name and
    the kind of the resource, and then the conversion to an event, under
    the name of the resource; it has called nothing else. The attribute
    map of the request is that of the resource when there is no raw
    query, and holds the raw query when there is one. *)
Theorem single_read_calls (c : CommandProcessor) (w w' : World)
    (res : option EventDTO) :
  ReadDeviceResource c w = (Done res, w') ->
  exists dr attrs,
    ProfileDeviceResource (Device.ProfileName (device c)) (sourceName c)
      = Some dr
    /\ ResourceProperties.ReadWrite (DeviceResource.Properties dr)
       <> v2.ReadWrite_W
    /\ log w'
       = (log w
          ++ [EvHandleReadCommands (Device.Name (device c))
                [CommandRequest.mk (DeviceResource.Name dr) attrs
                   (ResourceProperties.ValueType
                      (DeviceResource.Properties dr))];
              EvCommandValuesToEventDTO (Device.Name (device c))
                (DeviceResource.Name dr)])%list
    /\ (attributes c = "" -> attrs = DeviceResource.Attributes dr)
    /\ (attributes c <> "" -> hasQuery (attributes c) attrs (heap w')).
Proof.
  unfold ReadDeviceResource.
  destruct (ProfileDeviceResource _ _) as [dr|]; [|discriminate].
  cbv zeta.
  destruct (String.eqb_spec
    (ResourceProperties.ReadWrite (DeviceResource.Properties dr))
    v2.ReadWrite_W) as [|Hrw]; [discriminate|].
  destruct (prepareAttributes_done (DeviceResource.Attributes dr)
              (attributes c) w) as (attrs & w1 & Hp & Hlog & Hno & Hq).
  unfold bind at 1. rewrite Hp.
  unfold driverRead, toEvent, bind, tell, getHeap, ret. cbn.
  destruct (HandleReadCommands _ _ _ _) as [results [err|]];
    cbn; [discriminate|].
  destruct (CommandValuesToEventDTO _ _ _) as [res' [e|]];
    cbn; [discriminate|].
  intros [= <- <-]. exists dr, attrs. cbn. rewrite Hlog, <- app_assoc.
  repeat split; auto.
Qed.

(** X17. A read of a composite command that succeeds has called the
    read capability of the driver once, with one request for each
    resource operation of the command, in the declared order, and then
    the conversion to an event, under the name of the command; it has
    called nothing else, and the command has no more operations than the
    configuration allows. *)
Theorem composite_read_calls (c : CommandProcessor) (w w' : World)
    (res : option EventDTO) :
  ReadDeviceCommand c w = (Done res, w') ->
  exists dc reqs,
    ProfileDeviceCommand (Device.ProfileName (device c)) (sourceName c)
      = Some dc
    /\ DeviceCommand.ReadWrite dc <> v2.ReadWrite_W
    /\ Z.of_nat (length (DeviceCommand.ResourceOperations dc))
       <= DeviceInfo.MaxCmdOps configuration
    /\ Forall2 (reqShape c) (DeviceCommand.ResourceOperations dc) reqs
    /\ log w'
       = (log w
          ++ [EvHandleReadCommands (Device.Name (device c)) reqs;
              EvCommandValuesToEventDTO (Device.Name (device c))
                (DeviceCommand.Name dc)])%list.
Proof.
  unfold ReadDeviceCommand.
  destruct (ProfileDeviceCommand _ _) as [dc|]; [|discriminate].
  destruct (String.eqb_spec (DeviceCommand.ReadWrite dc) v2.ReadWrite_W)
    as [|Hrw]; [discriminate|].
  destruct (Z.ltb_spec (DeviceInfo.MaxCmdOps configuration)
              (Z.of_nat (length (DeviceCommand.ResourceOperations dc))))
    as [|Hmax]; [discriminate|].
  destruct (readRequests_triple c dc (DeviceCommand.ResourceOperations dc)
              w I) as [[(l & Hl & Hall) _] Hres].
  rewrite (Forall_noEvent l Hall), app_nil_r in Hl.
  unfold bind at 1.
  destruct (readRequests c dc _ w) as [[reqs|e|] w1];
    cbn in Hl, Hres; [|discriminate..].
  unfold driverRead, toEvent, bind, tell, getHeap, ret. cbn.
  destruct (HandleReadCommands _ _ _ _) as [results [err|]];
    cbn; [discriminate|].
  destruct (CommandValuesToEventDTO _ _ _) as [res' [e|]];
    cbn; [discriminate|].
  intros [= <- <-]. exists dc, reqs. cbn. rewrite Hl, <- app_assoc.
  destruct Hres as [Hshape _]. repeat split; auto.
Qed.

(** X18. A write of a single resource that succeeds has parsed the body,
    decoded one text for the resource, transformed the value if the
    configuration asks for it, and then called the write capability of
    the driver once, with one request that has the name and the kind of
    the resource and with the value, transformed or as decoded; it has
    called nothing else. *)
Theorem single_write_calls (c : CommandProcessor) (w w' : World) :
  WriteDeviceResource c w = (Done tt, w') ->
  exists dr v cv cv' attrs,
    ProfileDeviceResource (Device.ProfileName (device c)) (sourceName c)
      = Some dr
    /\ createCommandValueFromDeviceResource dr v = (Some cv, None)
    /\ tagged dr cv
    /\ (if DeviceInfo.DataTransform configuration
        then TransformWriteParameter cv (DeviceResource.Properties dr)
             = inl cv'
        else cv' = cv)
    /\ log w'
       = (log w
          ++ [EvParseParams (body c);
              EvCreateCommandValue (DeviceResource.Name dr) v]
          ++ (if DeviceInfo.DataTransform configuration
              then [EvTransformWriteParameter cv] else [])
          ++ [EvHandleWriteCommands (Device.Name (device c))
                [CommandRequest.mk (DeviceResource.Name dr) attrs
                   (ResourceProperties.ValueType
                      (DeviceResource.Properties dr))]
                [Some cv']])%list.
Proof.
  unfold WriteDeviceResource.
  destruct (ProfileDeviceResource _ _) as [dr|]; [|discriminate].
  cbv zeta. destruct (String.eqb _ _); [discriminate|].
  unfold bind at 1.
  assert (Hbody : forall pm w1,
            parseBody c w = (Done pm, w1) ->
            log w1 = (log w ++ [EvParseParams (body c)])%list).
  { unfold parseBody, bind, tell, ret, raise. cbn.
    destruct (parseParams (body c)) as [pm' [e|]]; [discriminate|].
    intros pm w1 [= <- <-]. reflexivity. }
  destruct (parseBody c w) as [[pm|e|] w1]; [|discriminate..].
  specialize (Hbody pm w1 eq_refl).
  unfold bind at 1.
  assert (Hv : exists v, forall k : string -> M unit,
            match
              match pm !! DeviceResource.Name dr with
              | Some v => ret v
              | None =>
                  if negb (ResourceProperties.DefaultValue
                             (DeviceResource.Properties dr) =? "")%string
                  then ret (ResourceProperties.DefaultValue
                              (DeviceResource.Properties dr))
                  else raise
                         (NewCommonEdgeX KindServerError
                            ("deviceResource " ++ DeviceResource.Name dr
                             ++ " not found in request body and no default value defined")
                            None)
              end w1
            with
            | (Done a, w2) => k a w2
            | (Raise e, w2) => (Raise e, w2)
            | (Panic, w2) => (Panic, w2)
            end = (Done tt, w') -> k v w1 = (Done tt, w')).
  { destruct (pm !! DeviceResource.Name dr) as [v|].
    - exists v. intros k H. exact H.
    - destruct (negb _).
      + eexists. intros k H. exact H.
      + exists "". intros k H. discriminate H. }
  destruct Hv as [v Hv]. intros H. apply Hv in H. clear Hv. revert H.
  unfold bind at 1. unfold createCommandValue at 1, bind, tell. cbn.
  destruct (createCommandValueFromDeviceResource dr v) as [ocv [e|]] eqn:Hcv;
    cbn; [discriminate|].
  destruct ocv as [cv|]; [|discriminate].
  pose proof (codec_outcome dr v) as Htag. rewrite Hcv in Htag.
  cbn in Htag.
  match goal with
  | |- context [prepareAttributes ?d ?q ?w0] =>
      destruct (prepareAttributes_done d q w0)
        as (attrs & w2 & Hp & Hlog & _)
  end.
  rewrite Hp. cbn in Hlog.
  destruct Htag as (Hname & Htype & Hvalid).
  unfold transformWrite, driverWrite, bind, tell, getHeap, ret, raise.
  destruct (DeviceInfo.DataTransform configuration); cbn.
  - destruct (TransformWriteParameter cv (DeviceResource.Properties dr))
      as [cv'|e] eqn:Ht; cbn; [|discriminate].
    destruct (HandleWriteCommands _ _ _ _ _); [discriminate|].
    intros [= <-]. exists dr, v, cv, cv', attrs. cbn.
    rewrite Hlog, Hbody, Hname, Htype, <- !app_assoc.
    repeat split; auto.
  - destruct (HandleWriteCommands _ _ _ _ _); [discriminate|].
    intros [= <-]. exists dr, v, cv, cv, attrs. cbn.
    rewrite Hlog, Hbody, Hname, Htype, <- !app_assoc.
    repeat split; auto.
Qed.

(** The kinds the codec knows. *)
Definition codecKinds : list string :=
  [v2.ValueTypeString; v2.ValueTypeBool; v2.ValueTypeBoolArray;
   v2.ValueTypeUint8; v2.ValueTypeUint8Array;
   v2.ValueTypeUint16; v2.ValueTypeUint16Array;
   v2.ValueTypeUint32; v2.ValueTypeUint32Array;
   v2.ValueTypeUint64; v2.ValueTypeUint64Array;
   v2.ValueTypeInt8; v2.ValueTypeInt8Array;
   v2.ValueTypeInt16; v2.ValueTypeInt16Array;
   v2.ValueTypeInt32; v2.ValueTypeInt32Array;
   v2.ValueTypeInt64; v2.ValueTypeInt64Array;
   v2.ValueTypeFloat32; v2.ValueTypeFloat32Array;
   v2.ValueTypeFloat64; v2.ValueTypeFloat64Array].

(** X19. A resource of a kind the codec does not know, the Binary kind
    among them, cannot be written: whatever the text, the codec returns
    no value and the ServerError that says the value type is not
    recognized, with no cause. *)
Theorem unrecognized_kinds (dr : DeviceResource.t) (v : string) :
  ~ In (ResourceProperties.ValueType (DeviceResource.Properties dr))
      codecKinds ->
  createCommandValueFromDeviceResource dr v
  = (None, Some (CommonEdgeX KindServerError "unrecognized value type" None)).
Proof.
  intros Hk. unfold createCommandValueFromDeviceResource. cbv zeta.
  repeat match goal with
  | |- context [String.eqb ?a ?b] =>
      destruct (String.eqb_spec a b) as [H|_];
        [exfalso; apply Hk; rewrite H; unfold codecKinds; cbn; tauto|]
  end.
  reflexivity.
Qed.

End Steps.

(** * The attribute maps of the requests *)

(** The attribute map [attrs] of a request made with the raw query [q]
    for a resource whose declaration has the attribute map [declared],
    the maps being [h] before the invocation and [h'] after it. When the
    declared map has no entry the request has a map of its own, at an
    address that was free, and that map holds the raw query alone. When
    the declared map has entries the request has that very map, which now
    holds the raw query under the reserved key beside its former
    entries. *)
Definition requestMap (q : string) (h h' : gmap nat (gmap string string))
    (declared attrs : mapRef) : Prop :=
  (mapLen h declared = 0%nat ->
   exists l,
     attrs = Some l /\ h !! l = None
     /\ h' !! l = Some {[common.URLRawQuery := q]})
  /\ (forall l m,
        declared = Some l -> h !! l = Some m -> m <> ∅ ->
        attrs = Some l
        /\ h' !! l = Some (<[common.URLRawQuery := q]> m)).

(** The maps after an invocation with the raw query [q], against the
    maps before it: a map that was there is as it was, unless it has
    entries and is the declared map of a resource in [D], and then it may
    have got the raw query and nothing else; a map that was not there
    holds the raw query alone. *)
Definition framed (q : string) (D : nat -> Prop)
    (h h' : gmap nat (gmap string string)) : Prop :=
  (forall l m,
     h !! l = Some m ->
     h' !! l = Some m
     \/ (m <> ∅ /\ D l /\ h' !! l = Some (<[common.URLRawQuery := q]> m)))
  /\ (forall l,
        h !! l = None ->
        h' !! l = None \/ h' !! l = Some {[common.URLRawQuery := q]}).

Section Attributes.

Context {collaborators : Collaborators}.

Local Open Scope engine_scope.

Lemma stored_twice (q : string) (m : gmap string string) :
  <[common.URLRawQuery := q]> (<[common.URLRawQuery := q]> m)
  = <[common.URLRawQuery := q]> m.
Proof. apply insert_insert_eq. Qed.

Lemma stored_alone (q : string) :
  <[common.URLRawQuery := q]> ({[common.URLRawQuery := q]} : gmap string string)
  = {[common.URLRawQuery := q]}.
Proof. rewrite <- insert_empty. apply insert_insert_eq. Qed.

Lemma alone_non_empty (q : string) :
  ({[common.URLRawQuery := q]} : gmap string string) <> ∅.
Proof. rewrite <- insert_empty. apply insert_non_empty. Qed.

Lemma framed_refl q D h : framed q D h h.
Proof. split; intros; left; assumption. Qed.

Lemma framed_trans q (D1 D2 D : nat -> Prop) h h1 h2 :
  (forall l, D1 l -> D l) -> (forall l, D2 l -> D l) ->
  framed q D1 h h1 -> framed q D2 h1 h2 -> framed q D h h2.
Proof.
  intros HD1 HD2 [Hold1 Hnew1] [Hold2 Hnew2]. split.
  - intros l m Hm. destruct (Hold1 l m Hm) as [H1|(Hne & Hd & H1)].
    + destruct (Hold2 l m H1) as [H2|(Hne & Hd & H2)]; [left; exact H2|].
      right. auto.
    + right. split; [exact Hne|]. split; [auto|].
      destruct (Hold2 l _ H1) as [H2|(_ & _ & H2)]; [exact H2|].
      rewrite stored_twice in H2. exact H2.
  - intros l Hl. destruct (Hnew1 l Hl) as [H1|H1]; [apply Hnew2, H1|].
    right. destruct (Hold2 l _ H1) as [H2|(_ & _ & H2)]; [exact H2|].
    rewrite stored_alone in H2. exact H2.
Qed.

Lemma framed_weaken q (D D' : nat -> Prop) h h' :
  (forall l, D l -> D' l) -> framed q D h h' -> framed q D' h h'.
Proof.
  intros HD H.
  exact (framed_trans q D D D' h h' h' HD HD H (framed_refl q D h')).
Qed.

(** The map of a request keeps its description while later requests
    are made, and while earlier ones were. *)
Lemma requestMap_later q D h h1 h2 declared attrs :
  requestMap q h h1 declared attrs -> framed q D h1 h2 ->
  requestMap q h h2 declared attrs.
Proof.
  intros [Hfresh Hshared] [Hold _]. split.
  - intros Hlen. destruct (Hfresh Hlen) as (l & Ha & Hl & H1).
    exists l. split; [exact Ha|]. split; [exact Hl|].
    destruct (Hold l _ H1) as [H2|(_ & _ & H2)]; [exact H2|].
    rewrite stored_alone in H2. exact H2.
  - intros l m Hd Hm Hne. destruct (Hshared l m Hd Hm Hne) as [Ha H1].
    split; [exact Ha|].
    destruct (Hold l _ H1) as [H2|(_ & _ & H2)]; [exact H2|].
    rewrite stored_twice in H2. exact H2.
Qed.

Lemma requestMap_earlier q D h h1 h2 declared attrs :
  framed q D h h1 -> requestMap q h1 h2 declared attrs ->
  requestMap q h h2 declared attrs.
Proof.
  intros [Hold Hnew] [Hfresh Hshared]. split.
  - intros Hlen.
    assert (Hcase : mapLen h1 declared = 0%nat
                    \/ exists l, declared = Some l /\ h !! l = None
                         /\ h1 !! l = Some {[common.URLRawQuery := q]}).
    { destruct declared as [l|]; [|left; reflexivity]. cbn in Hlen |- *.
      destruct (h !! l) as [m|] eqn:Hm.
      - apply map_size_empty_iff in Hlen. subst m.
        destruct (Hold l ∅ Hm) as [H1|(Hne & _)]; [|contradiction].
        left. rewrite H1. reflexivity.
      - destruct (Hnew l Hm) as [H1|H1].
        + left. rewrite H1. reflexivity.
        + right. exists l. auto. }
    destruct Hcase as [Hlen1|(l & -> & Hl & H1)].
    + destruct (Hfresh Hlen1) as (l & Ha & Hl & H2). exists l.
      split; [exact Ha|]. split; [|exact H2].
      destruct (h !! l) as [m|] eqn:Hm; [|reflexivity].
      destruct (Hold l m Hm) as [H|(_ & _ & H)]; congruence.
    + destruct (Hshared l _ eq_refl H1 (alone_non_empty q)) as [Ha H2].
      exists l. split; [exact Ha|]. split; [exact Hl|].
      rewrite stored_alone in H2. exact H2.
  - intros l m Hd Hm Hne.
    destruct (Hold l m Hm) as [H1|(_ & _ & H1)].
    + exact (Hshared l m Hd H1 Hne).
    + destruct (Hshared l _ Hd H1 (insert_non_empty _ _ _)) as [Ha H2].
      split; [exact Ha|]. rewrite stored_twice in H2. exact H2.
Qed.

(** The four places where a request gets its attributes (lines 131-137,
    191-197, 259-265 and 375-381). *)
Lemma prepareAttributes_merge declared q w :
  q <> "" ->
  exists attrs w1,
    prepareAttributes declared q w = (Done attrs, w1)
    /\ log w1 = log w
    /\ requestMap q (heap w) (heap w1) declared attrs
    /\ framed q (fun l => declared = Some l) (heap w) (heap w1).
Proof.
  intros Hq.
  assert (Hcase : mapLen (heap w) declared = 0%nat
                  \/ exists l m, declared = Some l /\ heap w !! l = Some m
                       /\ m <> ∅).
  { destruct declared as [l|]; [|left; reflexivity]. cbn.
    destruct (heap w !! l) as [m|] eqn:Hm; [|left; reflexivity].
    destruct (decide (m = ∅)) as [->|Hne]; [left; reflexivity|].
    right. exists l, m. auto. }
  destruct Hcase as [Hlen|(l & m & -> & Hm & Hne)].
  - rewrite (prepareAttributes_fresh declared q w Hq Hlen). cbv zeta.
    pose proof (is_fresh (dom (heap w))) as Hfresh.
    apply not_elem_of_dom in Hfresh.
    eexists _, _. split; [reflexivity|]. cbn. split; [reflexivity|].
    split; [split|split].
    + intros _. eexists. split; [reflexivity|].
      split; [exact Hfresh|apply lookup_insert_eq].
    + intros l m -> Hm Hne. cbn in Hlen. rewrite Hm in Hlen.
      apply map_size_empty_iff in Hlen. contradiction.
    + intros l m Hm. left. rewrite lookup_insert_ne; [exact Hm|].
      intros <-. congruence.
    + intros l Hl. destruct (decide (l = fresh (dom (heap w)))) as [->|Hne].
      * right. apply lookup_insert_eq.
      * left. rewrite lookup_insert_ne by congruence. exact Hl.
  - rewrite (prepareAttributes_shared l m q w Hq Hm Hne).
    eexists _, _. split; [reflexivity|]. cbn. split; [reflexivity|].
    split; [split|split].
    + intros Hlen. cbn in Hlen. rewrite Hm in Hlen.
      apply map_size_empty_iff in Hlen. contradiction.
    + intros l' m' [= <-] Hm' _. rewrite Hm in Hm'. injection Hm' as <-.
      split; [reflexivity|apply lookup_insert_eq].
    + intros l' m' Hm'. destruct (decide (l' = l)) as [->|Hne'].
      * right. rewrite Hm in Hm'. injection Hm' as <-.
        split; [exact Hne|]. split; [reflexivity|apply lookup_insert_eq].
      * left. rewrite lookup_insert_ne by congruence. exact Hm'.
    + intros l' Hl'. left. rewrite lookup_insert_ne; [exact Hl'|].
      intros <-. congruence.
Qed.

Lemma triple_heap {A} (P : Event -> bool) (m : M A)
    (Q : A -> World -> Prop) (E : error -> Prop) (Pn : Prop) (w : World) :
  triple always m (evolves P "") Q E Pn -> heap (snd (m w)) = heap w.
Proof. intros T. destruct (T w I) as [[_ [H _]] _]. exact (H eq_refl). Qed.

(** The maps that the resources of a list of resource operations
    declare, for the loop of a composite read; for a composite write,
    whose second loop looks the resource up again under the name of the
    value (line 372), the maps that the resources so found declare. *)
Definition declaredBy (c : CommandProcessor) (ops : list ResourceOperation.t)
    (l : nat) : Prop :=
  exists ro dr,
    In ro ops
    /\ ProfileDeviceResource (Device.ProfileName (device c))
         (ResourceOperation.DeviceResource ro) = Some dr
    /\ DeviceResource.Attributes dr = Some l.

Definition declaredByNamed (c : CommandProcessor)
    (ops : list ResourceOperation.t) (l : nat) : Prop :=
  exists ro dr named,
    In ro ops
    /\ ProfileDeviceResource (Device.ProfileName (device c))
         (ResourceOperation.DeviceResource ro) = Some dr
    /\ ProfileDeviceResource (Device.ProfileName (device c))
         (DeviceResource.Name dr) = Some named
    /\ DeviceResource.Attributes named = Some l.

Definition declaredByValues (c : CommandProcessor)
    (cvs : list (option CommandValue.t)) (l : nat) : Prop :=
  exists cv named,
    In (Some cv) cvs
    /\ ProfileDeviceResource (Device.ProfileName (device c))
         (CommandValue.DeviceResourceName cv) = Some named
    /\ DeviceResource.Attributes named = Some l.

(** One request of a composite read, with its attribute map. *)
Definition readRequest (c : CommandProcessor)
    (h h' : gmap nat (gmap string string)) (ro : ResourceOperation.t)
    (req : CommandRequest.t) : Prop :=
  exists dr,
    ProfileDeviceResource (Device.ProfileName (device c))
      (ResourceOperation.DeviceResource ro) = Some dr
    /\ CommandRequest.DeviceResourceName req = DeviceResource.Name dr
    /\ requestMap (attributes c) h h' (DeviceResource.Attributes dr)
         (CommandRequest.Attributes req).

(** One request of a composite write, with its attribute map: the
    declared map is that of the resource found under the name of the
    request, and the nil map when there is none. *)
Definition writeRequest (c : CommandProcessor)
    (h h' : gmap nat (gmap string string)) (req : CommandRequest.t) : Prop :=
  requestMap (attributes c) h h'
    (DeviceResource.Attributes
       (default DeviceResource.zero
          (ProfileDeviceResource (Device.ProfileName (device c))
             (CommandRequest.DeviceResourceName req))))
    (CommandRequest.Attributes req).

Lemma ReadDeviceResource_attributes c dr w :
  attributes c <> "" ->
  ProfileDeviceResource (Device.ProfileName (device c)) (sourceName c)
    = Some dr ->
  ResourceProperties.ReadWrite (DeviceResource.Properties dr)
    <> v2.ReadWrite_W ->
  exists attrs rest,
    log (snd (ReadDeviceResource c w))
    = (log w
       ++ EvHandleReadCommands (Device.Name (device c))
            [CommandRequest.mk (DeviceResource.Name dr) attrs
               (ResourceProperties.ValueType (DeviceResource.Properties dr))]
          :: rest)%list
    /\ requestMap (attributes c) (heap w)
         (heap (snd (ReadDeviceResource c w)))
         (DeviceResource.Attributes dr) attrs
    /\ framed (attributes c) (fun l => DeviceResource.Attributes dr = Some l)
         (heap w) (heap (snd (ReadDeviceResource c w))).
Proof.
  intros Hq Hdr Hrw. unfold ReadDeviceResource. rewrite Hdr. cbv zeta.
  destruct (String.eqb_spec
    (ResourceProperties.ReadWrite (DeviceResource.Properties dr))
    v2.ReadWrite_W); [contradiction|].
  destruct (prepareAttributes_merge (DeviceResource.Attributes dr)
              (attributes c) w Hq) as (attrs & w1 & Hp & Hlog & Hreq & Hfr).
  unfold bind. rewrite Hp.
  unfold driverRead, toEvent, bind, tell, getHeap, ret, raise. cbn.
  destruct (HandleReadCommands _ _ _ _) as [results [err|]]; cbn.
  - exists attrs, []. rewrite Hlog. auto.
  - destruct (CommandValuesToEventDTO _ _ _) as [res [e|]]; cbn;
      eexists attrs, [_]; rewrite Hlog, <- app_assoc; auto.
Qed.

Lemma readRequests_attributes c dc ops :
  attributes c <> "" ->
  forall w,
    log (snd (readRequests c dc ops w)) = log w
    /\ framed (attributes c) (declaredBy c ops) (heap w)
         (heap (snd (readRequests c dc ops w)))
    /\ match fst (readRequests c dc ops w) with
       | Done reqs =>
           Forall2 (readRequest c (heap w)
                      (heap (snd (readRequests c dc ops w)))) ops reqs
       | Raise _ => True
       | Panic => False
       end.
Proof.
  intros Hq. induction ops as [|op rest IH]; intros w; cbn [readRequests].
  - cbn. split; [reflexivity|]. split; [apply framed_refl|constructor].
  - destruct (ProfileDeviceResource _ _) as [dr|] eqn:Hdr.
    2:{ cbn. split; [reflexivity|]. split; [apply framed_refl|exact I]. }
    destruct (prepareAttributes_merge (DeviceResource.Attributes dr)
                (attributes c) w Hq) as (attrs & w1 & Hp & Hlog & Hreq & Hfr).
    unfold bind. rewrite Hp.
    destruct (IH w1) as (Hlog' & Hfr' & Hres).
    assert (Hall : framed (attributes c) (declaredBy c (op :: rest)) (heap w)
                     (heap (snd (readRequests c dc rest w1)))).
    { eapply framed_trans; [| |exact Hfr|exact Hfr'].
      - intros l Hl. exists op, dr. split; [left; reflexivity|]. auto.
      - intros l (ro & dr' & Hin & H). exists ro, dr'.
        split; [right; exact Hin|exact H]. }
    destruct (readRequests c dc rest w1) as [[reqs|e|] w2];
      cbn in Hlog', Hfr', Hres, Hall |- *; [| |contradiction].
    + split; [congruence|]. split; [exact Hall|]. constructor.
      * exists dr. split; [exact Hdr|]. split; [reflexivity|]. cbn.
        eapply requestMap_later; [exact Hreq|exact Hfr'].
      * eapply Forall2_impl; [exact Hres|].
        intros ro req (dr' & Hdr' & Hname & Hmap). exists dr'.
        split; [exact Hdr'|]. split; [exact Hname|].
        eapply requestMap_earlier; [exact Hfr|exact Hmap].
    + split; [congruence|]. split; [exact Hall|exact I].
Qed.

Lemma ReadDeviceCommand_attributes c dc w :
  attributes c <> "" ->
  ProfileDeviceCommand (Device.ProfileName (device c)) (sourceName c)
    = Some dc ->
  framed (attributes c)
    (declaredBy c (DeviceCommand.ResourceOperations dc)) (heap w)
    (heap (snd (ReadDeviceCommand c w)))
  /\ (driverCalls (log (snd (ReadDeviceCommand c w))) = driverCalls (log w)
      \/ exists reqs rest,
           log (snd (ReadDeviceCommand c w))
           = (log w ++ EvHandleReadCommands (Device.Name (device c)) reqs
                       :: rest)%list
           /\ Forall2 (readRequest c (heap w)
                         (heap (snd (ReadDeviceCommand c w))))
                (DeviceCommand.ResourceOperations dc) reqs).
Proof.
  intros Hq Hdc. unfold ReadDeviceCommand. rewrite Hdc.
  destruct (String.eqb _ _);
    [split; [apply framed_refl|left; reflexivity]|].
  destruct (_ <? _); [split; [apply framed_refl|left; reflexivity]|].
  destruct (readRequests_attributes c dc (DeviceCommand.ResourceOperations dc)
              Hq w) as (Hlog & Hfr & Hres).
  unfold bind.
  destruct (readRequests c dc _ w) as [[reqs|e|] w1]; cbn in Hlog, Hfr, Hres;
    [|split; [exact Hfr|left; cbn; congruence]|contradiction].
  unfold driverRead, toEvent, bind, tell, getHeap, ret, raise. cbn.
  destruct (HandleReadCommands _ _ _ _) as [results [err|]]; cbn.
  - split; [exact Hfr|]. right. exists reqs, []. rewrite Hlog. auto.
  - destruct (CommandValuesToEventDTO _ _ _) as [res [e|]]; cbn;
      (split; [exact Hfr|]); right; eexists reqs, [_];
      rewrite Hlog, <- app_assoc; auto.
Qed.

Lemma prepareCommandRequests_attributes c cvs :
  attributes c <> "" ->
  forall w,
    framed (attributes c) (declaredByValues c cvs) (heap w)
      (heap (snd (prepareCommandRequests c cvs w)))
    /\ match fst (prepareCommandRequests c cvs w) with
       | Done r =>
           Forall (writeRequest c (heap w)
                     (heap (snd (prepareCommandRequests c cvs w)))) (fst r)
       | _ => True
       end.
Proof.
  intros Hq. induction cvs as [|[cv|] rest IH]; intros w;
    cbn [prepareCommandRequests].
  - cbn. split; [apply framed_refl|constructor].
  - cbv zeta.
    set (dr := default DeviceResource.zero
                 (ProfileDeviceResource (Device.ProfileName (device c))
                    (CommandValue.DeviceResourceName cv))).
    destruct (prepareAttributes_merge (DeviceResource.Attributes dr)
                (attributes c) w Hq) as (attrs & w1 & Hp & _ & Hreq & Hfr).
    assert (Hfr1 : framed (attributes c) (declaredByValues c (Some cv :: rest))
                     (heap w) (heap w1)).
    { eapply framed_weaken; [|exact Hfr]. intros l Hl. subst dr.
      destruct (ProfileDeviceResource _ _) as [named|] eqn:Hnamed;
        [|discriminate Hl].
      exists cv, named. split; [left; reflexivity|]. auto. }
    unfold bind. rewrite Hp.
    pose proof (triple_heap _ _ _ _ _ w1 (transformWrite_triple "" cv dr))
      as Ht.
    destruct (transformWrite cv dr w1) as [[cv'|e|] w2]; cbn in Ht |- *;
      [|rewrite Ht; split; [exact Hfr1|exact I]..].
    destruct (IH w2) as [Hfr' Hres]. rewrite Ht in Hfr', Hres.
    assert (Hall : framed (attributes c)
                     (declaredByValues c (Some cv :: rest)) (heap w)
                     (heap (snd (prepareCommandRequests c rest w2)))).
    { eapply framed_trans; [| |exact Hfr1|exact Hfr'].
      - auto.
      - intros l (cv0 & named & Hin & H). exists cv0, named.
        split; [right; exact Hin|exact H]. }
    destruct (prepareCommandRequests c rest w2) as [[r|e|] w3];
      cbn in Hfr', Hres, Hall |- *; (split; [exact Hall|]); [|exact I..].
    constructor.
    + unfold writeRequest. cbn. fold dr.
      eapply requestMap_later; [exact Hreq|exact Hfr'].
    + eapply Forall_impl; [exact Hres|]. intros req Hmap.
      unfold writeRequest in *.
      eapply requestMap_earlier; [exact Hfr|exact Hmap].
  - cbn. split; [apply framed_refl|exact I].
Qed.

Lemma WriteDeviceResource_attributes c dr w :
  attributes c <> "" ->
  ProfileDeviceResource (Device.ProfileName (device c)) (sourceName c)
    = Some dr ->
  framed (attributes c) (fun l => DeviceResource.Attributes dr = Some l)
    (heap w) (heap (snd (WriteDeviceResource c w)))
  /\ (driverCalls (log (snd (WriteDeviceResource c w))) = driverCalls (log w)
      \/ exists before attrs cvs,
           log (snd (WriteDeviceResource c w))
           = (before
              ++ [EvHandleWriteCommands (Device.Name (device c))
                    [CommandRequest.mk (DeviceResource.Name dr) attrs
                       (ResourceProperties.ValueType
                          (DeviceResource.Properties dr))] cvs])%list
           /\ requestMap (attributes c) (heap w)
                (heap (snd (WriteDeviceResource c w)))
                (DeviceResource.Attributes dr) attrs).
Proof.
  intros Hq Hdr. unfold WriteDeviceResource. rewrite Hdr. cbv zeta.
  destruct (String.eqb _ _);
    [split; [apply framed_refl|left; reflexivity]|].
  unfold bind.
  pose proof (triple_heap _ _ _ _ _ w (parseBody_triple "" c)) as Hh1.
  pose proof (quiet_parseBody c w) as [_ Hc1].
  destruct (parseBody c w) as [[paramMap|e|] w1]; cbn [fst snd] in Hh1, Hc1 |- *;
    [|rewrite Hh1; split; [apply framed_refl|left; exact Hc1]..].
  assert (Hv : (exists v,
                  match paramMap !! DeviceResource.Name dr with
                  | Some v => ret v
                  | None =>
                      if negb (ResourceProperties.DefaultValue
                                 (DeviceResource.Properties dr) =? "")%string
                      then ret (ResourceProperties.DefaultValue
                                  (DeviceResource.Properties dr))
                      else raise
                             (NewCommonEdgeX KindServerError
                                ("deviceResource " ++ DeviceResource.Name dr
                                 ++ " not found in request body and no default value defined")
                                None)
                  end w1 = (Done v, w1))
               \/ exists e,
                  match paramMap !! DeviceResource.Name dr with
                  | Some v => ret v
                  | None =>
                      if negb (ResourceProperties.DefaultValue
                                 (DeviceResource.Properties dr) =? "")%string
                      then ret (ResourceProperties.DefaultValue
                                  (DeviceResource.Properties dr))
                      else raise
                             (NewCommonEdgeX KindServerError
                                ("deviceResource " ++ DeviceResource.Name dr
                                 ++ " not found in request body and no default value defined")
                                None)
                  end w1 = (Raise (A := string) e, w1)).
  { destruct (paramMap !! _); [left; eexists; reflexivity|].
    destruct (negb _); [left|right]; eexists; reflexivity. }
  destruct Hv as [[v ->]|[e ->]]; cbn [fst snd];
    [|rewrite Hh1; split; [apply framed_refl|left; exact Hc1]].
  pose proof (triple_heap _ _ _ _ _ w1 (createCommandValue_triple "" dr v))
    as Hh2.
  pose proof (quiet_createCommandValue dr v w1) as [_ Hc2].
  destruct (createCommandValue_triple "" dr v w1 I) as [_ Htag].
  destruct (createCommandValue dr v w1) as [[[cv|]|e|] w2];
    cbn [fst snd] in Hh2, Hc2, Htag |- *;
    [|unfold panic; cbn [fst snd]; rewrite Hh2, Hh1;
      split; [apply framed_refl|left; congruence]..].
  destruct Htag as (Hname & Htype & _).
  destruct (prepareAttributes_merge (DeviceResource.Attributes dr)
              (attributes c) w2 Hq) as (attrs & w3 & Hp & Hlog & Hreq & Hfr).
  rewrite Hh2, Hh1 in Hreq, Hfr. rewrite Hp.
  pose proof (triple_heap _ _ _ _ _ w3 (transformWrite_triple "" cv dr))
    as Hh4.
  pose proof (silent_transformWrite cv dr w3) as Hc4.
  destruct (transformWrite cv dr w3) as [[cv'|e|] w4]; cbn [fst snd] in Hh4, Hc4 |- *;
    [|rewrite Hh4; split; [exact Hfr|left; congruence]..].
  unfold driverWrite, bind, tell, getHeap, ret, raise. cbn.
  rewrite Hname, Htype.
  destruct (HandleWriteCommands _ _ _ _ _); cbn; rewrite Hh4;
    (split; [exact Hfr|]); right; exists (log w4), attrs, [Some cv'];
    (split; [reflexivity|exact Hreq]).
Qed.

Lemma Forall2_In_value {A B} (P : A -> B -> Prop) (l : list A)
    (l' : list B) (b : B) :
  Forall2 P l l' -> In b l' -> exists a, In a l /\ P a b.
Proof.
  induction 1 as [|a b' l l' Hab _ IH]; intros Hin; [contradiction|].
  destruct Hin as [->|Hin].
  - exists a. split; [left; reflexivity|exact Hab].
  - destruct (IH Hin) as (a' & Ha' & HP). exists a'.
    split; [right; exact Ha'|exact HP].
Qed.

Lemma WriteDeviceCommand_attributes c dc w :
  attributes c <> "" ->
  ProfileDeviceCommand (Device.ProfileName (device c)) (sourceName c)
    = Some dc ->
  framed (attributes c)
    (declaredByNamed c (DeviceCommand.ResourceOperations dc)) (heap w)
    (heap (snd (WriteDeviceCommand c w)))
  /\ (driverCalls (log (snd (WriteDeviceCommand c w))) = driverCalls (log w)
      \/ exists before reqs cvs,
           log (snd (WriteDeviceCommand c w))
           = (before ++ [EvHandleWriteCommands (Device.Name (device c))
                           reqs cvs])%list
           /\ Forall2 (fun ro req =>
                         exists dr,
                           ProfileDeviceResource
                             (Device.ProfileName (device c))
                             (ResourceOperation.DeviceResource ro) = Some dr
                           /\ CommandRequest.DeviceResourceName req
                              = DeviceResource.Name dr)
                (DeviceCommand.ResourceOperations dc) reqs
           /\ Forall (writeRequest c (heap w)
                        (heap (snd (WriteDeviceCommand c w)))) reqs).
Proof.
  intros Hq Hdc. unfold WriteDeviceCommand. rewrite Hdc.
  destruct (String.eqb _ _);
    [split; [apply framed_refl|left; reflexivity]|].
  destruct (_ <? _); [split; [apply framed_refl|left; reflexivity]|].
  unfold bind.
  pose proof (triple_heap _ _ _ _ _ w (parseBody_triple "" c)) as Hh1.
  pose proof (quiet_parseBody c w) as [_ Hc1].
  destruct (parseBody c w) as [[paramMap|e|] w1]; cbn [fst snd] in Hh1, Hc1 |- *;
    [|rewrite Hh1; split; [apply framed_refl|left; exact Hc1]..].
  pose proof (triple_heap _ _ _ _ _ w1
                (createCommandValues_triple "" c dc paramMap
                   (DeviceCommand.ResourceOperations dc) [])) as Hh2.
  pose proof (quiet_createCommandValues c dc paramMap
                (DeviceCommand.ResourceOperations dc) [] w1) as [_ Hc2].
  destruct (createCommandValues_triple "" c dc paramMap
              (DeviceCommand.ResourceOperations dc) [] w1 I) as [_ Hcvs].
  destruct (createCommandValues c dc paramMap _ [] w1) as [[cvs|e|] w2];
    cbn [fst snd] in Hh2, Hc2, Hcvs |- *;
    [|rewrite Hh2, Hh1; split; [apply framed_refl|left; congruence]..].
  destruct Hcvs as (new & -> & Hshape). cbn [app] in *.
  destruct (prepareCommandRequests_attributes c new Hq w2) as [Hfr Hres].
  rewrite Hh2, Hh1 in Hfr, Hres.
  assert (Hfr' : framed (attributes c)
                   (declaredByNamed c (DeviceCommand.ResourceOperations dc))
                   (heap w) (heap (snd (prepareCommandRequests c new w2)))).
  { eapply framed_weaken; [|exact Hfr].
    intros l (cv & named & Hin & Hnamed & Hl).
    destruct (Forall2_In_value _ _ _ _ Hshape Hin)
      as (ro & Hro & dr & Hdr & Hname & _).
    exists ro, dr, named. rewrite <- Hname. auto. }
  pose proof (silent_prepareCommandRequests c new w2) as Hc3.
  destruct (prepareCommandRequests_triple c new w2 I) as [_ Hpairs].
  destruct (prepareCommandRequests c new w2) as [[r|e|] w3];
    cbn [fst snd] in Hfr', Hres, Hc3, Hpairs |- *;
    [|split; [exact Hfr'|left; congruence]..].
  destruct Hpairs as (Hpairs & _).
  destruct (batch_shape c _ _ _ Hshape Hpairs) as [Hro _].
  unfold driverWrite, bind, tell, getHeap, ret, raise. cbn.
  destruct (HandleWriteCommands _ _ _ _ _); cbn;
    (split; [exact Hfr'|]); right; exists (log w3), (fst r), (snd r);
    (split; [reflexivity|]); (split; [|exact Hres]);
    (eapply Forall2_impl; [exact Hro|]);
    intros ro req (dr & Hdr & Hname & _); exists dr; auto.
Qed.

(** C3, amended. With a raw query present, the request gets a map of
    its own only when the declared attribute map has no entry: a map at
    a new address that holds the raw query alone, every map already
    there being left as it was. When the declared map has entries the
    request takes that very map and the raw query is stored into it
    under the reserved key, so that after the invocation the map of the
    declaration holds that entry too.

    This is so at the four places where a request is made. The first two
    parts state it for the lines that make the attributes of a request,
    and for the map of the declaration after ReadDeviceResource. The
    third part states it for every invocation of the four methods with
    that raw query: each request handed to the driver has the map
    described, against the maps before the invocation and after it; and
    whatever the invocation ends in, a map that was there before is as it
    was, unless it has entries and is declared by a resource the
    invocation makes a request for, and a map that was not there holds
    the raw query alone. The second loop of WriteDeviceCommand looks the
    resource up again under the name of the command value (line 372): the
    declared map is that of the resource so found. *)
Theorem declared_attributes_after_request (declared : mapRef)
    (query : string) (w : World) :
  query <> "" ->
  (mapLen (heap w) declared = 0%nat ->
     exists l,
       heap w !! l = None
       /\ fst (prepareAttributes declared query w) = Done (Some l)
       /\ heap (snd (prepareAttributes declared query w)) !! l
          = Some {[common.URLRawQuery := query]}
       /\ forall l', l' <> l ->
            heap (snd (prepareAttributes declared query w)) !! l'
            = heap w !! l')
  /\ (forall l m, declared = Some l -> heap w !! l = Some m -> m <> ∅ ->
      fst (prepareAttributes declared query w) = Done declared
      /\ heap (snd (prepareAttributes declared query w)) !! l
         = Some (<[common.URLRawQuery := query]> m)
      /\ forall c dr,
           ProfileDeviceResource (Device.ProfileName (device c))
             (sourceName c) = Some dr ->
           ResourceProperties.ReadWrite (DeviceResource.Properties dr)
             <> v2.ReadWrite_W ->
           DeviceResource.Attributes dr = declared ->
           attributes c = query ->
           heap (snd (ReadDeviceResource c w)) !! l
           = Some (<[common.URLRawQuery := query]> m))
  /\ (forall c, attributes c = query ->
      (forall dr,
         ProfileDeviceResource (Device.ProfileName (device c))
           (sourceName c) = Some dr ->
         ResourceProperties.ReadWrite (DeviceResource.Properties dr)
           <> v2.ReadWrite_W ->
         exists attrs rest,
           log (snd (ReadDeviceResource c w))
           = (log w
              ++ EvHandleReadCommands (Device.Name (device c))
                   [CommandRequest.mk (DeviceResource.Name dr) attrs
                      (ResourceProperties.ValueType
                         (DeviceResource.Properties dr))]
                 :: rest)%list
           /\ requestMap query (heap w)
                (heap (snd (ReadDeviceResource c w)))
                (DeviceResource.Attributes dr) attrs
           /\ framed query (fun l => DeviceResource.Attributes dr = Some l)
                (heap w) (heap (snd (ReadDeviceResource c w))))
      /\ (forall dc,
         ProfileDeviceCommand (Device.ProfileName (device c))
           (sourceName c) = Some dc ->
         framed query (declaredBy c (DeviceCommand.ResourceOperations dc))
           (heap w) (heap (snd (ReadDeviceCommand c w)))
         /\ (driverCalls (log (snd (ReadDeviceCommand c w)))
             <> driverCalls (log w) ->
             exists reqs rest,
               log (snd (ReadDeviceCommand c w))
               = (log w
                  ++ EvHandleReadCommands (Device.Name (device c)) reqs
                     :: rest)%list
               /\ Forall2 (readRequest c (heap w)
                             (heap (snd (ReadDeviceCommand c w))))
                    (DeviceCommand.ResourceOperations dc) reqs))
      /\ (forall dr,
         ProfileDeviceResource (Device.ProfileName (device c))
           (sourceName c) = Some dr ->
         framed query (fun l => DeviceResource.Attributes dr = Some l)
           (heap w) (heap (snd (WriteDeviceResource c w)))
         /\ (driverCalls (log (snd (WriteDeviceResource c w)))
             <> driverCalls (log w) ->
             exists before attrs cvs,
               log (snd (WriteDeviceResource c w))
               = (before
                  ++ [EvHandleWriteCommands (Device.Name (device c))
                        [CommandRequest.mk (DeviceResource.Name dr) attrs
                           (ResourceProperties.ValueType
                              (DeviceResource.Properties dr))] cvs])%list
               /\ requestMap query (heap w)
                    (heap (snd (WriteDeviceResource c w)))
                    (DeviceResource.Attributes dr) attrs))
      /\ (forall dc,
         ProfileDeviceCommand (Device.ProfileName (device c))
           (sourceName c) = Some dc ->
         framed query
           (declaredByNamed c (DeviceCommand.ResourceOperations dc))
           (heap w) (heap (snd (WriteDeviceCommand c w)))
         /\ (driverCalls (log (snd (WriteDeviceCommand c w)))
             <> driverCalls (log w) ->
             exists before reqs cvs,
               log (snd (WriteDeviceCommand c w))
               = (before
                  ++ [EvHandleWriteCommands (Device.Name (device c))
                        reqs cvs])%list
               /\ Forall2 (fun ro req =>
                             exists dr,
                               ProfileDeviceResource
                                 (Device.ProfileName (device c))
                                 (ResourceOperation.DeviceResource ro)
                               = Some dr
                               /\ CommandRequest.DeviceResourceName req
                                  = DeviceResource.Name dr)
                    (DeviceCommand.ResourceOperations dc) reqs
               /\ Forall (writeRequest c (heap w)
                            (heap (snd (WriteDeviceCommand c w)))) reqs))).
Proof.
  intros Hq. split; [|split].
  - intros Hlen. exists (fresh (dom (heap w))).
    rewrite (prepareAttributes_fresh declared query w Hq Hlen). cbn.
    split; [apply not_elem_of_dom, is_fresh|].
    split; [reflexivity|]. split; [apply lookup_insert_eq|].
    intros l' Hne. apply lookup_insert_ne. congruence.
  - intros l m -> Hm Hne.
    rewrite (prepareAttributes_shared l m query w Hq Hm Hne). cbn.
    split; [reflexivity|]. split; [apply lookup_insert_eq|].
    intros c dr Hdr Hrw Hattrs Hquery.
    rewrite (ReadDeviceResource_heap c dr w Hdr Hrw), Hattrs, Hquery.
    rewrite (prepareAttributes_shared l m query w Hq Hm Hne). cbn.
    apply lookup_insert_eq.
  - intros c <-. split; [|split; [|split]].
    + intros dr Hdr Hrw.
      exact (ReadDeviceResource_attributes c dr w Hq Hdr Hrw).
    + intros dc Hdc.
      destruct (ReadDeviceCommand_attributes c dc w Hq Hdc) as [Hfr Hcall].
      split; [exact Hfr|]. intros Hne.
      destruct Hcall as [Hsame|Hcall]; [contradiction|exact Hcall].
    + intros dr Hdr.
      destruct (WriteDeviceResource_attributes c dr w Hq Hdr)
        as [Hfr Hcall].
      split; [exact Hfr|]. intros Hne.
      destruct Hcall as [Hsame|Hcall]; [contradiction|exact Hcall].
    + intros dc Hdc.
      destruct (WriteDeviceCommand_attributes c dc w Hq Hdc)
        as [Hfr Hcall].
      split; [exact Hfr|]. intros Hne.
      destruct Hcall as [Hsame|Hcall]; [contradiction|exact Hcall].
Qed.

End Attributes.

(** ** The properties above on the test double *)

(** The double with a driver that is offline: both capabilities fail
    with [cause] on every call. *)
Definition offline (cause : error) : Collaborators :=
  let up := Double.collaborators models.Unlocked 10 in {|
  atofNumeric := @atofNumeric up;
  jsonParams := @jsonParams up;
  jsonBools := @jsonBools up;
  jsonInts := @jsonInts up;
  jsonFloats := @jsonFloats up;
  rangeOrder := @rangeOrder up;
  rangeOrder_perm := @rangeOrder_perm up;
  DeviceForName := @DeviceForName up;
  ProfileDeviceCommand := @ProfileDeviceCommand up;
  ProfileDeviceResource := @ProfileDeviceResource up;
  serviceAdminState := @serviceAdminState up;
  configuration := @configuration up;
  HandleReadCommands := fun _ _ _ _ => ([], Some cause);
  HandleWriteCommands := fun _ _ _ _ _ => Some cause;
  TransformWriteParameter := @TransformWriteParameter up;
  EventDTO := @EventDTO up;
  CommandValuesToEventDTO := @CommandValuesToEventDTO up
|}.

(** Resources of an unsigned kind, of an unsigned array kind, of the
    Binary kind and of a signed kind. *)
Definition levelResource : DeviceResource.t :=
  DeviceResource.mk "Level"
    (ResourceProperties.mk v2.ValueTypeUint8 v2.ReadWrite_RW "") None.

Definition levelsResource : DeviceResource.t :=
  DeviceResource.mk "Levels"
    (ResourceProperties.mk v2.ValueTypeUint8Array v2.ReadWrite_RW "") None.

Definition imageResource : DeviceResource.t :=
  DeviceResource.mk "Image"
    (ResourceProperties.mk v2.ValueTypeBinary v2.ReadWrite_RW "") None.

Definition countResource : DeviceResource.t :=
  DeviceResource.mk "Count"
    (ResourceProperties.mk v2.ValueTypeInt8 v2.ReadWrite_RW "") None.

(** X2 on the double: 255 is a Uint8, 256 is not. *)
Lemma unsigned_decimal_round_trip_witness :
  createCommandValueFromDeviceResource
    (collaborators := Double.collaborators models.Unlocked 10)
    levelResource "255"
  = (Some (CommandValue.mk "Level" v2.ValueTypeUint8 (VUint 8 255)), None)
  /\ serverError
       (createCommandValueFromDeviceResource
          (collaborators := Double.collaborators models.Unlocked 10)
          levelResource "256").
Proof.
  split.
  - apply (proj1 (unsigned_decimal_round_trip
                    (collaborators := Double.collaborators models.Unlocked 10)
                    levelResource v2.ValueTypeUint8 8 255
                    (or_introl eq_refl) eq_refl ltac:(lia))).
    reflexivity.
  - apply (proj2 (unsigned_decimal_round_trip
                    (collaborators := Double.collaborators models.Unlocked 10)
                    levelResource v2.ValueTypeUint8 8 256
                    (or_introl eq_refl) eq_refl ltac:(lia))).
    discriminate.
Defined.

(** X3 on the double: -128 is an Int8, 128 is not. *)
Lemma signed_decimal_round_trip_witness :
  createCommandValueFromDeviceResource
    (collaborators := Double.collaborators models.Unlocked 10)
    countResource "-128"
  = (Some (CommandValue.mk "Count" v2.ValueTypeInt8 (VInt 8 (-128))), None)
  /\ serverError
       (createCommandValueFromDeviceResource
          (collaborators := Double.collaborators models.Unlocked 10)
          countResource "128").
Proof.
  split.
  - apply (proj1 (signed_decimal_round_trip
                    (collaborators := Double.collaborators models.Unlocked 10)
                    countResource v2.ValueTypeInt8 8 (-128)
                    (or_introl eq_refl) eq_refl)).
    split; [reflexivity|reflexivity].
  - apply (proj2 (signed_decimal_round_trip
                    (collaborators := Double.collaborators models.Unlocked 10)
                    countResource v2.ValueTypeInt8 8 128
                    (or_introl eq_refl) eq_refl)).
    right. discriminate.
Defined.

(** X4 on the double: three numbers with blanks, a piece that is no
    number, and the empty array. *)
Lemma unsigned_array_decoding_witness :
  createCommandValueFromDeviceResource
    (collaborators := Double.collaborators models.Unlocked 10)
    levelsResource "[1, 2 ,255]"
  = (Some (CommandValue.mk "Levels" v2.ValueTypeUint8Array
             (VUintArray 8 [1; 2; 255])), None)
  /\ serverError
       (createCommandValueFromDeviceResource
          (collaborators := Double.collaborators models.Unlocked 10)
          levelsResource "[1,256]")
  /\ serverError
       (createCommandValueFromDeviceResource
          (collaborators := Double.collaborators models.Unlocked 10)
          levelsResource "[]").
Proof.
  split; [|split].
  - apply (proj1 (unsigned_array_decoding
                    (collaborators := Double.collaborators models.Unlocked 10)
                    levelsResource "[1, 2 ,255]" v2.ValueTypeUint8Array 8
                    (or_introl eq_refl) eq_refl) [1; 2; 255]).
    repeat constructor.
  - apply (proj1 (proj2 (unsigned_array_decoding
                    (collaborators := Double.collaborators models.Unlocked 10)
                    levelsResource "[1,256]" v2.ValueTypeUint8Array 8
                    (or_introl eq_refl) eq_refl))).
    apply Exists_cons_tl, Exists_cons_hd. exists strconv.ErrRange.
    reflexivity.
  - apply (proj2 (proj2 (unsigned_array_decoding
                    (collaborators := Double.collaborators models.Unlocked 10)
                    levelsResource "[]" v2.ValueTypeUint8Array 8
                    (or_introl eq_refl) eq_refl))).
    reflexivity.
Defined.

(** X5 on the bytes of 1.5 as a float32, with one byte too many, and on
    three bytes. *)
Lemma float_from_bytes_prefix_witness :
  float32FromBytes [63; 192; 0; 0; 7] = inl 1069547520
  /\ exists e, float32FromBytes [63; 192; 0] = inr e.
Proof.
  split.
  - apply (proj1 (proj2 (proj2 (float_from_bytes_prefix [] [7] 1069547520)))).
    split; [discriminate|reflexivity].
  - apply (proj1 (float_from_bytes_prefix [63; 192; 0] [] 0)).
    cbn. lia.
Defined.

(** X6 on the double: a write to the read-only Serial. *)
Lemma CommandHandler_error_kinds_witness :
  exists e k,
    fst (Double.handle models.Unlocked false "thermostat" "Serial"
           (Double.object [("Serial", "S-1")])) = Raise e
    /\ kindOf e = Some k
    /\ In k [KindServiceLocked; KindEntityDoesNotExist; KindNotAllowed;
             KindServerError; KindContractInvalid].
Proof.
  eexists.
  destruct (CommandHandler_error_kinds
              (collaborators := Double.collaborators models.Unlocked 10)
              false true "correlation" (Double.vars "thermostat" "Serial")
              (Double.object [("Serial", "S-1")]) "" Double.world
              _ eq_refl) as (k & Hk & Hin & _).
  exists k. split; [reflexivity|]. split; [exact Hk|exact Hin].
Defined.

(** X9 on the double: a write of a text that is no float to the float
    resource Temperature. *)
Lemma CommandHandler_panics_witness :
  fst (Double.handle models.Unlocked false "thermostat" "Temperature"
         (Double.object [("Temperature", "zz")])) = Panic
  /\ floatTarget (collaborators := Double.collaborators models.Unlocked 10)
       (Double.vars "thermostat" "Temperature")
       (Double.object [("Temperature", "zz")]) "" "correlation".
Proof.
  split; [reflexivity|].
  apply (CommandHandler_panics
           (collaborators := Double.collaborators models.Unlocked 10)
           false true "correlation" (Double.vars "thermostat" "Temperature")
           (Double.object [("Temperature", "zz")]) "" Double.world).
  reflexivity.
Defined.

(** X10 on the double: the requests of the command Status. *)
Lemma readRequests_shape_witness :
  Forall2 (reqShape (collaborators := Double.collaborators models.Unlocked 10)
             (Double.processor "Status" "" ""))
    [ResourceOperation.mk "Count" "" ∅;
     ResourceOperation.mk "Temperature" "" ∅]
    [CommandRequest.mk "Count" None v2.ValueTypeInt8;
     CommandRequest.mk "Temperature" (Some 0%nat) v2.ValueTypeFloat32].
Proof.
  apply (readRequests_shape
           (collaborators := Double.collaborators models.Unlocked 10)
           (Double.processor "Status" "" "")
           (DeviceCommand.mk "Status" v2.ReadWrite_R
              [ResourceOperation.mk "Count" "" ∅;
               ResourceOperation.mk "Temperature" "" ∅])
           [ResourceOperation.mk "Count" "" ∅;
            ResourceOperation.mk "Temperature" "" ∅]
           Double.world Double.world
           [CommandRequest.mk "Count" None v2.ValueTypeInt8;
            CommandRequest.mk "Temperature" (Some 0%nat) v2.ValueTypeFloat32]).
  reflexivity.
Defined.


(** X12 on the double: the empty object sent to Count and a text that is
    no JSON sent to Batch. *)
Lemma rejected_body_witness :
  (outcomeKind (fst (Double.writeResource "Count" "{}"))
   = Some KindServerError
   /\ snd (Double.writeResource "Count" "{}")
      = mkWorld (heap Double.world) [EvParseParams "{}"])
  /\ (outcomeKind (fst (Double.writeCommand 10 "Batch" "5"))
      = Some KindServerError
      /\ snd (Double.writeCommand 10 "Batch" "5")
         = mkWorld (heap Double.world) [EvParseParams "5"]).
Proof.
  split.
  - apply (proj1 (rejected_body
                    (collaborators := Double.collaborators models.Unlocked 10)
                    (Double.processor "Count" "{}" "") Double.world
                    (or_intror eq_refl)) countResource).
    + reflexivity.
    + discriminate.
  - apply (proj2 (rejected_body
                    (collaborators := Double.collaborators models.Unlocked 10)
                    (Double.processor "Batch" "5" "") Double.world
                    (or_introl eq_refl))
             (DeviceCommand.mk "Batch" v2.ReadWrite_RW
                [ResourceOperation.mk "Count" "" ∅;
                 ResourceOperation.mk "Temperature" "" ∅;
                 ResourceOperation.mk "Mode" "" Double.onOff])).
    + reflexivity.
    + discriminate.
    + cbn. lia.
Defined.

(** X13 on the double: Mode, whose default is AUTO, written with an
    empty text and written with a body that does not name it. *)
Lemma WriteDeviceResource_value_witness :
  (exists rest,
     log (snd (Double.writeResource "Mode" (Double.object [("Mode", "")])))
     = [EvParseParams (Double.object [("Mode", "")]);
        EvCreateCommandValue "Mode" ""] ++ rest)%list
  /\ (exists rest,
     log (snd (Double.writeResource "Mode" (Double.object [("Count", "5")])))
     = [EvParseParams (Double.object [("Count", "5")]);
        EvCreateCommandValue "Mode" "AUTO"] ++ rest)%list.
Proof.
  split.
  - apply (proj1 (WriteDeviceResource_value
                    (collaborators := Double.collaborators models.Unlocked 10)
                    (Double.processor "Mode" (Double.object [("Mode", "")]) "")
                    (DeviceResource.mk "Mode"
                       (ResourceProperties.mk v2.ValueTypeString
                          v2.ReadWrite_RW "AUTO") None)
                    (<["Mode" := ""]> ∅) Double.world
                    (mkWorld (heap Double.world)
                       [EvParseParams (Double.object [("Mode", "")])])
                    eq_refl ltac:(discriminate) eq_refl) "").
    reflexivity.
  - apply (proj1 (proj2 (WriteDeviceResource_value
                    (collaborators := Double.collaborators models.Unlocked 10)
                    (Double.processor "Mode"
                       (Double.object [("Count", "5")]) "")
                    (DeviceResource.mk "Mode"
                       (ResourceProperties.mk v2.ValueTypeString
                          v2.ReadWrite_RW "AUTO") None)
                    (<["Count" := "5"]> ∅) Double.world
                    (mkWorld (heap Double.world)
                       [EvParseParams (Double.object [("Count", "5")])])
                    eq_refl ltac:(discriminate) eq_refl))).
    + reflexivity.
    + discriminate.
Defined.

(** X14 on the double: a name that is neither a command nor a resource
    of the profile. *)
Lemma unknown_operation_witness :
  rejects KindEntityDoesNotExist
    (CommandHandler (collaborators := Double.collaborators models.Unlocked 10)
       true true "correlation" (Double.vars "thermostat" "Humidity") "" "")
    Double.world.
Proof.
  apply (unknown_operation
           (collaborators := Double.collaborators models.Unlocked 10)
           true true "correlation" (Double.vars "thermostat" "Humidity") "" ""
           Double.world Double.thermostat).
  - discriminate.
  - reflexivity.
  - discriminate.
  - discriminate.
  - reflexivity.
  - reflexivity.
Defined.

(** X15 on the double with the driver offline: a read of Count. *)
Lemma driver_failure_witness :
  exists message,
    fst (CommandHandler (collaborators := offline (ForeignError "timeout"))
           true true "correlation" (Double.vars "thermostat" "Count") "" ""
           Double.world)
    = Raise (CommonEdgeX KindServerError message
               (Some (ForeignError "timeout"))).
Proof.
  destruct (proj2 (driver_failure
                     (collaborators := offline (ForeignError "timeout"))
                     (ForeignError "timeout") true true "correlation"
                     (Double.vars "thermostat" "Count") "" "" Double.world
                     (fun _ _ _ _ => eq_refl) (fun _ _ _ _ _ => eq_refl)))
    as [H|(message & before & call & H & _)].
  - vm_compute in H. discriminate H.
  - exists message. exact H.
Defined.

(** X16 on the double: a read of Count. *)
Lemma single_read_calls_witness :
  exists dr attrs,
    log (snd (Double.readResource "Count" ""))
    = [EvHandleReadCommands "thermostat"
         [CommandRequest.mk (DeviceResource.Name dr) attrs
            (ResourceProperties.ValueType (DeviceResource.Properties dr))];
       EvCommandValuesToEventDTO "thermostat" (DeviceResource.Name dr)].
Proof.
  destruct (single_read_calls
              (collaborators := Double.collaborators models.Unlocked 10)
              (Double.processor "Count" "" "") Double.world
              (snd (Double.readResource "Count" ""))
              (Some []) eq_refl)
    as (dr & attrs & _ & _ & Hlog & _).
  exists dr, attrs. exact Hlog.
Defined.

(** X17 on the double: a read of the command Status. *)
Lemma composite_read_calls_witness :
  exists reqs,
    length reqs = 2%nat
    /\ log (snd (Double.readCommand 10 "Status"))
       = [EvHandleReadCommands "thermostat" reqs;
          EvCommandValuesToEventDTO "thermostat" "Status"].
Proof.
  destruct (composite_read_calls
              (collaborators := Double.collaborators models.Unlocked 10)
              (Double.processor "Status" "" "") Double.world
              (snd (Double.readCommand 10 "Status"))
              (Some []) eq_refl)
    as (dc & reqs & Hdc & _ & _ & Hshape & Hlog).
  vm_compute in Hdc. injection Hdc as <-.
  exists reqs. split; [|exact Hlog].
  symmetry. apply (Forall2_length _ _ _ Hshape).
Defined.

(** X18 on the double: a write of 5 to Count. *)
Lemma single_write_calls_witness :
  exists cv attrs,
    log (snd (Double.writeResource "Count" (Double.object [("Count", "5")])))
    = [EvParseParams (Double.object [("Count", "5")]);
       EvCreateCommandValue "Count" "5";
       EvHandleWriteCommands "thermostat"
         [CommandRequest.mk "Count" attrs v2.ValueTypeInt8] [Some cv]].
Proof.
  destruct (single_write_calls
              (collaborators := Double.collaborators models.Unlocked 10)
              (Double.processor "Count" (Double.object [("Count", "5")]) "")
              Double.world
              (snd (Double.writeResource "Count"
                      (Double.object [("Count", "5")])))
              eq_refl)
    as (dr & v & cv & cv' & attrs & Hdr & Hcv & _ & Ht & Hlog).
  vm_compute in Hdr. injection Hdr as <-.
  assert (v = "5") as ->.
  { apply (f_equal (fun l => nth 1 l (EvParseParams ""))) in Hlog.
    vm_compute in Hlog. congruence. }
  exists cv', attrs. exact Hlog.
Defined.

(** X19 on the double: a resource of the Binary kind. *)
Lemma unrecognized_kinds_witness :
  createCommandValueFromDeviceResource
    (collaborators := Double.collaborators models.Unlocked 10)
    imageResource "AAEC"
  = (None, Some (CommonEdgeX KindServerError "unrecognized value type" None)).
Proof.
  apply (unrecognized_kinds
           (collaborators := Double.collaborators models.Unlocked 10)
           imageResource "AAEC").
  cbn. intros H. repeat destruct H as [H|H]; try discriminate H. exact H.
Defined.

(** C3, amended, on the double: a request for a resource without
    declared attributes; and the map that the profile declares for
    Temperature after a read of Temperature, after a read of the command
    Status, after a write of Temperature and after a write of the
    command Batch, all with a raw query. *)
Lemma declared_attributes_after_request_witness :
  (exists l,
     heap Double.world !! l = None
     /\ fst (prepareAttributes None "unit=C" Double.world) = Done (Some l)
     /\ heap (snd (prepareAttributes None "unit=C" Double.world)) !! l
        = Some {[common.URLRawQuery := "unit=C"]}
     /\ forall l', l' <> l ->
          heap (snd (prepareAttributes None "unit=C" Double.world)) !! l'
          = heap Double.world !! l')
  /\ heap (snd (Double.readResource "Temperature" "unit=C")) !! 0%nat
     = Some (<[common.URLRawQuery := "unit=C"]> (<["register" := "40001"]> ∅))
  /\ heap (snd (ReadDeviceCommand
                  (collaborators := Double.collaborators models.Unlocked 10)
                  (Double.processor "Status" "" "unit=C") Double.world))
       !! 0%nat
     = Some (<[common.URLRawQuery := "unit=C"]> (<["register" := "40001"]> ∅))
  /\ heap (snd (WriteDeviceResource
                  (collaborators := Double.collaborators models.Unlocked 10)
                  (Double.processor "Temperature"
                     (Double.object [("Temperature", "NaN")]) "unit=C")
                  Double.world))
       !! 0%nat
     = Some (<[common.URLRawQuery := "unit=C"]> (<["register" := "40001"]> ∅))
  /\ heap (snd (WriteDeviceCommand
                  (collaborators := Double.collaborators models.Unlocked 10)
                  (Double.processor "Batch"
                     (Double.object [("Count", "5"); ("Temperature", "NaN");
                                     ("Mode", "ON")]) "unit=C")
                  Double.world))
       !! 0%nat
     = Some (<[common.URLRawQuery := "unit=C"]> (<["register" := "40001"]> ∅)).
Proof.
  assert (Hne : (<["register" := "40001"]> ∅ : gmap string string) <> ∅).
  { intros H. apply (f_equal (fun m => m !! "register")) in H.
    discriminate H. }
  split; [|split; [|split; [|split]]].
  - apply (proj1 (declared_attributes_after_request
                    (collaborators := Double.collaborators models.Unlocked 10)
                    None "unit=C" Double.world ltac:(discriminate))).
    reflexivity.
  - refine (proj2 (proj2 (proj1 (proj2 (declared_attributes_after_request
                    (collaborators := Double.collaborators models.Unlocked 10)
                    (Some 0%nat) "unit=C" Double.world ltac:(discriminate)))
             0%nat (<["register" := "40001"]> ∅) eq_refl eq_refl Hne))
             (Double.processor "Temperature" "" "unit=C")
             (DeviceResource.mk "Temperature"
                (ResourceProperties.mk v2.ValueTypeFloat32 v2.ReadWrite_RW "")
                (Some 0%nat))
             eq_refl _ eq_refl eq_refl).
    discriminate.
  - destruct (proj2 (proj1 (proj2 (proj2 (proj2
               (declared_attributes_after_request
                  (collaborators := Double.collaborators models.Unlocked 10)
                  None "unit=C" Double.world ltac:(discriminate)))
               (Double.processor "Status" "" "unit=C") eq_refl))
               (DeviceCommand.mk "Status" v2.ReadWrite_R
                  [ResourceOperation.mk "Count" "" ∅;
                   ResourceOperation.mk "Temperature" "" ∅]) eq_refl))
      as (reqs & rest & _ & Hreqs).
    + intros H. vm_compute in H. discriminate H.
    + inversion Hreqs as [|ro1 r1 ops1 reqs1 _ Hrest]; subst.
      inversion Hrest as [|ro2 r2 ops2 reqs2 (dr & Hdr & _ & Hmap) _]; subst.
      vm_compute in Hdr. injection Hdr as <-.
      exact (proj2 (proj2 Hmap 0%nat (<["register" := "40001"]> ∅)
                      eq_refl eq_refl Hne)).
  - destruct (proj2 (proj1 (proj2 (proj2 (proj2 (proj2
               (declared_attributes_after_request
                  (collaborators := Double.collaborators models.Unlocked 10)
                  None "unit=C" Double.world ltac:(discriminate)))
               (Double.processor "Temperature"
                  (Double.object [("Temperature", "NaN")]) "unit=C")
               eq_refl)))
               (DeviceResource.mk "Temperature"
                  (ResourceProperties.mk v2.ValueTypeFloat32
                     v2.ReadWrite_RW "")
                  (Some 0%nat)) eq_refl))
      as (before & attrs & cvs & _ & Hmap).
    + intros H. vm_compute in H. discriminate H.
    + exact (proj2 (proj2 Hmap 0%nat (<["register" := "40001"]> ∅)
                      eq_refl eq_refl Hne)).
  - destruct (proj2 (proj2 (proj2 (proj2 (proj2 (proj2
               (declared_attributes_after_request
                  (collaborators := Double.collaborators models.Unlocked 10)
                  None "unit=C" Double.world ltac:(discriminate)))
               (Double.processor "Batch"
                  (Double.object [("Count", "5"); ("Temperature", "NaN");
                                  ("Mode", "ON")]) "unit=C") eq_refl)))
               (DeviceCommand.mk "Batch" v2.ReadWrite_RW
                  [ResourceOperation.mk "Count" "" ∅;
                   ResourceOperation.mk "Temperature" "" ∅;
                   ResourceOperation.mk "Mode" "" Double.onOff]) eq_refl))
      as (before & reqs & cvs & _ & Hnames & Hall).
    + intros H. vm_compute in H. discriminate H.
    + inversion Hnames as [|ro1 r1 ops1 reqs1 _ Hrest]; subst.
      inversion Hrest as [|ro2 r2 ops2 reqs2 (dr & Hdr & Hname) _]; subst.
      vm_compute in Hdr. injection Hdr as <-. cbn in Hname.
      inversion Hall as [|? ? _ Hall1]; subst.
      inversion Hall1 as [|? ? Hmap _]; subst.
      unfold writeRequest in Hmap. rewrite Hname in Hmap.
      exact (proj2 (proj2 Hmap 0%nat (<["register" := "40001"]> ∅)
                      eq_refl eq_refl Hne)).
Defined.
